(** * Dual-arm self-collision monitoring: configuration pipeline and
      client/server protocol

    A shallow embedding of

    - [readDualArmSelfCollisionModelFromJson.py] (the configuration loader),
    - [collision_detection_server.py] (marshalling of the engine parameters,
      start-up sequence, per-connection request loop),
    - [robot_arm_client.py] (per-arm telemetry reads, verdict handling,
      emergency stop),

    followed by the properties established about them.

    The native collision engine ([dual_arm_collision], imported as [dac])
    and the arm SDK ([CPSClient]) are external: they appear as interfaces
    whose operations may return or raise, and every statement below holds
    for every implementation of them. *)

From Stdlib Require Import ZArith List String Ascii.
From Stdlib Require Import Floats.PrimFloat.
From stdpp Require Import base option list strings.

Local Open Scope Z_scope.
Local Open Scope string_scope.
Local Open Scope list_scope.

(* ===================================================================== *)
(** ** Python values, exceptions and the operations the code applies      *)
(* ===================================================================== *)

Module Py.

(** The values the three scripts move around are what [json.loads]
    produces and [json.dumps] consumes.  A [VDict] lists the items of
    the dictionary in insertion order (keys are distinct, as in any
    Python dict); [VFloat] is an IEEE binary64, as a Python float. *)
#[warnings="-register-all"] Inductive value : Type :=
| VNone
| VBool (b : bool)
| VInt (z : Z)
| VFloat (f : float)
| VStr (s : string)
| VList (l : list value)
| VDict (d : list (string * value)).

(** Exception classes that occur in the modelled paths.  [NativeError]
    stands for whatever a call into the engine or the SDK raises; its
    payload is [str(e)].  The two [RuntimeError]s are the two [raise]
    statements of the loader. *)
Inductive exn : Type :=
| FileNotFoundError
| OSError
| JSONDecodeError
| UnicodeDecodeError
| AttributeError
| TypeError
| KeyError
| IndexError
| ValueError
| ConnectionError
| NativeError (msg : string)
| RuntimeError_cannot_open (file_path : string)
| RuntimeError_json_parse (cause : exn).

Inductive result (A : Type) : Type :=
| Ok (a : A)
| Raise (e : exn).
Arguments Ok {A} a.
Arguments Raise {A} e.

Definition is_ok {A} (r : result A) : bool :=
  match r with Ok _ => true | Raise _ => false end.

(** *** Computations that mutate a store and may raise

    A raised exception keeps the store as it was at the point of the
    [raise]: assignments already performed stay performed. *)
Definition M (S A : Type) : Type := S -> result A * S.

Definition ret {S A} (a : A) : M S A := fun s => (Ok a, s).

Definition bind {S A B} (m : M S A) (k : A -> M S B) : M S B :=
  fun s =>
    match m s with
    | (Ok a, s') => k a s'
    | (Raise e, s') => (Raise e, s')
    end.

Definition lift {S A} (r : result A) : M S A := fun s => (r, s).

Definition assign {S} (f : S -> S) : M S unit := fun s => (Ok tt, f s).

Definition gets {S A} (f : S -> A) : M S A := fun s => (Ok (f s), s).

Definition raise {S A} (e : exn) : M S A := fun s => (Raise e, s).

(** Run a computation on a sub-object reached through a field. *)
Definition zoom {S T A} (get : S -> T) (set : T -> S -> S) (m : M T A) : M S A :=
  fun s => let (r, t') := m (get s) in (r, set t' s).

(** *** Dictionaries *)
Fixpoint dict_lookup (k : string) (d : list (string * value)) : option value :=
  match d with
  | [] => None
  | (k', v) :: d' => if bool_decide (k' = k) then Some v else dict_lookup k d'
  end.

(** [v.get(k, dflt)]: only dictionaries have the method. *)
Definition get (v : value) (k : string) (dflt : value) : result value :=
  match v with
  | VDict d => Ok (default dflt (dict_lookup k d))
  | _ => Raise AttributeError
  end.

(** [v.get(k)], the default being [None]. *)
Definition get1 (v : value) (k : string) : result value := get v k VNone.

(** [v[k]] for a string key. *)
Definition getitem_str (v : value) (k : string) : result value :=
  match v with
  | VDict d =>
      match dict_lookup k d with Some x => Ok x | None => Raise KeyError end
  | _ => Raise TypeError
  end.

(** The characters of a string, each as a one-character string. *)
Fixpoint chars (s : string) : list value :=
  match s with
  | EmptyString => []
  | String c s' => VStr (String c EmptyString) :: chars s'
  end.

(** [v[i]] for a non-negative integer index.  Keys of a dictionary read
    from JSON are strings, so an integer key is never present. *)
Definition getitem_int (v : value) (i : nat) : result value :=
  match v with
  | VList l => match l !! i with Some x => Ok x | None => Raise IndexError end
  | VStr s => match chars s !! i with Some x => Ok x | None => Raise IndexError end
  | VDict _ => Raise KeyError
  | _ => Raise TypeError
  end.

(** [v[:n]] followed by iteration ([list.extend] iterates its
    argument): the first [n] items of a list, the first [n] characters
    of a string.  Anything else cannot be sliced. *)
Definition slice_to (n : nat) (v : value) : result (list value) :=
  match v with
  | VList l => Ok (take n l)
  | VStr s => Ok (take n (chars s))
  | _ => Raise TypeError
  end.

(** Substring test. *)
Fixpoint substr_in (needle hay : string) : bool :=
  String.prefix needle hay
  || match hay with
     | EmptyString => false
     | String _ hay' => substr_in needle hay'
     end.

(** [v == s] for a string [s]. *)
Definition eq_str (v : value) (s : string) : bool :=
  match v with
  | VStr s' => bool_decide (s' = s)
  | _ => false
  end.

(** [needle in v] for a string [needle]. *)
Definition contains (needle : string) (v : value) : result bool :=
  match v with
  | VStr s => Ok (substr_in needle s)
  | VList l => Ok (existsb (fun x => eq_str x needle) l)
  | VDict d => Ok (bool_decide (is_Some (dict_lookup needle d)))
  | _ => Raise TypeError
  end.

(** Truth value of an object, as [if v:] tests it. *)
Definition truthy (v : value) : bool :=
  match v with
  | VNone => false
  | VBool b => b
  | VInt z => negb (z =? 0)%Z
  | VFloat f => negb (PrimFloat.eqb f 0%float)
  | VStr s => negb (bool_decide (s = EmptyString))
  | VList l => negb (bool_decide (l = []))
  | VDict d => negb (bool_decide (d = []))
  end.

(** [[0.0] * k] *)
Definition zeros (k : nat) : list value := replicate k (VFloat 0%float).

(** [enumerate(xs)] *)
Definition enumerate {A} (xs : list A) : list (nat * A) :=
  zip (seq 0 (length xs)) xs.

(** [for x in xs: body(x)] *)
Fixpoint for_each {S A} (xs : list A) (body : A -> M S unit) : M S unit :=
  match xs with
  | [] => ret tt
  | x :: xs' => bind (body x) (fun _ => for_each xs' body)
  end.

(** Outcome of a call into foreign code (the native engine, the arm
    SDK): it returns, or it raises an exception [e], of which the
    callers only ever use [str(e)]. *)
Inductive native (A : Type) : Type :=
| Returns (a : A)
| Raises (msg : string).
Arguments Returns {A} a.
Arguments Raises {A} msg.

Definition to_result {A} (r : native A) : result A :=
  match r with
  | Returns a => Ok a
  | Raises msg => Raise (NativeError msg)
  end.

End Py.

Import Py.

Declare Scope py_scope.
Delimit Scope py_scope with py.
Notation "'let*' x ':=' m 'in' k" := (bind m (fun x => k))
  (at level 10, x name, m at level 100, k at level 200, only parsing) : py_scope.
Notation "m ';;' k" := (bind m (fun _ => k))
  (at level 100, k at level 200, only parsing) : py_scope.

(* ===================================================================== *)
(** ** readDualArmSelfCollisionModelFromJson.py                           *)
(* ===================================================================== *)

Module RobotType.
Definition Elfin : Z := 0.
Definition UR : Z := 1.
Definition DualArm : Z := 2.
End RobotType.

(** The attributes of the three model classes are annotated [List[float]],
    [float] and [str], but they are assigned whatever the document holds
    under the key, so each is a [value]. *)
Module BallModel.
Record t : Type := Build { offset : value; radius : value; type : value }.
(** [BallModel()] *)
Definition new : t := Build (VList []) (VFloat 0) (VStr EmptyString).
Definition set_offset (v : value) (b : t) : t := Build v (radius b) (type b).
Definition set_radius (v : value) (b : t) : t := Build (offset b) v (type b).
Definition set_type (v : value) (b : t) : t := Build (offset b) (radius b) v.
End BallModel.

Module CapsuleModel.
Record t : Type :=
  Build { start : value; end_ : value; radius : value; type : value }.
(** [CapsuleModel()] *)
Definition new : t := Build (VList []) (VList []) (VFloat 0) (VStr EmptyString).
Definition set_start (v : value) (c : t) : t := Build v (end_ c) (radius c) (type c).
Definition set_end (v : value) (c : t) : t := Build (start c) v (radius c) (type c).
Definition set_radius (v : value) (c : t) : t := Build (start c) (end_ c) v (type c).
Definition set_type (v : value) (c : t) : t := Build (start c) (end_ c) (radius c) v.
End CapsuleModel.

Module LozengeModelCo.
Record t : Type :=
  Build { ref2local_frame : value; offset : value; geometry : value; type : value }.
(** [LozengeModelCo()] *)
Definition new : t := Build (VList []) (VList []) (VList []) (VStr EmptyString).
Definition set_ref2local_frame (v : value) (l : t) : t :=
  Build v (offset l) (geometry l) (type l).
Definition set_offset (v : value) (l : t) : t :=
  Build (ref2local_frame l) v (geometry l) (type l).
Definition set_geometry (v : value) (l : t) : t :=
  Build (ref2local_frame l) (offset l) v (type l).
Definition set_type (v : value) (l : t) : t :=
  Build (ref2local_frame l) (offset l) (geometry l) v.
End LozengeModelCo.

(** [config.dh] is only ever bound to a list display and [config.robType]
    to a [RobotType] constant. *)
Record DualArmColliderConfiguration : Type := {
  dh : list value;
  robType : Z;
  platform : LozengeModelCo.t;
  truck : LozengeModelCo.t;
  head : LozengeModelCo.t;
  L_base : CapsuleModel.t;
  L_lowerArm : CapsuleModel.t;
  L_elbow : CapsuleModel.t;
  L_upperArm : CapsuleModel.t;
  L_wrist : BallModel.t;
  R_base : CapsuleModel.t;
  R_lowerArm : CapsuleModel.t;
  R_elbow : CapsuleModel.t;
  R_upperArm : CapsuleModel.t;
  R_wrist : BallModel.t
}.

Module Config.
(** [DualArmColliderConfiguration()] *)
Definition new : DualArmColliderConfiguration := {|
  dh := []; robType := RobotType.DualArm;
  platform := LozengeModelCo.new; truck := LozengeModelCo.new;
  head := LozengeModelCo.new;
  L_base := CapsuleModel.new; L_lowerArm := CapsuleModel.new;
  L_elbow := CapsuleModel.new; L_upperArm := CapsuleModel.new;
  L_wrist := BallModel.new;
  R_base := CapsuleModel.new; R_lowerArm := CapsuleModel.new;
  R_elbow := CapsuleModel.new; R_upperArm := CapsuleModel.new;
  R_wrist := BallModel.new |}.

Section Setters.
Let C := DualArmColliderConfiguration.
Definition set_dh (x : list value) (c : C) : C :=
  Build_DualArmColliderConfiguration x (robType c) (platform c) (truck c) (head c)
    (L_base c) (L_lowerArm c) (L_elbow c) (L_upperArm c) (L_wrist c)
    (R_base c) (R_lowerArm c) (R_elbow c) (R_upperArm c) (R_wrist c).
Definition set_robType (x : Z) (c : C) : C :=
  Build_DualArmColliderConfiguration (dh c) x (platform c) (truck c) (head c)
    (L_base c) (L_lowerArm c) (L_elbow c) (L_upperArm c) (L_wrist c)
    (R_base c) (R_lowerArm c) (R_elbow c) (R_upperArm c) (R_wrist c).
Definition set_platform (x : LozengeModelCo.t) (c : C) : C :=
  Build_DualArmColliderConfiguration (dh c) (robType c) x (truck c) (head c)
    (L_base c) (L_lowerArm c) (L_elbow c) (L_upperArm c) (L_wrist c)
    (R_base c) (R_lowerArm c) (R_elbow c) (R_upperArm c) (R_wrist c).
Definition set_truck (x : LozengeModelCo.t) (c : C) : C :=
  Build_DualArmColliderConfiguration (dh c) (robType c) (platform c) x (head c)
    (L_base c) (L_lowerArm c) (L_elbow c) (L_upperArm c) (L_wrist c)
    (R_base c) (R_lowerArm c) (R_elbow c) (R_upperArm c) (R_wrist c).
Definition set_head (x : LozengeModelCo.t) (c : C) : C :=
  Build_DualArmColliderConfiguration (dh c) (robType c) (platform c) (truck c) x
    (L_base c) (L_lowerArm c) (L_elbow c) (L_upperArm c) (L_wrist c)
    (R_base c) (R_lowerArm c) (R_elbow c) (R_upperArm c) (R_wrist c).
Definition set_L_base (x : CapsuleModel.t) (c : C) : C :=
  Build_DualArmColliderConfiguration (dh c) (robType c) (platform c) (truck c) (head c)
    x (L_lowerArm c) (L_elbow c) (L_upperArm c) (L_wrist c)
    (R_base c) (R_lowerArm c) (R_elbow c) (R_upperArm c) (R_wrist c).
Definition set_L_lowerArm (x : CapsuleModel.t) (c : C) : C :=
  Build_DualArmColliderConfiguration (dh c) (robType c) (platform c) (truck c) (head c)
    (L_base c) x (L_elbow c) (L_upperArm c) (L_wrist c)
    (R_base c) (R_lowerArm c) (R_elbow c) (R_upperArm c) (R_wrist c).
Definition set_L_elbow (x : CapsuleModel.t) (c : C) : C :=
  Build_DualArmColliderConfiguration (dh c) (robType c) (platform c) (truck c) (head c)
    (L_base c) (L_lowerArm c) x (L_upperArm c) (L_wrist c)
    (R_base c) (R_lowerArm c) (R_elbow c) (R_upperArm c) (R_wrist c).
Definition set_L_upperArm (x : CapsuleModel.t) (c : C) : C :=
  Build_DualArmColliderConfiguration (dh c) (robType c) (platform c) (truck c) (head c)
    (L_base c) (L_lowerArm c) (L_elbow c) x (L_wrist c)
    (R_base c) (R_lowerArm c) (R_elbow c) (R_upperArm c) (R_wrist c).
Definition set_L_wrist (x : BallModel.t) (c : C) : C :=
  Build_DualArmColliderConfiguration (dh c) (robType c) (platform c) (truck c) (head c)
    (L_base c) (L_lowerArm c) (L_elbow c) (L_upperArm c) x
    (R_base c) (R_lowerArm c) (R_elbow c) (R_upperArm c) (R_wrist c).
Definition set_R_base (x : CapsuleModel.t) (c : C) : C :=
  Build_DualArmColliderConfiguration (dh c) (robType c) (platform c) (truck c) (head c)
    (L_base c) (L_lowerArm c) (L_elbow c) (L_upperArm c) (L_wrist c)
    x (R_lowerArm c) (R_elbow c) (R_upperArm c) (R_wrist c).
Definition set_R_lowerArm (x : CapsuleModel.t) (c : C) : C :=
  Build_DualArmColliderConfiguration (dh c) (robType c) (platform c) (truck c) (head c)
    (L_base c) (L_lowerArm c) (L_elbow c) (L_upperArm c) (L_wrist c)
    (R_base c) x (R_elbow c) (R_upperArm c) (R_wrist c).
Definition set_R_elbow (x : CapsuleModel.t) (c : C) : C :=
  Build_DualArmColliderConfiguration (dh c) (robType c) (platform c) (truck c) (head c)
    (L_base c) (L_lowerArm c) (L_elbow c) (L_upperArm c) (L_wrist c)
    (R_base c) (R_lowerArm c) x (R_upperArm c) (R_wrist c).
Definition set_R_upperArm (x : CapsuleModel.t) (c : C) : C :=
  Build_DualArmColliderConfiguration (dh c) (robType c) (platform c) (truck c) (head c)
    (L_base c) (L_lowerArm c) (L_elbow c) (L_upperArm c) (L_wrist c)
    (R_base c) (R_lowerArm c) (R_elbow c) x (R_wrist c).
Definition set_R_wrist (x : BallModel.t) (c : C) : C :=
  Build_DualArmColliderConfiguration (dh c) (robType c) (platform c) (truck c) (head c)
    (L_base c) (L_lowerArm c) (L_elbow c) (L_upperArm c) (L_wrist c)
    (R_base c) (R_lowerArm c) (R_elbow c) (R_upperArm c) x.
End Setters.
End Config.

(** What [open(file_path, 'r')] followed by [json.load(f)] gives for a
    path: the parsed document, or the exception either of them raises
    ([FileNotFoundError] when no file is there, [JSONDecodeError] when the
    text is not JSON, ...). *)
Definition filesystem : Type := string -> result value.

Module Reader.
Local Open Scope py_scope.

(** The four assignments of a lozenge section ([platform], [truck],
    [head]), on the sub-object they mutate. *)
Definition fill_lozenge (data : value) : M LozengeModelCo.t unit :=
  let* v := lift (get data "ref2local_frame" (VList [])) in
  assign (LozengeModelCo.set_ref2local_frame v) ;;
  let* v := lift (get data "geometry" (VList [])) in
  assign (LozengeModelCo.set_geometry v) ;;
  let* v := lift (get data "offset" (VList [])) in
  assign (LozengeModelCo.set_offset v) ;;
  let* v := lift (get data "type" (VStr EmptyString)) in
  assign (LozengeModelCo.set_type v).

(** The four assignments of a capsule section. *)
Definition fill_capsule (data : value) : M CapsuleModel.t unit :=
  let* v := lift (get data "start" (VList [])) in
  assign (CapsuleModel.set_start v) ;;
  let* v := lift (get data "end" (VList [])) in
  assign (CapsuleModel.set_end v) ;;
  let* v := lift (get data "radius" (VFloat 0)) in
  assign (CapsuleModel.set_radius v) ;;
  let* v := lift (get data "type" (VStr EmptyString)) in
  assign (CapsuleModel.set_type v).

(** The three assignments of a wrist section. *)
Definition fill_ball (data : value) : M BallModel.t unit :=
  let* v := lift (get data "offset" (VList [])) in
  assign (BallModel.set_offset v) ;;
  let* v := lift (get data "radius" (VFloat 0)) in
  assign (BallModel.set_radius v) ;;
  let* v := lift (get data "type" (VStr EmptyString)) in
  assign (BallModel.set_type v).

(** The statements of the [try] block after [json.load]. *)
Definition fill (json_data : value) : M DualArmColliderConfiguration unit :=
  let* rob_type_str := lift (get json_data "RobType" (VStr EmptyString)) in
  let* is_dual := lift (contains "dual_arm" rob_type_str) in
  (if is_dual : bool then
     assign (Config.set_robType RobotType.DualArm) ;;
     let* dh_data := lift (get json_data "DH" (VDict [])) in
     let* d1 := lift (get dh_data "d1" (VFloat 0)) in
     let* d4 := lift (get dh_data "d4" (VFloat 0)) in
     let* d6 := lift (get dh_data "d6" (VFloat 0)) in
     let* a2 := lift (get dh_data "a2" (VFloat 0)) in
     assign (Config.set_dh [d1; d4; d6; a2])
   else ret tt) ;;
  let* platform_data := lift (get json_data "platform" (VDict [])) in
  zoom platform Config.set_platform (fill_lozenge platform_data) ;;
  let* truck_data := lift (get json_data "truck" (VDict [])) in
  zoom truck Config.set_truck (fill_lozenge truck_data) ;;
  let* head_data := lift (get json_data "head" (VDict [])) in
  zoom head Config.set_head (fill_lozenge head_data) ;;
  let* l_base_data := lift (get json_data "base" (VDict [])) in
  zoom L_base Config.set_L_base (fill_capsule l_base_data) ;;
  let* l_lower_arm_data := lift (get json_data "l_lowerArm" (VDict [])) in
  zoom L_lowerArm Config.set_L_lowerArm (fill_capsule l_lower_arm_data) ;;
  let* l_elbow_data := lift (get json_data "l_elbow" (VDict [])) in
  zoom L_elbow Config.set_L_elbow (fill_capsule l_elbow_data) ;;
  let* l_upper_arm_data := lift (get json_data "l_upperArm" (VDict [])) in
  zoom L_upperArm Config.set_L_upperArm (fill_capsule l_upper_arm_data) ;;
  let* l_wrist_data := lift (get json_data "l_wrist" (VDict [])) in
  zoom L_wrist Config.set_L_wrist (fill_ball l_wrist_data) ;;
  let* r_base_data := lift (get json_data "base" (VDict [])) in
  zoom R_base Config.set_R_base (fill_capsule r_base_data) ;;
  let* r_lower_arm_data := lift (get json_data "r_lowerArm" (VDict [])) in
  zoom R_lowerArm Config.set_R_lowerArm (fill_capsule r_lower_arm_data) ;;
  let* r_elbow_data := lift (get json_data "r_elbow" (VDict [])) in
  zoom R_elbow Config.set_R_elbow (fill_capsule r_elbow_data) ;;
  let* r_upper_arm_data := lift (get json_data "r_upperArm" (VDict [])) in
  zoom R_upperArm Config.set_R_upperArm (fill_capsule r_upper_arm_data) ;;
  let* r_wrist_data := lift (get json_data "r_wrist" (VDict [])) in
  zoom R_wrist Config.set_R_wrist (fill_ball r_wrist_data).

(** The two [except] clauses: a [FileNotFoundError] becomes the
    "cannot open file" [RuntimeError], every other exception the "JSON
    parse error" one. *)
Definition reraise (file_path : string) (e : exn) : exn :=
  match e with
  | FileNotFoundError => RuntimeError_cannot_open file_path
  | _ => RuntimeError_json_parse e
  end.

(** [read_dual_arm_self_collision_model_from_json(file_path, config)].
    The function returns [None] and mutates [config]; the second
    component is [config] as the caller finds it afterwards. *)
Definition read_dual_arm_self_collision_model_from_json
    (fs : filesystem) (file_path : string)
  : M DualArmColliderConfiguration unit :=
  fun config =>
    match (let* json_data := lift (fs file_path) in fill json_data) config with
    | (Ok tt, config') => (Ok tt, config')
    | (Raise e, config') => (Raise (reraise file_path e), config')
    end.

End Reader.

(* ===================================================================== *)
(** ** The native collision engine, as the server sees it                 *)
(* ===================================================================== *)

(** [self.init_params], the 10-tuple built by [convert_config]. *)
Record InitParams : Type := {
  ip_robType : Z;
  ip_dh : list value;
  ip_platform : list value;
  ip_head : list value;
  ip_truck : list value;
  ip_base : list value;
  ip_lowerArm : list value;
  ip_elbow : list value;
  ip_upperArm : list value;
  ip_wrist : list value
}.

Module dac.

(** The module [dual_arm_collision].  [state] is whatever the library
    keeps between calls; each function maps the state before the call to
    its outcome and the state after it.  A [dualarm_tagAXISPOS_REF] has
    the twelve fields [a0] .. [a11] and is held as the [list value] of
    their current contents; [axis_accepts v] tells whether an assignment
    of [v] to one of these fields goes through (otherwise the assignment
    raises).  [check_collision] returns the triple of its contract. *)
Record Engine : Type := {
  state : Type;
  axis_accepts : value -> bool;
  init_dual_arm : InitParams -> list value -> state -> native unit * state;
  set_toolcollisionmodel :
    value -> value -> value -> value -> state -> native unit * state;
  set_collision_Pair : Z -> Z -> state -> native unit * state;
  check_collision_Pair : state -> native unit * state;
  update_joints : list value -> list value -> state -> native unit * state;
  check_collision : state -> native (bool * list (Z * Z) * float) * state
}.

(** The calls made into the engine, for the record the server model
    keeps of them. *)
Inductive call : Type :=
| Init_dual_arm (p : InitParams) (jointPos : list value)
| Set_toolcollisionmodel (index start_point end_point radius : value)
| Set_collision_Pair (id1 id2 : Z)
| Check_collision_Pair
| Update_joints (jointPos jointVel : list value)
| Check_collision.

(** The pairs given to [set_collision_Pair], in call order. *)
Definition pairs_installed (log : list call) : list (Z * Z) :=
  omap (fun c => match c with
                 | Set_collision_Pair id1 id2 => Some (id1, id2)
                 | _ => None
                 end) log.

End dac.

(* ===================================================================== *)
(** ** collision_detection_server.py                                      *)
(* ===================================================================== *)

(** [math.pi] and [math.radians], which multiplies by [pi / 180]. *)
Definition math_pi : float := 0x1.921fb54442d18p+1%float.
Definition math_radians (x : float) : float :=
  PrimFloat.mul x (PrimFloat.div math_pi 180%float).

(** The float literal [0.02]. *)
Definition f0_02 : float := 0x1.47ae147ae147bp-6%float.

Module Server.
Local Open Scope py_scope.

Definition json_config_path : string :=
  "/usr/local/RobotOS/home/RobotOS/dual_arm_server/dual_arm_collision.json".
Definition tool_config_path : string :=
  "/usr/local/RobotOS/home/RobotOS/dual_arm_server/dualarm_tool_collision.json".

Section WithEngine.
Variable E : dac.Engine.

(** The attributes of a [CollisionDetectionServer] that the modelled
    methods read or write, the engine they all share, and the record
    of the calls made into it (oldest first). *)
Record t : Type := Build {
  config : option DualArmColliderConfiguration;
  init_params : option InitParams;
  joint_pos : list value;
  joint_vel : list value;
  collision_detected : bool;
  colliding_pairs : list (Z * Z);
  min_distance : float;
  tool_config : value;
  running : bool;
  engine : dac.state E;
  calls : list dac.call
}.

Definition set_config x (s : t) : t :=
  Build x (init_params s) (joint_pos s) (joint_vel s) (collision_detected s)
    (colliding_pairs s) (min_distance s) (tool_config s) (running s)
    (engine s) (calls s).
Definition set_init_params x (s : t) : t :=
  Build (config s) x (joint_pos s) (joint_vel s) (collision_detected s)
    (colliding_pairs s) (min_distance s) (tool_config s) (running s)
    (engine s) (calls s).
Definition set_joint_pos x (s : t) : t :=
  Build (config s) (init_params s) x (joint_vel s) (collision_detected s)
    (colliding_pairs s) (min_distance s) (tool_config s) (running s)
    (engine s) (calls s).
Definition set_joint_vel x (s : t) : t :=
  Build (config s) (init_params s) (joint_pos s) x (collision_detected s)
    (colliding_pairs s) (min_distance s) (tool_config s) (running s)
    (engine s) (calls s).
Definition set_verdict (b : bool) (ps : list (Z * Z)) (d : float) (s : t) : t :=
  Build (config s) (init_params s) (joint_pos s) (joint_vel s) b ps d
    (tool_config s) (running s) (engine s) (calls s).
Definition set_engine x (c : dac.call) (s : t) : t :=
  Build (config s) (init_params s) (joint_pos s) (joint_vel s)
    (collision_detected s) (colliding_pairs s) (min_distance s)
    (tool_config s) (running s) x (calls s ++ [c]).

(** A call into the engine: the engine moves on, the call is
    recorded, and what it raises becomes a Python exception. *)
Definition invoke {A} (c : dac.call)
    (f : dac.state E -> native A * dac.state E) : M t A :=
  fun s => let (r, e') := f (engine s) in (to_result r, set_engine e' c s).

(** [try: body; return True / except Exception: return False] *)
Definition try_bool {A} (body : M t A) (s : t) : bool * t :=
  match body s with
  | (Ok _, s') => (true, s')
  | (Raise _, s') => (false, s')
  end.

(** [setattr(obj, f"a{i}", v)] on a [dualarm_tagAXISPOS_REF]. *)
Definition setattr_a (i : nat) (v : value) : M (list value) unit :=
  if dac.axis_accepts E v then assign (fun a => <[i:=v]> a)
  else lift (Raise TypeError).

(** *** [load_tool_config]: the document at [tool_config_path], or the
    empty dictionary when the file is missing or cannot be read. *)
Definition load_tool_config (fs : filesystem) : value :=
  match fs tool_config_path with
  | Ok config => config
  | Raise _ => VDict []
  end.

(** *** [load_config] *)
Definition load_config (fs : filesystem) (s : t) : bool * t :=
  let (r, cfg) :=
    Reader.read_dual_arm_self_collision_model_from_json
      fs json_config_path Config.new in
  (is_ok r, set_config (Some cfg) s).

(** *** [convert_config] and its three local functions *)
Definition build_lozenge_params (lozenge : LozengeModelCo.t) : result (list value) :=
  match slice_to 6 (LozengeModelCo.ref2local_frame lozenge) with
  | Raise e => Raise e
  | Ok r =>
    let params := [] ++ r in
    let params := params ++ zeros (6 - length r) in
    match slice_to 4 (LozengeModelCo.geometry lozenge) with
    | Raise e => Raise e
    | Ok g =>
      let params := params ++ g in
      let params := params ++ zeros (4 - length g) in
      match slice_to 3 (LozengeModelCo.offset lozenge) with
      | Raise e => Raise e
      | Ok o =>
        let params := params ++ o in
        let params := params ++ zeros (3 - length o) in
        Ok (take 13 params)
      end
    end
  end.

Definition build_capsule_params (capsule : CapsuleModel.t) : result (list value) :=
  match slice_to 3 (CapsuleModel.start capsule) with
  | Raise e => Raise e
  | Ok a =>
    let params := [] ++ a in
    let params := params ++ zeros (3 - length a) in
    match slice_to 3 (CapsuleModel.end_ capsule) with
    | Raise e => Raise e
    | Ok b =>
      let params := params ++ b in
      let params := params ++ zeros (3 - length b) in
      let params := params ++ [CapsuleModel.radius capsule] in
      Ok (take 7 params)
    end
  end.

Definition build_wrist_params (wrist : BallModel.t) : result (list value) :=
  match slice_to 3 (BallModel.offset wrist) with
  | Raise e => Raise e
  | Ok o =>
    let params := [] ++ o in
    let params := params ++ zeros (3 - length o) in
    let params := params ++ [BallModel.radius wrist] in
    Ok (take 4 params)
  end.

(** The body of the [try] block: the tuple assigned to
    [self.init_params].  Without a config ([self.config is None]) the
    first attribute access raises. *)
Definition convert (cfg : option DualArmColliderConfiguration) : result InitParams :=
  match cfg with
  | None => Raise AttributeError
  | Some c =>
    match build_lozenge_params (platform c) with Raise e => Raise e | Ok platform_geo =>
    match build_lozenge_params (head c) with Raise e => Raise e | Ok head_geo =>
    match build_lozenge_params (truck c) with Raise e => Raise e | Ok truck_geo =>
    match build_capsule_params (L_base c) with Raise e => Raise e | Ok base_geo =>
    match build_capsule_params (L_lowerArm c) with Raise e => Raise e | Ok lower_arm_geo =>
    match build_capsule_params (L_elbow c) with Raise e => Raise e | Ok elbow_geo =>
    match build_capsule_params (L_upperArm c) with Raise e => Raise e | Ok upper_arm_geo =>
    match build_wrist_params (L_wrist c) with Raise e => Raise e | Ok wrist_geo =>
      let dh_params := take 4 (dh c) in
      let dh_params := dh_params ++ zeros (4 - length dh_params) in
      Ok {| ip_robType := robType c; ip_dh := dh_params;
            ip_platform := platform_geo; ip_head := head_geo;
            ip_truck := truck_geo; ip_base := base_geo;
            ip_lowerArm := lower_arm_geo; ip_elbow := elbow_geo;
            ip_upperArm := upper_arm_geo; ip_wrist := wrist_geo |}
    end end end end end end end end
  end.

Definition convert_config (s : t) : bool * t :=
  match convert (config s) with
  | Ok p => (true, set_init_params (Some p) s)
  | Raise _ => (false, s)
  end.

(** *** [init_dual_arm] *)
Definition init_dual_arm : t -> bool * t :=
  try_bool (
    let left_pos :=
      map (fun angle => VFloat (math_radians angle)) [0; 0; 0; 0; 0; 0]%float in
    let right_pos :=
      map (fun angle => VFloat (math_radians angle)) [-90; 50; 140; 0; 0; 0]%float in
    let joint_values := left_pos ++ right_pos in
    for_each (enumerate joint_values)
      (fun iv => zoom joint_pos set_joint_pos (setattr_a iv.1 iv.2)) ;;
    let* params := gets init_params in
    match params with
    | None => raise TypeError
    | Some p =>
      let* jp := gets joint_pos in
      invoke (dac.Init_dual_arm p jp) (dac.init_dual_arm E p jp)
    end).

(** *** [set_tool_collision_models] *)
Definition set_tool (key index_key : string) (default_index : Z) : M t unit :=
  let* cfg := gets tool_config in
  let* present := lift (contains key cfg) in
  if present : bool then
    let* tool := lift (getitem_str cfg key) in
    let* tool_index := lift (get tool index_key (VInt default_index)) in
    let* start_point := lift (get tool "start" (VList (zeros 3))) in
    let* end_point := lift (get tool "end" (VList (zeros 3))) in
    let* radius := lift (get tool "radius" (VFloat f0_02)) in
    invoke (dac.Set_toolcollisionmodel tool_index start_point end_point radius)
           (dac.set_toolcollisionmodel E tool_index start_point end_point radius)
  else
    invoke (dac.Set_toolcollisionmodel (VInt default_index) (VList (zeros 3))
              (VList (zeros 3)) (VFloat f0_02))
           (dac.set_toolcollisionmodel E (VInt default_index) (VList (zeros 3))
              (VList (zeros 3)) (VFloat f0_02)).

Definition set_tool_collision_models : t -> bool * t :=
  try_bool (set_tool "L_tool" "L_tool_index" 6 ;;
            set_tool "R_tool" "R_tool_index" 16).

(** *** [add_collision_pairs] *)
Definition collision_pairs : list (Z * Z) :=
  [ (-1, 2); (-1, 3); (-1, 4); (-1, 5); (-1, 6);
    (-1, 12); (-1, 13); (-1, 14); (-1, 15); (-1, 16);
    (1, 16); (6, 16); (6, 11) ].

Definition add_pair (p : Z * Z) : M t unit :=
  invoke (dac.Set_collision_Pair p.1 p.2) (dac.set_collision_Pair E p.1 p.2).

Definition add_collision_pairs : t -> bool * t :=
  try_bool (for_each collision_pairs add_pair).

(** *** [check_collision_pairs] *)
Definition check_collision_pairs : t -> bool * t :=
  try_bool (invoke dac.Check_collision_Pair (dac.check_collision_Pair E)).

(** *** [initialize].  None of the six methods raises, so the outer
    [except] clause is never entered. *)
Definition initialize (fs : filesystem) (s : t) : bool * t :=
  let (ok, s) := load_config fs s in
  if negb ok then (false, s) else
  let (ok, s) := convert_config s in
  if negb ok then (false, s) else
  let (ok, s) := init_dual_arm s in
  if negb ok then (false, s) else
  let (ok, s) := set_tool_collision_models s in
  if negb ok then (false, s) else
  let (ok, s) := add_collision_pairs s in
  if negb ok then (false, s) else
  let (_, s) := check_collision_pairs s in
  (true, s).

(** *** [__init__]: the attributes as the constructor binds them, for
    an engine in state [e0] whose fresh joint structures hold
    [pos0] and [vel0]; then [self.initialize()], whose result the
    constructor drops. *)
Definition fresh (fs : filesystem) (e0 : dac.state E)
    (pos0 vel0 : list value) : t :=
  {| config := None; init_params := None;
     joint_pos := pos0; joint_vel := vel0;
     collision_detected := false; colliding_pairs := []; min_distance := 0%float;
     tool_config := load_tool_config fs;
     running := false; engine := e0; calls := [] |}.

Definition construct (fs : filesystem) (e0 : dac.state E)
    (pos0 vel0 : list value) : t :=
  (initialize fs (fresh fs e0 pos0 vel0)).2.

(** *** [update_joints] *)
(** The two statements of the loop body, for index [i]. *)
Definition set_joint (joint_positions joint_velocities : value) (i : nat)
  : M t unit :=
  let* p := lift (getitem_int joint_positions i) in
  zoom joint_pos set_joint_pos (setattr_a i p) ;;
  let* v := lift (getitem_int joint_velocities i) in
  zoom joint_vel set_joint_vel (setattr_a i v).

(** The [try] block. *)
Definition update_joints_body (joint_positions joint_velocities : value) : M t unit :=
  for_each (seq 0 12) (set_joint joint_positions joint_velocities) ;;
  let* jp := gets joint_pos in
  let* jv := gets joint_vel in
  invoke (dac.Update_joints jp jv) (dac.update_joints E jp jv).

(** The [except] clause only prints. *)
Definition update_joints (joint_positions joint_velocities : value) (s : t) : t :=
  (update_joints_body joint_positions joint_velocities s).2.

(** *** [check_collision] *)
Definition pair_value (p : Z * Z) : value := VList [VInt p.1; VInt p.2].

Definition check_collision (s : t) : value * t :=
  let (r, e') := dac.check_collision E (engine s) in
  let s := set_engine e' dac.Check_collision s in
  match r with
  | Returns (result, collider_pair_list, distance) =>
      (VDict [ ("collision_detected", VBool result);
               ("colliding_pairs", VList (map pair_value collider_pair_list));
               ("min_distance", VFloat distance) ],
       set_verdict result collider_pair_list distance s)
  | Raises msg =>
      (VDict [ ("collision_detected", VBool false);
               ("colliding_pairs", VList []);
               ("min_distance", VFloat 0);
               ("error", VStr msg) ],
       s)
  end.

(** *** [handle_client] *)

(** What one [conn.recv(4096)] brings: an exception, the empty bytes
    of a closed peer, or data, given by what
    [json.loads(data.decode('utf-8'))] makes of it. *)
Inductive incoming : Type :=
| Recv_raises (e : exn)
| Recv_empty
| Recv_data (parsed : result value).

(** Where control goes after an iteration: back to the [while] test,
    or out of the loop ([break], or an exception that reaches the
    outer [except]) and on to [conn.close()]. *)
Inductive flow : Type := Next | Leave.

(** [conn.sendall(json.dumps(response).encode('utf-8'))]: the document
    handed to the socket, and whether the call returned. *)
Definition sendall (response : value) (send_ok : bool) : flow * list value :=
  (if send_ok then Next else Leave, [response]).

(** The [if]/[elif] on the message type: the response to send, if
    any. *)
Definition dispatch (received_data : value) : M t (option value) :=
  let* ty := lift (get1 received_data "type") in
  if eq_str ty "joint_data" then
    let* joint_positions := lift (getitem_str received_data "joint_positions") in
    let* joint_velocities := lift (getitem_str received_data "joint_velocities") in
    assign (update_joints joint_positions joint_velocities) ;;
    let* collision_result := (fun s => let (d, s') := check_collision s in (Ok d, s')) in
    ret (Some (VDict [ ("type", VStr "collision_result");
                       ("result", collision_result) ]))
  else
    let* ty := lift (get1 received_data "type") in
    if eq_str ty "ping" then ret (Some (VDict [("type", VStr "pong")]))
    else ret None.

Definition invalid_json_reply : value :=
  VDict [("error", VStr "Invalid JSON format")].

(** One iteration of the [while] loop, after its test: the flow, the
    documents handed to [sendall], and the server afterwards. *)
Definition handle_message (inp : incoming) (send_ok : bool) (s : t)
  : flow * list value * t :=
  match inp with
  | Recv_raises _ => (Leave, [], s)
  | Recv_empty => (Leave, [], s)
  | Recv_data (Raise JSONDecodeError) => (sendall invalid_json_reply send_ok, s)
  | Recv_data (Raise _) => (Leave, [], s)
  | Recv_data (Ok received_data) =>
      match dispatch received_data s with
      | (Raise _, s') => (Leave, [], s')
      | (Ok None, s') => (Next, [], s')
      | (Ok (Some response), s') => (sendall response send_ok, s')
      end
  end.

(** The connection as the worker leaves it: the documents handed to
    [sendall], oldest first, and whether [conn.close()] was reached. *)
Record Conn : Type := { sent : list value; closed : bool }.

(** [handle_client] on the inputs that arrive, each with the outcome
    of the [sendall] it may trigger.  When the inputs run out the
    worker is blocked in [recv] and the connection is open. *)
Fixpoint handle_client (inputs : list (incoming * bool)) (out : list value) (s : t)
  : Conn * t :=
  match inputs with
  | [] => ({| sent := out; closed := negb (running s) |}, s)
  | (inp, send_ok) :: rest =>
      if running s then
        match handle_message inp send_ok s with
        | (Next, msgs, s') => handle_client rest (out ++ msgs) s'
        | (Leave, msgs, s') => ({| sent := out ++ msgs; closed := true |}, s')
        end
      else ({| sent := out; closed := true |}, s)
  end.

End WithEngine.
End Server.

(* ===================================================================== *)
(** ** robot_arm_client.py                                                *)
(* ===================================================================== *)

Module CPS.

(** The [CPSClient] both arms go through.  [state] is whatever the SDK
    and the controllers behind it keep; a read returns its code together
    with the items it appended to the caller's [result] list.  [item] is
    the type of those items and [to_float] is [float(item)], [None] when
    the conversion raises. *)
Record Sdk : Type := {
  state : Type;
  item : Type;
  to_float : item -> option float;
  HRIF_IsConnected : Z -> state -> native bool * state;
  HRIF_Connect : Z -> string -> Z -> state -> native Z * state;
  HRIF_ReadActJointPos : Z -> Z -> state -> native (Z * list item) * state;
  HRIF_ReadActJointVel : Z -> Z -> state -> native (Z * list item) * state;
  HRIF_GrpStop : Z -> Z -> state -> native Z * state
}.

Inductive call : Type :=
| IsConnected (boxid : Z)
| Connect (boxid : Z) (ip : string) (port : Z)
| ReadActJointPos (boxid robot_id : Z)
| ReadActJointVel (boxid robot_id : Z)
| GrpStop (boxid robot_id : Z).

End CPS.

Module Arm.
(** An [Arm], without the SDK handle, which the two arms share and
    which lives in the client. *)
Record t : Type := Build {
  arm_type : string;
  boxid : Z;
  ip : string;
  port : Z;
  robot_id : Z;
  connected : bool
}.
Definition set_connected (b : bool) (a : t) : t :=
  Build (arm_type a) (boxid a) (ip a) (port a) (robot_id a) b.
End Arm.

Module Client.
Local Open Scope py_scope.

Section WithSdk.
Variable K : CPS.Sdk.

(** A [RobotArmClient]: the two arms, the collision flag, whether
    [client_socket] is bound to a socket, the documents handed to
    [sendall], the SDK and the record of the calls made into it. *)
Record t : Type := Build {
  left_arm : Arm.t;
  right_arm : Arm.t;
  collision_detected : bool;
  client_socket : bool;
  sent : list value;
  sdk : CPS.state K;
  calls : list CPS.call
}.

Definition set_left_arm x (c : t) : t :=
  Build x (right_arm c) (collision_detected c) (client_socket c) (sent c)
    (sdk c) (calls c).
Definition set_right_arm x (c : t) : t :=
  Build (left_arm c) x (collision_detected c) (client_socket c) (sent c)
    (sdk c) (calls c).
Definition set_collision_detected x (c : t) : t :=
  Build (left_arm c) (right_arm c) x (client_socket c) (sent c) (sdk c) (calls c).
Definition push_sent x (c : t) : t :=
  Build (left_arm c) (right_arm c) (collision_detected c) (client_socket c)
    (sent c ++ [x]) (sdk c) (calls c).
Definition set_sdk x (k : CPS.call) (c : t) : t :=
  Build (left_arm c) (right_arm c) (collision_detected c) (client_socket c)
    (sent c) x (calls c ++ [k]).

(** The two ways to reach an arm from the client. *)
Inductive side : Type := Left | Right.
Definition arm (sd : side) (c : t) : Arm.t :=
  match sd with Left => left_arm c | Right => right_arm c end.
Definition set_arm (sd : side) (a : Arm.t) (c : t) : t :=
  match sd with Left => set_left_arm a c | Right => set_right_arm a c end.

Definition invoke {A} (k : CPS.call)
    (f : CPS.state K -> native A * CPS.state K) : M t A :=
  fun c => let (r, st) := f (sdk c) in (to_result r, set_sdk st k c).

(** [try: body / except Exception: return dflt] *)
Definition try_or {A} (dflt : A) (body : M t A) (c : t) : A * t :=
  match body c with
  | (Ok a, c') => (a, c')
  | (Raise _, c') => (dflt, c')
  end.

(** *** [RobotArmClient.__init__], before [connect_arms] *)
Definition left_arm0 : Arm.t :=
  Arm.Build "left_arm" 0 "192.168.1.20" 10003 0 false.
Definition right_arm0 : Arm.t :=
  Arm.Build "right_arm" 1 "192.168.1.30" 10003 0 false.
Definition fresh (k0 : CPS.state K) : t :=
  {| left_arm := left_arm0; right_arm := right_arm0;
     collision_detected := false; client_socket := false;
     sent := []; sdk := k0; calls := [] |}.

(** *** [Arm.connect] *)
Definition connect (sd : side) : t -> bool * t :=
  fun c =>
    let a := arm sd c in
    let body : M t bool :=
      let* is_connected :=
        invoke (CPS.IsConnected (Arm.boxid a)) (CPS.HRIF_IsConnected K (Arm.boxid a)) in
      if is_connected : bool then
        assign (set_arm sd (Arm.set_connected true a)) ;; ret true
      else
        let* r :=
          invoke (CPS.Connect (Arm.boxid a) (Arm.ip a) (Arm.port a))
                 (CPS.HRIF_Connect K (Arm.boxid a) (Arm.ip a) (Arm.port a)) in
        if negb (r =? 0)%Z then
          assign (set_arm sd (Arm.set_connected false a)) ;; ret false
        else
          let* again :=
            invoke (CPS.IsConnected (Arm.boxid a))
                   (CPS.HRIF_IsConnected K (Arm.boxid a)) in
          if negb again then
            assign (set_arm sd (Arm.set_connected false a)) ;; ret false
          else
            assign (set_arm sd (Arm.set_connected true a)) ;; ret true in
    match body c with
    | (Ok b, c') => (b, c')
    | (Raise _, c') => (false, set_arm sd (Arm.set_connected false a) c')
    end.

(** *** [connect_arms] *)
Definition connect_arms (c : t) : bool * t :=
  let (left_connected, c) := connect Left c in
  let (right_connected, c) := connect Right c in
  if negb left_connected && negb right_connected then (false, c) else (true, c).

(** [[float(x) for x in result]]; a failing conversion raises
    [ValueError]. *)
Fixpoint floats (items : list (CPS.item K)) : result (list float) :=
  match items with
  | [] => Ok []
  | x :: rest =>
      match CPS.to_float K x with
      | None => Raise ValueError
      | Some f =>
          match floats rest with
          | Ok fs => Ok (f :: fs)
          | Raise e => Raise e
          end
      end
  end.

(** [positions_radians[0] += math.pi] *)
Definition add_pi_first (positions_radians : list float) : result (list float) :=
  match positions_radians with
  | [] => Raise IndexError
  | p0 :: rest => Ok (PrimFloat.add p0 math_pi :: rest)
  end.

(** *** [Arm.read_joint_positions] *)
Definition read_joint_positions (sd : side) (c : t) : option (list float) * t :=
  let a := arm sd c in
  if negb (Arm.connected a) then (None, c) else
  try_or None (
    let* r := invoke (CPS.ReadActJointPos (Arm.boxid a) (Arm.robot_id a))
                (CPS.HRIF_ReadActJointPos K (Arm.boxid a) (Arm.robot_id a)) in
    let ret_code := r.1 in
    let result := r.2 in
    if negb (ret_code =? 0)%Z then ret None
    else if negb (length result =? 6)%nat then ret None
    else
      let* positions_degrees := lift (floats result) in
      let positions_radians := map math_radians positions_degrees in
      let* positions_radians := lift (add_pi_first positions_radians) in
      ret (Some positions_radians)) c.

(** *** [Arm.read_joint_velocities] *)
Definition read_joint_velocities (sd : side) (c : t) : option (list float) * t :=
  let a := arm sd c in
  if negb (Arm.connected a) then (None, c) else
  try_or None (
    let* r := invoke (CPS.ReadActJointVel (Arm.boxid a) (Arm.robot_id a))
                (CPS.HRIF_ReadActJointVel K (Arm.boxid a) (Arm.robot_id a)) in
    let ret_code := r.1 in
    let result := r.2 in
    if negb (ret_code =? 0)%Z then ret None
    else if negb (length result =? 6)%nat then ret None
    else
      let* velocities := lift (floats result) in
      ret (Some velocities)) c.

(** *** [Arm.group_stop] *)
Definition group_stop (sd : side) (c : t) : bool * t :=
  let a := arm sd c in
  try_or false (
    let* nRet := invoke (CPS.GrpStop (Arm.boxid a) (Arm.robot_id a))
                   (CPS.HRIF_GrpStop K (Arm.boxid a) (Arm.robot_id a)) in
    if negb (nRet =? 0)%Z then ret false else ret true) c.

(** *** [emergency_stop]: the two outcomes are only printed. *)
Definition emergency_stop (c : t) : t :=
  let c := if Arm.connected (left_arm c) then (group_stop Left c).2 else c in
  let c := if Arm.connected (right_arm c) then (group_stop Right c).2 else c in
  c.

(** *** [handle_collision_result] *)
Definition handle_collision_result (result : value) : M t unit :=
  let* detected := lift (get result "collision_detected" (VBool false)) in
  if truthy detected then
    assign (set_collision_detected true) ;;
    assign emergency_stop
  else
    assign (set_collision_detected false).

(** *** [send_joint_data] *)

(** What the server connection does during one call: whether
    [sendall] returns, and what [recv] then brings ([None]: it raises;
    [Some None]: empty bytes; [Some (Some r)]: data, given by what
    [json.loads(response.decode('utf-8'))] makes of it). *)
Record Net : Type := {
  send_ok : bool;
  response : option (option (result value))
}.

Definition joint_data (all_pos all_vel : list float) : value :=
  VDict [ ("type", VStr "joint_data");
          ("joint_positions", VList (map VFloat all_pos));
          ("joint_velocities", VList (map VFloat all_vel));
          ("units", VDict [ ("positions", VStr "radians");
                            ("velocities", VStr "degrees_per_second") ]) ].

Definition read_if_connected (rd : side -> t -> option (list float) * t)
    (sd : side) : M t (option (list float)) :=
  fun c => if Arm.connected (arm sd c)
           then let (r, c') := rd sd c in (Ok r, c')
           else (Ok None, c).

Definition send_joint_data (net : Net) : t -> bool * t :=
  try_or false (
    let* left_pos := read_if_connected read_joint_positions Left in
    let* right_pos := read_if_connected read_joint_positions Right in
    let* left_vel := read_if_connected read_joint_velocities Left in
    let* right_vel := read_if_connected read_joint_velocities Right in
    match left_pos, right_pos with
    | Some left_pos, Some right_pos =>
      match left_vel, right_vel with
      | Some left_vel, Some right_vel =>
        let all_pos := left_pos ++ right_pos in
        let all_vel := left_vel ++ right_vel in
        let data := joint_data all_pos all_vel in
        let* has_socket := gets client_socket in
        if negb has_socket then raise AttributeError else
        assign (push_sent data) ;;
        if negb (send_ok net) then raise ConnectionError else
        match response net with
        | None => raise ConnectionError
        | Some None => ret true
        | Some (Some (Raise e)) => raise e
        | Some (Some (Ok response_data)) =>
            let* ty := lift (get1 response_data "type") in
            if eq_str ty "collision_result" then
              let* result := lift (getitem_str response_data "result") in
              handle_collision_result result ;;
              ret true
            else ret true
        end
      | _, _ => ret false
      end
    | _, _ => ret false
    end).

(** *** [connect_to_server] *)
Definition set_client_socket x (c : t) : t :=
  Build (left_arm c) (right_arm c) (collision_detected c) x (sent c)
    (sdk c) (calls c).

(** What the two socket calls of [connect_to_server] do: [socket.socket]
    raises, or it returns a socket on which [connect] raises, or
    [connect] returns. *)
Inductive connecting : Type := Socket_raises | Connect_raises | Connects.

(** [self.client_socket] is bound before [connect] is called, so it
    stays bound to the unconnected socket when [connect] raises. *)
Definition connect_to_server (o : connecting) (c : t) : bool * t :=
  match o with
  | Socket_raises => (false, c)
  | Connect_raises => (false, set_client_socket true c)
  | Connects => (true, set_client_socket true c)
  end.

(** *** [disconnect]: what [close] raises is dropped. *)
Definition disconnect (c : t) : t :=
  if client_socket c then set_client_socket false c else c.

(** *** [reconnect]: [disconnect], a sleep of one second, then
    [connect_to_server], whose result is dropped. *)
Definition reconnect (o : connecting) (c : t) : t :=
  (connect_to_server o (disconnect c)).2.

(** *** [send_heartbeat].  The comparison of the reply's type with
    ['pong'] only selects a [print]. *)
Definition ping_request : value := VDict [("type", VStr "ping")].

Definition send_heartbeat (net : Net) (o : connecting) (c : t) : t :=
  let body : M t unit :=
    let* has_socket := gets client_socket in
    if negb has_socket then raise AttributeError else
    assign (push_sent ping_request) ;;
    if negb (send_ok net) then raise ConnectionError else
    match response net with
    | None => raise ConnectionError
    | Some None => ret tt
    | Some (Some (Raise e)) => raise e
    | Some (Some (Ok response_data)) =>
        let* ty := lift (get1 response_data "type") in
        ret tt
    end in
  match body c with
  | (Ok _, c') => c'
  | (Raise _, c') => reconnect o c'
  end.

(** *** [start] *)

(** What one pass of the [while] loop meets: the connection during
    [send_joint_data], the clock when the heartbeat is due to be tested,
    the connection and the socket calls during a heartbeat, and the clock
    read into [last_heartbeat] after it. *)
Record Cycle : Type := {
  data_net : Net;
  now : float;
  beat_net : Net;
  beat_connect : connecting;
  now_after : float
}.

(** One pass: the new [last_heartbeat] and the client. *)
Definition iteration (cy : Cycle) (last_heartbeat : float) (c : t) : float * t :=
  let c := (send_joint_data (data_net cy) c).2 in
  if PrimFloat.ltb 5 (PrimFloat.sub (now cy) last_heartbeat) then
    (now_after cy, send_heartbeat (beat_net cy) (beat_connect cy) c)
  else (last_heartbeat, c).

Fixpoint run_cycles (cycles : list Cycle) (last_heartbeat : float) (c : t) : t :=
  match cycles with
  | [] => c
  | cy :: rest =>
      let (last_heartbeat', c') := iteration cy last_heartbeat c in
      run_cycles rest last_heartbeat' c'
  end.

(** [start] for the passes made before the loop is interrupted: without
    a server connection it returns at once; otherwise the [finally]
    clause runs [stop], which disconnects. *)
Definition start (o : connecting) (t0 : float) (cycles : list Cycle) (c : t) : t :=
  let (ok, c) := connect_to_server o c in
  if negb ok then c else disconnect (run_cycles cycles t0 c).

End WithSdk.
End Client.

(* ===================================================================== *)
(** ** Concrete engines, SDKs and documents used in the examples          *)
(* ===================================================================== *)

Module Sample.

Definition number (v : value) : bool :=
  match v with VInt _ | VFloat _ => true | _ => false end.

(** An engine without state whose joint structures take numbers
    only, whose [check_collision_Pair] has outcome [verify] and whose
    [check_collision] has outcome [verdict]; the other calls return. *)
Definition engine (verify : native unit)
    (verdict : native (bool * list (Z * Z) * float)) : dac.Engine :=
  {| dac.state := unit;
     dac.axis_accepts := number;
     dac.init_dual_arm := fun _ _ st => (Returns tt, st);
     dac.set_toolcollisionmodel := fun _ _ _ _ st => (Returns tt, st);
     dac.set_collision_Pair := fun _ _ st => (Returns tt, st);
     dac.check_collision_Pair := fun st => (verify, st);
     dac.update_joints := fun _ _ st => (Returns tt, st);
     dac.check_collision := fun st => (verdict, st) |}.

Definition clear : native (bool * list (Z * Z) * float) :=
  Returns (false, [], 0x1p-2%float).
Definition penetrating : native (bool * list (Z * Z) * float) :=
  Returns (true, [(6, 16)], (-0x1p-7)%float).
Definition broken : native (bool * list (Z * Z) * float) :=
  Raises "engine not initialised".

(** Three engines: one that sees no collision, one that reports a
    penetration as a negative distance, one whose pair verification and
    collision check both raise. *)
Definition quiet : dac.Engine := engine (Returns tt) clear.
Definition signed : dac.Engine := engine (Returns tt) penetrating.
Definition faulty : dac.Engine := engine (Raises "pair table unavailable") broken.

(** An engine that refuses the pairs whose second body is 12. *)
Definition refuse_12 (id1 id2 : Z) : native unit :=
  if (id2 =? 12)%Z then Raises "unknown body 12" else Returns tt.

Definition rejecting : dac.Engine :=
  {| dac.state := unit;
     dac.axis_accepts := number;
     dac.init_dual_arm := fun _ _ st => (Returns tt, st);
     dac.set_toolcollisionmodel := fun _ _ _ _ st => (Returns tt, st);
     dac.set_collision_Pair := fun id1 id2 st => (refuse_12 id1 id2, st);
     dac.check_collision_Pair := fun st => (Returns tt, st);
     dac.update_joints := fun _ _ st => (Returns tt, st);
     dac.check_collision := fun st => (clear, st) |}.

(** A running server around such an engine, all joints at zero. *)
Definition server (E : dac.Engine) (e0 : dac.state E) : Server.t E :=
  {| Server.config := None; Server.init_params := None;
     Server.joint_pos := zeros 12; Server.joint_vel := zeros 12;
     Server.collision_detected := false; Server.colliding_pairs := [];
     Server.min_distance := 0%float; Server.tool_config := VDict [];
     Server.running := true; Server.engine := e0; Server.calls := [] |}.

Definition ints (zs : list Z) : value := VList (map VInt zs).

(** A [joint_data] request with two vectors of twelve numbers. *)
Definition joint_data12 : value :=
  VDict [ ("type", VStr "joint_data");
          ("joint_positions", ints [1; 2; 3; 4; 5; 6; 7; 8; 9; 10; 11; 12]);
          ("joint_velocities", ints [21; 22; 23; 24; 25; 26; 27; 28; 29; 30; 31; 32]) ].

(** A [joint_data] request whose vectors stop after three entries. *)
Definition joint_data3 : value :=
  VDict [ ("type", VStr "joint_data");
          ("joint_positions", ints [1; 2; 3]);
          ("joint_velocities", ints [21; 22; 23]) ].

Definition ping : value := VDict [("type", VStr "ping")].
Definition unknown : value := VDict [("type", VStr "status")].

(** A description document: a short [ref2local_frame], an over-long
    [geometry], no [offset]; one [base] section; the rest absent. *)
Definition document : value :=
  VDict [ ("RobType", VStr "hans_dual_arm");
          ("DH", VDict [("d1", VFloat 0x1p-2); ("a2", VFloat 0x1p-1)]);
          ("platform",
           VDict [ ("ref2local_frame", ints [1; 2]);
                   ("geometry", ints [1; 2; 3; 4; 5]);
                   ("type", VStr "lozenge") ]);
          ("base",
           VDict [ ("start", ints [0; 0; 0]);
                   ("end", ints [0; 0; 1; 9]);
                   ("radius", VFloat 0x1p-3);
                   ("type", VStr "capsule") ]) ].

(** A document that parses but whose [platform] section is a number. *)
Definition misshapen : value :=
  VDict [ ("RobType", VStr "dual_arm"); ("platform", VInt 5) ].

Definition on_disk (doc : value) : filesystem :=
  fun path => if bool_decide (path = Server.json_config_path) then Ok doc
              else Raise FileNotFoundError.

Definition no_file : filesystem := fun _ => Raise FileNotFoundError.
Definition not_json : filesystem := fun _ => Raise JSONDecodeError.

(** An SDK whose reads give six strings and whose stop has outcome
    [stop boxid]; [float] is tabulated on the strings that occur. *)
Definition to_float (s : string) : option float :=
  if bool_decide (s = "0") then Some 0%float
  else if bool_decide (s = "90") then Some 90%float
  else if bool_decide (s = "180") then Some 180%float
  else if bool_decide (s = "-45") then Some (-45)%float
  else None.

Definition sdk (stop : Z -> native Z) : CPS.Sdk :=
  {| CPS.state := unit;
     CPS.item := string;
     CPS.to_float := to_float;
     CPS.HRIF_IsConnected := fun _ st => (Returns true, st);
     CPS.HRIF_Connect := fun _ _ _ st => (Returns 0, st);
     CPS.HRIF_ReadActJointPos :=
       fun _ _ st => (Returns (0, ["180"; "90"; "0"; "-45"; "0"; "90"]), st);
     CPS.HRIF_ReadActJointVel :=
       fun _ _ st => (Returns (0, ["0"; "90"; "0"; "-45"; "0"; "0"]), st);
     CPS.HRIF_GrpStop := fun boxid _ st => (stop boxid, st) |}.

(** The left controller (box 0) raises on a stop, the right one obeys. *)
Definition left_stop_raises (boxid : Z) : native Z :=
  if (boxid =? 0)%Z then Raises "socket timeout" else Returns 0.

(** The configuration [load_config] leaves for [document], and a
    server holding it. *)
Definition loaded : DualArmColliderConfiguration :=
  (Reader.read_dual_arm_self_collision_model_from_json
     (on_disk document) Server.json_config_path Config.new).2.

Definition configured (E : dac.Engine) (e0 : dac.state E) : Server.t E :=
  Server.set_config E (Some loaded) (server E e0).

(** A client with both arms connected and a socket to the server. *)
Definition client (K : CPS.Sdk) (k0 : CPS.state K) : Client.t K :=
  {| Client.left_arm := Arm.set_connected true Client.left_arm0;
     Client.right_arm := Arm.set_connected true Client.right_arm0;
     Client.collision_detected := false; Client.client_socket := true;
     Client.sent := []; Client.sdk := k0; Client.calls := [] |}.

End Sample.

(* ===================================================================== *)
(** ** The specification's wording, for comparison with the code          *)
(* ===================================================================== *)

Module Spec.

(** "Every numeric array, when absent or short in the source
    description, is defaulted to zero and padded on the right to its
    fixed arity; extra elements are truncated." *)
Definition fixed_arity (n : nat) (source : list value) : list value :=
  take n (source ++ zeros n).

Definition is_list (v : value) : bool :=
  match v with VList _ => true | _ => false end.

Definition items (v : value) : list value :=
  match v with VList l => l | _ => [] end.

Definition is_dict (v : value) : bool :=
  match v with VDict _ => true | _ => false end.

(** Lozenge: 6 + 4 + 3; capsule: 3 + 3 + 1; ball: 3 + 1. *)
Definition lozenge_vector (l : LozengeModelCo.t) : list value :=
  fixed_arity 6 (items (LozengeModelCo.ref2local_frame l))
  ++ fixed_arity 4 (items (LozengeModelCo.geometry l))
  ++ fixed_arity 3 (items (LozengeModelCo.offset l)).

Definition capsule_vector (c : CapsuleModel.t) : list value :=
  fixed_arity 3 (items (CapsuleModel.start c))
  ++ fixed_arity 3 (items (CapsuleModel.end_ c))
  ++ [CapsuleModel.radius c].

Definition ball_vector (b : BallModel.t) : list value :=
  fixed_arity 3 (items (BallModel.offset b)) ++ [BallModel.radius b].

Definition lozenge_arrays (l : LozengeModelCo.t) : bool :=
  is_list (LozengeModelCo.ref2local_frame l)
  && is_list (LozengeModelCo.geometry l)
  && is_list (LozengeModelCo.offset l).

Definition capsule_arrays (c : CapsuleModel.t) : bool :=
  is_list (CapsuleModel.start c) && is_list (CapsuleModel.end_ c).

(** Every array attribute that [convert_config] reads is bound to a
    list, of whatever length. *)
Definition arrays (c : DualArmColliderConfiguration) : bool :=
  lozenge_arrays (platform c) && lozenge_arrays (head c)
  && lozenge_arrays (truck c)
  && capsule_arrays (L_base c) && capsule_arrays (L_lowerArm c)
  && capsule_arrays (L_elbow c) && capsule_arrays (L_upperArm c)
  && is_list (BallModel.offset (L_wrist c)).

(** The two error kinds of the loader. *)
Inductive load_error : Type := ConfigNotFound | ConfigParseError.

Definition classify (e : exn) : option load_error :=
  match e with
  | RuntimeError_cannot_open _ => Some ConfigNotFound
  | RuntimeError_json_parse _ => Some ConfigParseError
  | _ => None
  end.

(** The message type of a request, [None] when the key is absent. *)
Definition msg_type (d : list (string * value)) : value :=
  default VNone (dict_lookup "type" d).

(** The section of a description document under a key, the empty
    dictionary when the key is absent. *)
Definition section (doc : value) (key : string) : value :=
  match doc with
  | VDict d => default (VDict []) (dict_lookup key d)
  | _ => VNone
  end.

(** A field of a section, with its default. *)
Definition field (sec : value) (key : string) (dflt : value) : value :=
  match sec with
  | VDict d => default dflt (dict_lookup key d)
  | _ => dflt
  end.

(** The three primitives as a section describes them. *)
Definition lozenge_of (sec : value) : LozengeModelCo.t :=
  LozengeModelCo.Build (field sec "ref2local_frame" (VList []))
    (field sec "offset" (VList [])) (field sec "geometry" (VList []))
    (field sec "type" (VStr EmptyString)).

Definition capsule_of (sec : value) : CapsuleModel.t :=
  CapsuleModel.Build (field sec "start" (VList [])) (field sec "end" (VList []))
    (field sec "radius" (VFloat 0)) (field sec "type" (VStr EmptyString)).

Definition ball_of (sec : value) : BallModel.t :=
  BallModel.Build (field sec "offset" (VList [])) (field sec "radius" (VFloat 0))
    (field sec "type" (VStr EmptyString)).

(** The configuration a successful load leaves, as a function of the
    document, of whether its type names a dual arm, and of the
    configuration passed in. *)
Definition described (doc : value) (dual : bool)
    (c : DualArmColliderConfiguration) : DualArmColliderConfiguration :=
  {| dh := if dual
           then [ field (section doc "DH") "d1" (VFloat 0);
                  field (section doc "DH") "d4" (VFloat 0);
                  field (section doc "DH") "d6" (VFloat 0);
                  field (section doc "DH") "a2" (VFloat 0) ]
           else dh c;
     robType := if dual then RobotType.DualArm else robType c;
     platform := lozenge_of (section doc "platform");
     truck := lozenge_of (section doc "truck");
     head := lozenge_of (section doc "head");
     L_base := capsule_of (section doc "base");
     L_lowerArm := capsule_of (section doc "l_lowerArm");
     L_elbow := capsule_of (section doc "l_elbow");
     L_upperArm := capsule_of (section doc "l_upperArm");
     L_wrist := ball_of (section doc "l_wrist");
     R_base := capsule_of (section doc "base");
     R_lowerArm := capsule_of (section doc "r_lowerArm");
     R_elbow := capsule_of (section doc "r_elbow");
     R_upperArm := capsule_of (section doc "r_upperArm");
     R_wrist := ball_of (section doc "r_wrist") |}.

(** What a document must be for the load to go through: an object whose
    ["RobType"] can be searched, whose ["DH"] is an object when the type
    names a dual arm, and whose thirteen sections are objects (an absent
    key counts as the empty object). *)
Definition loadable (doc : value) (dual : bool) : Prop :=
  is_dict doc = true
  /\ contains "dual_arm" (field doc "RobType" (VStr EmptyString)) = Ok dual
  /\ (dual = true -> is_dict (section doc "DH") = true)
  /\ Forall (fun k => is_dict (section doc k) = true)
       [ "platform"; "truck"; "head"; "base"; "l_lowerArm"; "l_elbow";
         "l_upperArm"; "l_wrist"; "r_lowerArm"; "r_elbow"; "r_upperArm";
         "r_wrist" ].

(** The thirteen section keys the loader reads, in reading order
    (["base"] is read twice). *)
Definition section_keys : list string :=
  [ "platform"; "truck"; "head"; "base"; "l_lowerArm"; "l_elbow"; "l_upperArm";
    "l_wrist"; "base"; "r_lowerArm"; "r_elbow"; "r_upperArm"; "r_wrist" ].

(** [c'] differs from [c] at most in the SDK's state and in the record
    of the calls made into it. *)
Definition only_sdk_moved (K : CPS.Sdk) (c c' : Client.t K) : Prop :=
  Client.left_arm K c' = Client.left_arm K c
  /\ Client.right_arm K c' = Client.right_arm K c
  /\ Client.collision_detected K c' = Client.collision_detected K c
  /\ Client.client_socket K c' = Client.client_socket K c
  /\ Client.sent K c' = Client.sent K c.

(** The start pose in radians: the left arm at zero, the right arm at
    -90, 50 and 140 degrees (- pi / 2, 5 pi / 18 and 7 pi / 9 as
    doubles), then zero. *)
Definition initial_pose : list value :=
  map VFloat
    [ 0; 0; 0; 0; 0; 0;
      -0x1.921fb54442d18p+0; 0x1.becde5da115a9p-1; 0x1.38c35418a5bf6p+1;
      0; 0; 0 ]%float.

(** What satisfies a heartbeat: the ping is sent and the reply is empty
    bytes or any JSON object. *)
Definition accepted (net : Client.Net) : bool :=
  Client.send_ok net
  && match Client.response net with
     | Some None => true
     | Some (Some (Ok v)) => is_dict v
     | _ => false
     end.

End Spec.

(* ===================================================================== *)
(** * Properties                                                          *)
(* ===================================================================== *)

Local Open Scope nat_scope.

Section Combinators.
Lemma bind_ok {S A B} (m : M S A) (k : A -> M S B) s b s' :
  bind m k s = (Ok b, s') ->
  exists a s1, m s = (Ok a, s1) /\ k a s1 = (Ok b, s').
Proof.
  unfold bind. destruct (m s) as [[a|e] s1]; [eauto | discriminate].
Qed.

Lemma lift_ok {S A} (r : result A) (s : S) a s' :
  lift r s = (Ok a, s') -> r = Ok a /\ s' = s.
Proof. unfold lift. by intros [= -> ->]. Qed.

Lemma zoom_ok {S T A} (g : S -> T) (st : T -> S -> S) (m : M T A) s a s' :
  zoom g st m s = (Ok a, s') ->
  exists t', m (g s) = (Ok a, t') /\ s' = st t' s.
Proof.
  unfold zoom. destruct (m (g s)) as [r t']. intros [= -> <-]. eauto.
Qed.
End Combinators.

Section Marshalling.

Lemma fixed_arity_length n xs : length (Spec.fixed_arity n xs) = n.
Proof.
  unfold Spec.fixed_arity, zeros.
  rewrite length_take, length_app, length_replicate. lia.
Qed.

Lemma fixed_arity_lookup n xs i :
  i < n -> Spec.fixed_arity n xs !! i = Some (default (VFloat 0) (xs !! i)).
Proof.
  intros Hi. unfold Spec.fixed_arity, zeros.
  rewrite lookup_take_lt by done.
  destruct (xs !! i) as [x|] eqn:Hx.
  - by rewrite (lookup_app_l_Some _ _ _ _ Hx).
  - apply lookup_ge_None in Hx.
    rewrite lookup_app_r by done.
    rewrite lookup_replicate_2 by lia. done.
Qed.

(** What the code computes for one array: the slice, then as many
    zeros as the slice is short of [n]. *)
Lemma slice_then_pad n xs :
  take n xs ++ zeros (n - length (take n xs)) = Spec.fixed_arity n xs.
Proof.
  unfold Spec.fixed_arity, zeros.
  rewrite take_app, length_take.
  f_equal.
  rewrite take_replicate. f_equal. lia.
Qed.

Lemma slice_then_pad_app n xs rest :
  take n xs ++ zeros (n - length (take n xs)) ++ rest
  = Spec.fixed_arity n xs ++ rest.
Proof. by rewrite app_assoc, slice_then_pad. Qed.

Lemma build_lozenge_params_lists l :
  Spec.lozenge_arrays l = true ->
  Server.build_lozenge_params l = Ok (Spec.lozenge_vector l).
Proof.
  destruct l as [r o g ty]. unfold Spec.lozenge_arrays, Spec.lozenge_vector.
  cbn [LozengeModelCo.ref2local_frame LozengeModelCo.geometry LozengeModelCo.offset].
  intros H. apply andb_true_iff in H as [H Ho]. apply andb_true_iff in H as [Hr Hg].
  destruct r; try discriminate. destruct g; try discriminate. destruct o; try discriminate.
  unfold Server.build_lozenge_params. cbn [slice_to LozengeModelCo.ref2local_frame LozengeModelCo.geometry LozengeModelCo.offset Spec.items].
  cbv zeta. rewrite app_nil_l, <- !app_assoc.
  rewrite !slice_then_pad_app, slice_then_pad.
  rewrite take_ge; [done|].
  rewrite !length_app, !fixed_arity_length. lia.
Qed.

Lemma build_capsule_params_lists c :
  Spec.capsule_arrays c = true ->
  Server.build_capsule_params c = Ok (Spec.capsule_vector c).
Proof.
  destruct c as [a b r ty]. unfold Spec.capsule_arrays, Spec.capsule_vector.
  cbn [CapsuleModel.start CapsuleModel.end_ CapsuleModel.radius].
  intros H. apply andb_true_iff in H as [Ha Hb].
  destruct a; try discriminate. destruct b; try discriminate.
  unfold Server.build_capsule_params.
  cbn [slice_to CapsuleModel.start CapsuleModel.end_ CapsuleModel.radius Spec.items].
  cbv zeta. rewrite app_nil_l, <- !app_assoc.
  rewrite !slice_then_pad_app.
  rewrite take_ge; [done|].
  rewrite !length_app, !fixed_arity_length. simpl. lia.
Qed.

Lemma build_wrist_params_lists b :
  Spec.is_list (BallModel.offset b) = true ->
  Server.build_wrist_params b = Ok (Spec.ball_vector b).
Proof.
  destruct b as [o r ty]. unfold Spec.ball_vector.
  cbn [BallModel.offset BallModel.radius].
  intros H. destruct o; try discriminate.
  unfold Server.build_wrist_params.
  cbn [slice_to BallModel.offset BallModel.radius Spec.items].
  cbv zeta. rewrite app_nil_l, <- !app_assoc, slice_then_pad_app.
  rewrite take_ge; [done|].
  rewrite !length_app, !fixed_arity_length. simpl. lia.
Qed.

Lemma lozenge_vector_length l : length (Spec.lozenge_vector l) = 13.
Proof. unfold Spec.lozenge_vector. by rewrite !length_app, !fixed_arity_length. Qed.

Lemma capsule_vector_length c : length (Spec.capsule_vector c) = 7.
Proof. unfold Spec.capsule_vector. by rewrite !length_app, !fixed_arity_length. Qed.

Lemma ball_vector_length b : length (Spec.ball_vector b) = 4.
Proof. unfold Spec.ball_vector. by rewrite !length_app, !fixed_arity_length. Qed.

End Marshalling.

(** C4.  For every configuration whose array attributes are lists, of
    whatever length, [convert_config] succeeds and the vectors it stores
    have their fixed arity: 13 values for each lozenge (platform, head,
    truck), 7 for each capsule, 4 for the wrist ball, 4 for DH.  Each
    array occupies its own slots: its first elements in order, zeros in
    the slots it does not reach, nothing beyond its arity. *)
Theorem marshaller_fixed_arity (E : dac.Engine) (s : Server.t E)
    (c : DualArmColliderConfiguration) :
  Server.config E s = Some c ->
  Spec.arrays c = true ->
  exists p : InitParams,
    Server.convert_config E s = (true, Server.set_init_params E (Some p) s)
    /\ (ip_robType p = robType c
        /\ ip_dh p = Spec.fixed_arity 4 (dh c)
        /\ ip_platform p = Spec.lozenge_vector (platform c)
        /\ ip_head p = Spec.lozenge_vector (head c)
        /\ ip_truck p = Spec.lozenge_vector (truck c)
        /\ ip_base p = Spec.capsule_vector (L_base c)
        /\ ip_lowerArm p = Spec.capsule_vector (L_lowerArm c)
        /\ ip_elbow p = Spec.capsule_vector (L_elbow c)
        /\ ip_upperArm p = Spec.capsule_vector (L_upperArm c)
        /\ ip_wrist p = Spec.ball_vector (L_wrist c))
    /\ (length (ip_dh p) = 4
        /\ length (ip_platform p) = 13 /\ length (ip_head p) = 13
        /\ length (ip_truck p) = 13
        /\ length (ip_base p) = 7 /\ length (ip_lowerArm p) = 7
        /\ length (ip_elbow p) = 7 /\ length (ip_upperArm p) = 7
        /\ length (ip_wrist p) = 4)
    /\ (forall n xs i, i < n ->
          Spec.fixed_arity n xs !! i = Some (default (VFloat 0) (xs !! i))).
Proof.
  intros Hc Harr. unfold Spec.arrays in Harr.
  do 7 (apply andb_true_iff in Harr as [Harr ?]).
  unfold Server.convert_config, Server.convert. rewrite Hc.
  rewrite !build_lozenge_params_lists, !build_capsule_params_lists,
    build_wrist_params_lists by done.
  cbv zeta. rewrite slice_then_pad.
  eexists. split; [reflexivity|]. cbn [ip_robType ip_dh ip_platform ip_head ip_truck ip_base ip_lowerArm ip_elbow ip_upperArm ip_wrist].
  rewrite !lozenge_vector_length, !capsule_vector_length, ball_vector_length,
    fixed_arity_length.
  split; [by repeat split|]. split; [by repeat split|].
  apply fixed_arity_lookup.
Qed.

(** The theorem at the configuration loaded from [Sample.document],
    whose platform has a short, an over-long and an absent array. *)
Lemma marshaller_fixed_arity_witness :
  exists p : InitParams,
    Server.convert_config _ (Sample.configured (Sample.engine (Returns tt) Sample.clear) tt)
    = (true, Server.set_init_params _ (Some p)
               (Sample.configured (Sample.engine (Returns tt) Sample.clear) tt))
    /\ length (ip_platform p) = 13 /\ length (ip_base p) = 7
    /\ length (ip_wrist p) = 4 /\ length (ip_dh p) = 4.
Proof.
  destruct (marshaller_fixed_arity (Sample.engine (Returns tt) Sample.clear)
              (Sample.configured (Sample.engine (Returns tt) Sample.clear) tt)
              Sample.loaded)
    as (p & Hrun & _ & Hlen & _).
  - reflexivity.
  - vm_compute. reflexivity.
  - exists p. split; [exact Hrun|]. tauto.
Defined.

Section Loader.

(** A section that is a dictionary overwrites all four attributes of
    the capsule; the capsule it leaves does not depend on the one it
    found. *)
Lemma fill_capsule_dict d c :
  Reader.fill_capsule (VDict d) c
  = (Ok tt,
     CapsuleModel.Build
       (default (VList []) (dict_lookup "start" d))
       (default (VList []) (dict_lookup "end" d))
       (default (VFloat 0) (dict_lookup "radius" d))
       (default (VStr EmptyString) (dict_lookup "type" d))).
Proof. reflexivity. Qed.

(** A section that is anything else stops at the first [.get]. *)
Lemma fill_capsule_other v c :
  Spec.is_dict v = false -> Reader.fill_capsule v c = (Raise AttributeError, c).
Proof. destruct v; intros H; try discriminate; reflexivity. Qed.

Lemma fill_lozenge_other v l :
  Spec.is_dict v = false -> Reader.fill_lozenge v l = (Raise AttributeError, l).
Proof. destruct v; intros H; try discriminate; reflexivity. Qed.

Lemma fill_ball_other v b :
  Spec.is_dict v = false -> Reader.fill_ball v b = (Raise AttributeError, b).
Proof. destruct v; intros H; try discriminate; reflexivity. Qed.



(** A successful capsule section leaves a capsule that depends on the
    section alone. *)
Lemma fill_capsule_indep v c1 c2 u1 u2 t1 t2 :
  Reader.fill_capsule v c1 = (Ok u1, t1) ->
  Reader.fill_capsule v c2 = (Ok u2, t2) ->
  t1 = t2.
Proof.
  destruct v; try discriminate. rewrite !fill_capsule_dict. congruence.
Qed.

Ltac peel H :=
  repeat (let a := fresh "a" in
          let s := fresh "s" in
          let Hm := fresh "Hm" in
          apply bind_ok in H as (a & s & Hm & H); cbv beta in H);
  repeat match goal with
    | Hz : zoom _ _ _ _ = (Ok _, _) |- _ =>
        let t := fresh "t" in
        let Hf := fresh "Hf" in
        apply zoom_ok in Hz as (t & Hf & ->)
    | Hl : lift _ _ = (Ok _, _) |- _ => apply lift_ok in Hl as [? ->]
    end.

(** Whatever else the document holds, a successful pass leaves the two
    base capsules equal: both [.get] calls name the key ["base"]. *)
Lemma fill_base doc c c' :
  Reader.fill doc c = (Ok tt, c') -> L_base c' = R_base c'.
Proof.
  intros H. unfold Reader.fill in H.
  peel H. cbn.
  match goal with
  | H1 : get doc "base" _ = Ok ?x, H2 : get doc "base" _ = Ok ?y |- _ =>
      assert (x = y) as -> by congruence
  end.
  eauto using fill_capsule_indep.
Qed.

Lemma read_ok fs file_path c c' :
  Reader.read_dual_arm_self_collision_model_from_json fs file_path c = (Ok tt, c') ->
  exists doc, fs file_path = Ok doc /\ Reader.fill doc c = (Ok tt, c').
Proof.
  unfold Reader.read_dual_arm_self_collision_model_from_json, bind, lift.
  destruct (fs file_path) as [doc|e]; [|discriminate].
  destruct (Reader.fill doc c) as [[[]|e] c1] eqn:Hfill; [|discriminate].
  intros [= <-]. eauto.
Qed.

End Loader.

(** C9.  After every successful load the left-arm and the right-arm base
    capsule are equal: same start, end, radius and type. *)
Theorem base_capsules_equal (fs : filesystem) (file_path : string)
    (config config' : DualArmColliderConfiguration) :
  Reader.read_dual_arm_self_collision_model_from_json fs file_path config
  = (Ok tt, config') ->
  L_base config' = R_base config'
  /\ CapsuleModel.start (L_base config') = CapsuleModel.start (R_base config')
  /\ CapsuleModel.end_ (L_base config') = CapsuleModel.end_ (R_base config')
  /\ CapsuleModel.radius (L_base config') = CapsuleModel.radius (R_base config')
  /\ CapsuleModel.type (L_base config') = CapsuleModel.type (R_base config').
Proof.
  intros H. apply read_ok in H as (doc & _ & H).
  apply fill_base in H. rewrite H. done.
Qed.

(** The theorem at [Sample.document]. *)
Lemma base_capsules_equal_witness :
  L_base Sample.loaded = R_base Sample.loaded
  /\ CapsuleModel.radius (L_base Sample.loaded) = VFloat 0x1p-3.
Proof.
  split.
  - apply (base_capsules_equal (Sample.on_disk Sample.document)
             Server.json_config_path Config.new Sample.loaded).
    vm_compute. reflexivity.
  - vm_compute. reflexivity.
Defined.

(** C5, as amended.  A missing file gives the "cannot open file" error
    and a file that cannot be read or parsed gives the "JSON parse"
    error; in both cases the configuration passed in is unchanged.  No
    other error leaves the loader. *)
Theorem loader_errors (fs : filesystem) (file_path : string)
    (config : DualArmColliderConfiguration) :
  (fs file_path = Raise FileNotFoundError ->
   Reader.read_dual_arm_self_collision_model_from_json fs file_path config
   = (Raise (RuntimeError_cannot_open file_path), config))
  /\ (forall e, fs file_path = Raise e -> e <> FileNotFoundError ->
      Reader.read_dual_arm_self_collision_model_from_json fs file_path config
      = (Raise (RuntimeError_json_parse e), config))
  /\ (forall e config',
      Reader.read_dual_arm_self_collision_model_from_json fs file_path config
      = (Raise e, config') ->
      is_Some (Spec.classify e)).
Proof.
  unfold Reader.read_dual_arm_self_collision_model_from_json, bind, lift.
  split; [|split].
  - intros ->. reflexivity.
  - intros e -> Hne. destruct e; try reflexivity. congruence.
  - intros e config'. destruct (fs file_path) as [doc|e0].
    + destruct (Reader.fill doc config) as [[[]|e1] c1]; [discriminate|].
      intros [= <- _]. destruct e1; simpl; eauto.
    + intros [= <- _]. destruct e0; simpl; eauto.
Qed.

(** The theorem where no file exists and where the file is not JSON. *)
Lemma loader_errors_witness :
  Reader.read_dual_arm_self_collision_model_from_json
    Sample.no_file Server.json_config_path Config.new
  = (Raise (RuntimeError_cannot_open Server.json_config_path), Config.new)
  /\ Reader.read_dual_arm_self_collision_model_from_json
       Sample.not_json Server.json_config_path Config.new
     = (Raise (RuntimeError_json_parse JSONDecodeError), Config.new).
Proof.
  split.
  - apply (loader_errors Sample.no_file Server.json_config_path Config.new).
    reflexivity.
  - apply (loader_errors Sample.not_json Server.json_config_path Config.new
             ).
    + reflexivity.
    + discriminate.
Defined.

(** C5 as stated fails: a document that parses but whose [platform]
    section is a number makes the loader raise after it has assigned
    [dh]; the caller finds its configuration changed. *)
Lemma loader_partial_mutation :
  Reader.read_dual_arm_self_collision_model_from_json
    (Sample.on_disk Sample.misshapen) Server.json_config_path Config.new
  = (Raise (RuntimeError_json_parse AttributeError),
     Config.set_dh (zeros 4) Config.new)
  /\ Config.set_dh (zeros 4) Config.new <> Config.new.
Proof.
  split.
  - vm_compute. reflexivity.
  - intros H. apply (f_equal dh) in H. discriminate H.
Qed.

Section JointState.
Variable E : dac.Engine.
Implicit Types s : Server.t E.

Lemma splice_step (k n : nat) (new old : list value) x :
  new !! k = Some x -> k < length old ->
  take (S k) (<[k:=x]> old) ++ take n (drop (S k) new)
    ++ drop (S k + n) (<[k:=x]> old)
  = take k old ++ take (S n) (drop k new) ++ drop (k + S n) old.
Proof.
  intros Hx Hk.
  rewrite (drop_S new x k Hx). cbn [take].
  rewrite drop_insert_lt by lia.
  replace (k + S n) with (S k + n) by lia.
  rewrite (take_S_r (<[k:=x]> old) k x) by (by apply list_lookup_insert_eq).
  rewrite take_insert_ge by lia.
  by rewrite <- app_assoc.
Qed.

Lemma set_joint_ok ps vs i p v s :
  ps !! i = Some p -> vs !! i = Some v ->
  dac.axis_accepts E p = true -> dac.axis_accepts E v = true ->
  Server.set_joint E (VList ps) (VList vs) i s
  = (Ok tt,
     Server.set_joint_vel E (<[i:=v]> (Server.joint_vel E s))
       (Server.set_joint_pos E (<[i:=p]> (Server.joint_pos E s)) s)).
Proof.
  intros Hp Hv Hap Hav.
  unfold Server.set_joint, bind, lift, zoom, Server.setattr_a, assign, getitem_int.
  rewrite Hp, Hv, Hap. cbn. rewrite Hav. reflexivity.
Qed.

(** After the iterations [k], ..., [k + n - 1] the two structures hold
    the message's entries at these indices and the old ones elsewhere. *)
Lemma write_loop ps vs n : forall k s,
  k + n <= length ps -> k + n <= length vs ->
  k + n <= length (Server.joint_pos E s) ->
  k + n <= length (Server.joint_vel E s) ->
  Forall (fun x => dac.axis_accepts E x = true) (take (k + n) ps) ->
  Forall (fun x => dac.axis_accepts E x = true) (take (k + n) vs) ->
  for_each (seq k n) (Server.set_joint E (VList ps) (VList vs)) s
  = (Ok tt,
     Server.set_joint_vel E
       (take k (Server.joint_vel E s) ++ take n (drop k vs)
          ++ drop (k + n) (Server.joint_vel E s))
       (Server.set_joint_pos E
          (take k (Server.joint_pos E s) ++ take n (drop k ps)
             ++ drop (k + n) (Server.joint_pos E s)) s)).
Proof.
  induction n as [|n IH]; intros k s Hps Hvs Hjp Hjv Hap Hav.
  - cbn [seq for_each ret]. rewrite !take_0, !app_nil_l, Nat.add_0_r, !take_drop.
    by destruct s.
  - cbn [seq for_each]. unfold bind at 1.
    destruct (lookup_lt_is_Some_2 ps k) as [p Hp]; [lia|].
    destruct (lookup_lt_is_Some_2 vs k) as [v Hv]; [lia|].
    rewrite (set_joint_ok ps vs k p v s Hp Hv).
    + rewrite IH.
      * unfold Server.set_joint_vel, Server.set_joint_pos.
        cbn [Server.joint_pos Server.joint_vel Server.config Server.init_params
               Server.collision_detected Server.colliding_pairs Server.min_distance
               Server.tool_config Server.running Server.engine Server.calls].
        rewrite !splice_step by (done || lia). reflexivity.
      * lia.
      * lia.
      * unfold Server.set_joint_vel, Server.set_joint_pos.
        cbn [Server.joint_pos]. rewrite length_insert. lia.
      * unfold Server.set_joint_vel, Server.set_joint_pos.
        cbn [Server.joint_vel]. rewrite length_insert. lia.
      * by replace (S k + n) with (k + S n) by lia.
      * by replace (S k + n) with (k + S n) by lia.
    + eapply (proj1 (Forall_lookup _ _) Hap k p).
      rewrite lookup_take_lt by lia. done.
    + eapply (proj1 (Forall_lookup _ _) Hav k v).
      rewrite lookup_take_lt by lia. done.
Qed.


Lemma update_joints_lists ps vs s :
  length (Server.joint_pos E s) = 12 -> length (Server.joint_vel E s) = 12 ->
  12 <= length ps -> 12 <= length vs ->
  Forall (fun x => dac.axis_accepts E x = true) (take 12 ps) ->
  Forall (fun x => dac.axis_accepts E x = true) (take 12 vs) ->
  Server.update_joints E (VList ps) (VList vs) s
  = Server.set_engine E
      (dac.update_joints E (take 12 ps) (take 12 vs) (Server.engine E s)).2
      (dac.Update_joints (take 12 ps) (take 12 vs))
      (Server.set_joint_vel E (take 12 vs)
         (Server.set_joint_pos E (take 12 ps) s)).
Proof.
  intros Hjp Hjv Hps Hvs Hap Hav.
  unfold Server.update_joints, Server.update_joints_body.
  unfold bind at 1. rewrite write_loop by (done || lia).
  rewrite !take_0, !app_nil_l, !drop_0, Nat.add_0_l.
  rewrite !drop_ge, !app_nil_r by lia.
  unfold bind, gets, Server.invoke. cbn.
  by destruct (dac.update_joints E (take 12 ps) (take 12 vs) (Server.engine E s)).
Qed.

End JointState.

(** C6, as amended.  A [joint_data] message whose two vectors have at
    least twelve entries, all of which the joint structures accept,
    overwrites all 24 entries with the message's first twelve positions
    and velocities, and hands exactly these to the engine. *)
Theorem joint_state_overwritten (E : dac.Engine) (s : Server.t E)
    (ps vs : list value) :
  length (Server.joint_pos E s) = 12 -> length (Server.joint_vel E s) = 12 ->
  12 <= length ps -> 12 <= length vs ->
  Forall (fun x => dac.axis_accepts E x = true) (take 12 ps) ->
  Forall (fun x => dac.axis_accepts E x = true) (take 12 vs) ->
  Server.joint_pos E (Server.update_joints E (VList ps) (VList vs) s) = take 12 ps
  /\ Server.joint_vel E (Server.update_joints E (VList ps) (VList vs) s) = take 12 vs
  /\ (forall i, i < 12 ->
        Server.joint_pos E (Server.update_joints E (VList ps) (VList vs) s) !! i = ps !! i
        /\ Server.joint_vel E (Server.update_joints E (VList ps) (VList vs) s) !! i = vs !! i)
  /\ Server.calls E (Server.update_joints E (VList ps) (VList vs) s)
     = Server.calls E s ++ [dac.Update_joints (take 12 ps) (take 12 vs)].
Proof.
  intros Hjp Hjv Hps Hvs Hap Hav.
  rewrite update_joints_lists by done. cbn.
  repeat split; intros; by rewrite lookup_take_lt.
Qed.

(** The theorem at a message with thirteen positions and twelve
    velocities. *)
Lemma joint_state_overwritten_witness :
  Server.joint_pos Sample.quiet
    (Server.update_joints Sample.quiet
       (Sample.ints [1; 2; 3; 4; 5; 6; 7; 8; 9; 10; 11; 12; 13]%Z)
       (Sample.ints [21; 22; 23; 24; 25; 26; 27; 28; 29; 30; 31; 32]%Z)
       (Sample.server Sample.quiet tt))
  = map VInt [1; 2; 3; 4; 5; 6; 7; 8; 9; 10; 11; 12]%Z.
Proof.
  apply (joint_state_overwritten Sample.quiet
           (Sample.server Sample.quiet tt)
           (map VInt [1; 2; 3; 4; 5; 6; 7; 8; 9; 10; 11; 12; 13]%Z)
           (map VInt [21; 22; 23; 24; 25; 26; 27; 28; 29; 30; 31; 32]%Z)).
  - reflexivity.
  - reflexivity.
  - simpl. lia.
  - simpl. lia.
  - vm_compute. repeat constructor.
  - vm_compute. repeat constructor.
Defined.

(** C6 as stated fails: a message whose vectors stop after three
    entries is answered, and leaves three new and nine old entries in
    each structure; the engine is not told of any of them. *)
Lemma short_vectors_partial_update :
  Server.handle_message Sample.quiet
    (Server.Recv_data (Ok Sample.joint_data3)) true
    (Sample.server Sample.quiet tt)
  = (Server.Next,
     [VDict [ ("type", VStr "collision_result");
              ("result", VDict [ ("collision_detected", VBool false);
                                 ("colliding_pairs", VList []);
                                 ("min_distance", VFloat 0x1p-2) ]) ]],
     Server.set_engine Sample.quiet tt dac.Check_collision
       (Server.set_verdict Sample.quiet false [] 0x1p-2%float
          (Server.set_joint_vel Sample.quiet (map VInt [21; 22; 23]%Z ++ zeros 9)
             (Server.set_joint_pos Sample.quiet (map VInt [1; 2; 3]%Z ++ zeros 9)
                (Sample.server Sample.quiet tt))))).
Proof. vm_compute. reflexivity. Qed.

Section Requests.
Variable E : dac.Engine.
Implicit Types s : Server.t E.

(** The dictionary [check_collision] returns, by the outcome of the
    engine call it makes. *)
Lemma check_collision_result s :
  (Server.check_collision E s).1
  = match (dac.check_collision E (Server.engine E s)).1 with
    | Returns (b, pairs, dist) =>
        VDict [ ("collision_detected", VBool b);
                ("colliding_pairs", VList (map Server.pair_value pairs));
                ("min_distance", VFloat dist) ]
    | Raises msg =>
        VDict [ ("collision_detected", VBool false);
                ("colliding_pairs", VList []);
                ("min_distance", VFloat 0);
                ("error", VStr msg) ]
    end.
Proof.
  unfold Server.check_collision.
  destruct (dac.check_collision E (Server.engine E s)) as [[[[b pairs] dist]|msg] e'];
    reflexivity.
Qed.

(** A [joint_data] request that carries both vectors is answered. *)
Lemma handle_joint_data d jp jv send_ok s :
  dict_lookup "type" d = Some (VStr "joint_data") ->
  dict_lookup "joint_positions" d = Some jp ->
  dict_lookup "joint_velocities" d = Some jv ->
  Server.handle_message E (Server.Recv_data (Ok (VDict d))) send_ok s
  = (if send_ok then Server.Next else Server.Leave,
     [VDict [ ("type", VStr "collision_result");
              ("result",
               (Server.check_collision E (Server.update_joints E jp jv s)).1) ]],
     (Server.check_collision E (Server.update_joints E jp jv s)).2).
Proof.
  intros Hty Hjp Hjv.
  unfold Server.handle_message, Server.dispatch, bind, lift, assign, ret,
    get1, get, getitem_str.
  rewrite Hty, Hjp, Hjv. cbn.
  rewrite bool_decide_eq_true_2 by reflexivity. unfold Server.sendall.
  by destruct (Server.check_collision E (Server.update_joints E jp jv s)).
Qed.

(** A request of any other type than the two known ones is dropped. *)
Lemma handle_other_type d send_ok s :
  eq_str (Spec.msg_type d) "joint_data" = false ->
  eq_str (Spec.msg_type d) "ping" = false ->
  Server.handle_message E (Server.Recv_data (Ok (VDict d))) send_ok s
  = (Server.Next, [], s).
Proof.
  intros H1 H2.
  unfold Server.handle_message, Server.dispatch, bind, lift, ret, get1, get.
  fold (Spec.msg_type d). by rewrite H1, H2.
Qed.

End Requests.

(** C1, as amended.  A [joint_data] request that carries both vectors
    is answered on the same connection with one [collision_result]
    document.  Its result holds a boolean [collision_detected], the list
    of colliding pairs and a float [min_distance], which is the distance
    the engine returned, unchanged, or 0.0 when the engine call raised. *)
Theorem joint_data_reply (E : dac.Engine) (s : Server.t E)
    (d : list (string * value)) (jp jv : value) (send_ok : bool) :
  dict_lookup "type" d = Some (VStr "joint_data") ->
  dict_lookup "joint_positions" d = Some jp ->
  dict_lookup "joint_velocities" d = Some jv ->
  exists (result : value) (s' : Server.t E),
    Server.handle_message E (Server.Recv_data (Ok (VDict d))) send_ok s
    = (if send_ok then Server.Next else Server.Leave,
       [VDict [("type", VStr "collision_result"); ("result", result)]],
       s')
    /\ match (dac.check_collision E
                (Server.engine E (Server.update_joints E jp jv s))).1 with
       | Returns (b, pairs, dist) =>
           result = VDict [ ("collision_detected", VBool b);
                            ("colliding_pairs", VList (map Server.pair_value pairs));
                            ("min_distance", VFloat dist) ]
       | Raises msg =>
           result = VDict [ ("collision_detected", VBool false);
                            ("colliding_pairs", VList []);
                            ("min_distance", VFloat 0);
                            ("error", VStr msg) ]
       end.
Proof.
  intros Hty Hjp Hjv.
  eexists _, _. split; [by apply handle_joint_data|].
  rewrite check_collision_result.
  by destruct (dac.check_collision E _).1 as [[[b pairs] dist]|msg].
Qed.

(** The theorem at a request with two vectors of twelve numbers. *)
Lemma joint_data_reply_witness :
  exists s',
    Server.handle_message Sample.quiet (Server.Recv_data (Ok Sample.joint_data12))
      true (Sample.server Sample.quiet tt)
    = (Server.Next,
       [VDict [ ("type", VStr "collision_result");
                ("result", VDict [ ("collision_detected", VBool false);
                                   ("colliding_pairs", VList []);
                                   ("min_distance", VFloat 0x1p-2) ]) ]],
       s').
Proof.
  destruct (joint_data_reply Sample.quiet (Sample.server Sample.quiet tt)
              [ ("type", VStr "joint_data");
                ("joint_positions", Sample.ints [1; 2; 3; 4; 5; 6; 7; 8; 9; 10; 11; 12]%Z);
                ("joint_velocities",
                 Sample.ints [21; 22; 23; 24; 25; 26; 27; 28; 29; 30; 31; 32]%Z) ]
              (Sample.ints [1; 2; 3; 4; 5; 6; 7; 8; 9; 10; 11; 12]%Z)
              (Sample.ints [21; 22; 23; 24; 25; 26; 27; 28; 29; 30; 31; 32]%Z)
              true)
    as (result & s' & Hrun & Hres).
  - reflexivity.
  - reflexivity.
  - reflexivity.
  - exists s'. cbn in Hres. rewrite Hres in Hrun. exact Hrun.
Defined.

(** C1 as stated fails: with an engine that reports a penetration as a
    negative distance, the reply to a well-formed request carries a
    negative [min_distance]. *)
Lemma negative_min_distance_reply :
  (Server.handle_message Sample.signed (Server.Recv_data (Ok Sample.joint_data12))
     true (Sample.server Sample.signed tt)).1
  = (Server.Next,
     [VDict [ ("type", VStr "collision_result");
              ("result", VDict [ ("collision_detected", VBool true);
                                 ("colliding_pairs", VList [VList [VInt 6; VInt 16]]);
                                 ("min_distance", VFloat (-0x1p-7)) ]) ]])
  /\ PrimFloat.leb 0 (-0x1p-7) = false.
Proof. split; vm_compute; reflexivity. Qed.

(** C2, as amended.  On a running server, text that is not JSON is
    answered with the "Invalid JSON format" error, a request object whose
    type is neither [joint_data] nor [ping] is answered with nothing, and
    in both cases the worker goes on to serve the requests that follow
    exactly as it would have served them otherwise. *)
Theorem bad_request_keeps_connection (E : dac.Engine) (s : Server.t E)
    (rest : list (Server.incoming * bool)) (out : list value) :
  Server.running E s = true ->
  Server.handle_client E ((Server.Recv_data (Raise JSONDecodeError), true) :: rest) out s
  = Server.handle_client E rest (out ++ [VDict [("error", VStr "Invalid JSON format")]]) s
  /\ (forall d send_ok,
        eq_str (Spec.msg_type d) "joint_data" = false ->
        eq_str (Spec.msg_type d) "ping" = false ->
        Server.handle_message E (Server.Recv_data (Ok (VDict d))) send_ok s
        = (Server.Next, [], s)
        /\ Server.handle_client E ((Server.Recv_data (Ok (VDict d)), send_ok) :: rest) out s
           = Server.handle_client E rest out s).
Proof.
  intros Hrun. split.
  - cbn [Server.handle_client]. rewrite Hrun. reflexivity.
  - intros d send_ok H1 H2. split; [by apply handle_other_type|].
    cbn [Server.handle_client]. rewrite Hrun, handle_other_type by done.
    by rewrite app_nil_r.
Qed.

(** The theorem at a malformed body followed by a [ping]. *)
Lemma bad_request_keeps_connection_witness :
  Server.handle_client Sample.quiet
    [ (Server.Recv_data (Raise JSONDecodeError), true);
      (Server.Recv_data (Ok Sample.ping), true) ] []
    (Sample.server Sample.quiet tt)
  = ({| Server.sent := [ VDict [("error", VStr "Invalid JSON format")];
                         VDict [("type", VStr "pong")] ];
        Server.closed := false |},
     Sample.server Sample.quiet tt).
Proof.
  rewrite (proj1 (bad_request_keeps_connection Sample.quiet
                    (Sample.server Sample.quiet tt)
                    [(Server.Recv_data (Ok Sample.ping), true)] [] eq_refl)).
  vm_compute. reflexivity.
Defined.

(** C2 as stated fails: a request of an unknown type gets no reply at
    all. *)
Lemma unknown_type_gets_no_reply :
  Server.handle_message Sample.quiet (Server.Recv_data (Ok Sample.unknown)) true
    (Sample.server Sample.quiet tt)
  = (Server.Next, [], Sample.server Sample.quiet tt).
Proof. vm_compute. reflexivity. Qed.

(** C10.  When the engine's [check_collision] raises, the server's
    check returns [collision_detected = False], no pairs, distance 0.0 and
    the error text; the request is answered with that result and the
    connection stays open; the client takes it as "no collision". *)
Theorem engine_failure_answered_as_no_collision
    (E : dac.Engine) (s : Server.t E) (msg : string) (e' : dac.state E)
    (K : CPS.Sdk) (c : Client.t K) :
  dac.check_collision E (Server.engine E s) = (Raises msg, e') ->
  Server.check_collision E s
  = (VDict [ ("collision_detected", VBool false);
             ("colliding_pairs", VList []);
             ("min_distance", VFloat 0);
             ("error", VStr msg) ],
     Server.set_engine E e' dac.Check_collision s)
  /\ (forall s0 d jp jv,
        dict_lookup "type" d = Some (VStr "joint_data") ->
        dict_lookup "joint_positions" d = Some jp ->
        dict_lookup "joint_velocities" d = Some jv ->
        Server.update_joints E jp jv s0 = s ->
        Server.handle_message E (Server.Recv_data (Ok (VDict d))) true s0
        = (Server.Next,
           [VDict [ ("type", VStr "collision_result");
                    ("result",
                     VDict [ ("collision_detected", VBool false);
                             ("colliding_pairs", VList []);
                             ("min_distance", VFloat 0);
                             ("error", VStr msg) ]) ]],
           Server.set_engine E e' dac.Check_collision s))
  /\ Client.handle_collision_result K
       (VDict [ ("collision_detected", VBool false);
                ("colliding_pairs", VList []);
                ("min_distance", VFloat 0);
                ("error", VStr msg) ]) c
     = (Ok tt, Client.set_collision_detected K false c).
Proof.
  intros Hraise.
  assert (Server.check_collision E s
          = (VDict [ ("collision_detected", VBool false);
                     ("colliding_pairs", VList []);
                     ("min_distance", VFloat 0);
                     ("error", VStr msg) ],
             Server.set_engine E e' dac.Check_collision s)) as Hcheck.
  { unfold Server.check_collision. by rewrite Hraise. }
  split; [exact Hcheck|]. split; [|reflexivity].
  intros s0 d jp jv Hty Hjp Hjv Hs.
  rewrite (handle_joint_data E d jp jv true s0 Hty Hjp Hjv), Hs, Hcheck.
  reflexivity.
Qed.

(** The theorem at an engine whose check raises: the reply, and no stop
    on the client. *)
Lemma engine_failure_answered_as_no_collision_witness :
  Server.handle_message Sample.faulty (Server.Recv_data (Ok Sample.joint_data12)) true
    (Sample.server Sample.faulty tt)
  = (Server.Next,
     [VDict [ ("type", VStr "collision_result");
              ("result",
               VDict [ ("collision_detected", VBool false);
                       ("colliding_pairs", VList []);
                       ("min_distance", VFloat 0);
                       ("error", VStr "engine not initialised") ]) ]],
     Server.set_engine Sample.faulty tt dac.Check_collision
       (Server.update_joints Sample.faulty
          (Sample.ints [1; 2; 3; 4; 5; 6; 7; 8; 9; 10; 11; 12]%Z)
          (Sample.ints [21; 22; 23; 24; 25; 26; 27; 28; 29; 30; 31; 32]%Z)
          (Sample.server Sample.faulty tt)))
  /\ Client.calls (Sample.sdk Sample.left_stop_raises)
       (Client.handle_collision_result (Sample.sdk Sample.left_stop_raises)
          (VDict [ ("collision_detected", VBool false);
                   ("colliding_pairs", VList []);
                   ("min_distance", VFloat 0);
                   ("error", VStr "engine not initialised") ])
          (Sample.client (Sample.sdk Sample.left_stop_raises) tt)).2
     = [].
Proof.
  destruct (engine_failure_answered_as_no_collision Sample.faulty
              (Server.update_joints Sample.faulty
                 (Sample.ints [1; 2; 3; 4; 5; 6; 7; 8; 9; 10; 11; 12]%Z)
                 (Sample.ints [21; 22; 23; 24; 25; 26; 27; 28; 29; 30; 31; 32]%Z)
                 (Sample.server Sample.faulty tt))
              "engine not initialised" tt
              (Sample.sdk Sample.left_stop_raises)
              (Sample.client (Sample.sdk Sample.left_stop_raises) tt))
    as (_ & Hmsg & Hclient).
  - reflexivity.
  - split.
    + apply (Hmsg (Sample.server Sample.faulty tt)
               [ ("type", VStr "joint_data");
                 ("joint_positions", Sample.ints [1; 2; 3; 4; 5; 6; 7; 8; 9; 10; 11; 12]%Z);
                 ("joint_velocities",
                  Sample.ints [21; 22; 23; 24; 25; 26; 27; 28; 29; 30; 31; 32]%Z) ]
               (Sample.ints [1; 2; 3; 4; 5; 6; 7; 8; 9; 10; 11; 12]%Z)
               (Sample.ints [21; 22; 23; 24; 25; 26; 27; 28; 29; 30; 31; 32]%Z));
        reflexivity.
    + rewrite Hclient. reflexivity.
Defined.

Section Startup.
Variable E : dac.Engine.
Implicit Types s : Server.t E.

Lemma try_bool_true {A} (body : M (Server.t E) A) s s' :
  Server.try_bool E body s = (true, s') -> exists a, body s = (Ok a, s').
Proof.
  unfold Server.try_bool. destruct (body s) as [[a|e] s1]; intros [= <-]; eauto.
Qed.

Lemma invoke_ok {A} c f s (a : A) s' :
  Server.invoke E c f s = (Ok a, s') ->
  Server.calls E s' = Server.calls E s ++ [c].
Proof.
  unfold Server.invoke. destruct (f (Server.engine E s)) as [r e'].
  by intros [= _ <-].
Qed.

(** The assignments to [self.joint_pos] make no call. *)
Lemma setattr_loop_calls (xs : list (nat * value)) : forall s s',
  for_each xs
    (fun iv => zoom (Server.joint_pos E) (Server.set_joint_pos E)
                 (Server.setattr_a E iv.1 iv.2)) s
  = (Ok tt, s') ->
  Server.calls E s' = Server.calls E s
  /\ Server.init_params E s' = Server.init_params E s.
Proof.
  induction xs as [|x xs IH]; intros s s' H.
  - by injection H as <-.
  - cbn [for_each] in H.
    apply bind_ok in H as (a & s1 & Hz & H).
    apply zoom_ok in Hz as (t' & _ & ->).
    apply IH in H as [-> ->]. done.
Qed.







Lemma load_config_calls fs s :
  Server.calls E (Server.load_config E fs s).2 = Server.calls E s.
Proof.
  unfold Server.load_config.
  by destruct (Reader.read_dual_arm_self_collision_model_from_json _ _ _).
Qed.

Lemma convert_config_calls s :
  Server.calls E (Server.convert_config E s).2 = Server.calls E s.
Proof.
  unfold Server.convert_config. by destruct (Server.convert _).
Qed.


End Startup.



Section Stops.
Variable K : CPS.Sdk.
Implicit Types c : Client.t K.

(** A stop makes exactly one [HRIF_GrpStop] call, for the arm's box and
    robot, and touches nothing else, whatever the call does. *)
Lemma group_stop_effect sd c :
  exists k',
    (Client.group_stop K sd c).2
    = Client.set_sdk K k'
        (CPS.GrpStop (Arm.boxid (Client.arm K sd c))
           (Arm.robot_id (Client.arm K sd c))) c.
Proof.
  unfold Client.group_stop, Client.try_or, bind, Client.invoke.
  destruct (CPS.HRIF_GrpStop K _ _ (Client.sdk K c)) as [[n|msg] k'];
    cbn; [destruct (negb (n =? 0)%Z)|]; eauto.
Qed.

Lemma emergency_stop_calls c :
  Client.calls K (Client.emergency_stop K c)
  = Client.calls K c
    ++ (if Arm.connected (Client.left_arm K c)
        then [CPS.GrpStop (Arm.boxid (Client.left_arm K c))
                (Arm.robot_id (Client.left_arm K c))]
        else [])
    ++ (if Arm.connected (Client.right_arm K c)
        then [CPS.GrpStop (Arm.boxid (Client.right_arm K c))
                (Arm.robot_id (Client.right_arm K c))]
        else []).
Proof.
  unfold Client.emergency_stop.
  destruct (Arm.connected (Client.left_arm K c)) eqn:Hl.
  - destruct (group_stop_effect Client.Left c) as [k1 ->].
    cbn [Client.right_arm Client.set_sdk].
    destruct (Arm.connected (Client.right_arm K c)).
    + destruct (group_stop_effect Client.Right
                  (Client.set_sdk K k1
                     (CPS.GrpStop (Arm.boxid (Client.arm K Client.Left c))
                        (Arm.robot_id (Client.arm K Client.Left c))) c)) as [k2 ->].
      cbn. by rewrite <- app_assoc.
    + cbn. by rewrite ?app_nil_r.
  - destruct (Arm.connected (Client.right_arm K c)).
    + destruct (group_stop_effect Client.Right c) as [k2 ->]. done.
    + cbn. by rewrite ?app_nil_r.
Qed.

Lemma emergency_stop_arms c :
  Client.left_arm K (Client.emergency_stop K c) = Client.left_arm K c
  /\ Client.right_arm K (Client.emergency_stop K c) = Client.right_arm K c
  /\ Client.collision_detected K (Client.emergency_stop K c)
     = Client.collision_detected K c.
Proof.
  unfold Client.emergency_stop.
  destruct (Arm.connected (Client.left_arm K c)).
  - destruct (group_stop_effect Client.Left c) as [k1 ->].
    cbn [Client.right_arm Client.set_sdk].
    destruct (Arm.connected (Client.right_arm K c)); [|done].
    by destruct (group_stop_effect Client.Right
              (Client.set_sdk K k1
                 (CPS.GrpStop (Arm.boxid (Client.arm K Client.Left c))
                    (Arm.robot_id (Client.arm K Client.Left c))) c)) as [k2 ->].
  - destruct (Arm.connected (Client.right_arm K c)); [|done].
    by destruct (group_stop_effect Client.Right c) as [k2 ->].
Qed.

End Stops.



Section Telemetry.
Variable K : CPS.Sdk.
Implicit Types c : Client.t K.

Lemma floats_length items xs :
  Client.floats K items = Ok xs -> length items = length xs.
Proof.
  revert xs. induction items as [|x items IH]; intros xs H.
  - by injection H as <-.
  - cbn in H. destruct (CPS.to_float K x); [|discriminate].
    destruct (Client.floats K items) as [fs|e]; [|discriminate].
    injection H as <-. cbn. by rewrite (IH fs).
Qed.

(** A read on a connected arm makes one SDK call and leaves the rest of
    the client alone. *)
Lemma read_joint_positions_effect sd c :
  Arm.connected (Client.arm K sd c) = true ->
  exists k',
    (Client.read_joint_positions K sd c).2
    = Client.set_sdk K k'
        (CPS.ReadActJointPos (Arm.boxid (Client.arm K sd c))
           (Arm.robot_id (Client.arm K sd c))) c.
Proof.
  intros Hc. unfold Client.read_joint_positions. rewrite Hc. cbn [negb].
  unfold Client.try_or, bind, Client.invoke.
  destruct (CPS.HRIF_ReadActJointPos K _ _ (Client.sdk K c)) as [[[n items]|msg] k'];
    cbn; [|eauto].
  destruct (negb (n =? 0)%Z); cbn; [eauto|].
  destruct (negb (length items =? 6)); cbn; [eauto|].
  destruct (Client.floats K items) as [fs|e]; cbn; [|eauto].
  destruct (Client.add_pi_first (map math_radians fs)); cbn; eauto.
Qed.

Lemma read_joint_velocities_effect sd c :
  Arm.connected (Client.arm K sd c) = true ->
  exists k',
    (Client.read_joint_velocities K sd c).2
    = Client.set_sdk K k'
        (CPS.ReadActJointVel (Arm.boxid (Client.arm K sd c))
           (Arm.robot_id (Client.arm K sd c))) c.
Proof.
  intros Hc. unfold Client.read_joint_velocities. rewrite Hc. cbn [negb].
  unfold Client.try_or, bind, Client.invoke.
  destruct (CPS.HRIF_ReadActJointVel K _ _ (Client.sdk K c)) as [[[n items]|msg] k'];
    cbn; [|eauto].
  destruct (negb (n =? 0)%Z); cbn; [eauto|].
  destruct (negb (length items =? 6)); cbn; [eauto|].
  destruct (Client.floats K items) as [fs|e]; cbn; eauto.
Qed.

Lemma emergency_stop_sent c :
  Client.sent K (Client.emergency_stop K c) = Client.sent K c.
Proof.
  unfold Client.emergency_stop.
  destruct (Arm.connected (Client.left_arm K c)).
  - destruct (group_stop_effect K Client.Left c) as [k1 ->].
    cbn [Client.right_arm Client.set_sdk].
    destruct (Arm.connected (Client.right_arm K c)); [|done].
    by destruct (group_stop_effect K Client.Right
              (Client.set_sdk K k1
                 (CPS.GrpStop (Arm.boxid (Client.arm K Client.Left c))
                    (Arm.robot_id (Client.arm K Client.Left c))) c)) as [k2 ->].
  - destruct (Arm.connected (Client.right_arm K c)); [|done].
    by destruct (group_stop_effect K Client.Right c) as [k2 ->].
Qed.

Lemma handle_collision_result_sent result c :
  Client.sent K (Client.handle_collision_result K result c).2 = Client.sent K c.
Proof.
  unfold Client.handle_collision_result, bind, lift, assign.
  destruct (get result "collision_detected" (VBool false)) as [v|e]; [|done].
  destruct (truthy v); [|done]. cbn. by rewrite emergency_stop_sent.
Qed.

(** Once the four reads have succeeded and the socket is there, the
    document handed to [sendall] holds what the reads returned, left
    arm first, whatever the connection does next. *)
Lemma send_joint_data_sent net c lp rp lv rv c1 c2 c3 c4 :
  Arm.connected (Client.left_arm K c) = true ->
  Arm.connected (Client.right_arm K c) = true ->
  Client.client_socket K c = true ->
  Client.read_joint_positions K Client.Left c = (Some lp, c1) ->
  Client.read_joint_positions K Client.Right c1 = (Some rp, c2) ->
  Client.read_joint_velocities K Client.Left c2 = (Some lv, c3) ->
  Client.read_joint_velocities K Client.Right c3 = (Some rv, c4) ->
  Client.sent K (Client.send_joint_data K net c).2
  = Client.sent K c ++ [Client.joint_data (lp ++ rp) (lv ++ rv)].
Proof.
  intros Hl Hr Hsock H1 H2 H3 H4.
  destruct (read_joint_positions_effect Client.Left c Hl) as [k1 E1].
  rewrite H1 in E1. cbn [snd] in E1.
  assert (Arm.connected (Client.arm K Client.Right c1) = true) as Hr1
    by (by rewrite E1).
  destruct (read_joint_positions_effect Client.Right c1 Hr1) as [k2 E2].
  rewrite H2 in E2. cbn [snd] in E2.
  assert (Arm.connected (Client.arm K Client.Left c2) = true) as Hl2
    by (by rewrite E2, E1).
  destruct (read_joint_velocities_effect Client.Left c2 Hl2) as [k3 E3].
  rewrite H3 in E3. cbn [snd] in E3.
  assert (Arm.connected (Client.arm K Client.Right c3) = true) as Hr3
    by (by rewrite E3, E2, E1).
  destruct (read_joint_velocities_effect Client.Right c3 Hr3) as [k4 E4].
  rewrite H4 in E4. cbn [snd] in E4.
  assert (Client.client_socket K c4 = true) as Hsock4
    by (by rewrite E4, E3, E2, E1).
  assert (Client.sent K c4 = Client.sent K c) as Hsent4
    by (by rewrite E4, E3, E2, E1).
  clear E1 E2 E3 E4.
  unfold Client.send_joint_data, Client.try_or, Client.read_if_connected.
  unfold bind at 1. cbn [Client.arm] in *. rewrite Hl, H1.
  unfold bind at 1. rewrite Hr1, H2.
  unfold bind at 1. rewrite Hl2, H3.
  unfold bind at 1. rewrite Hr3, H4.
  unfold bind at 1. unfold gets at 1. rewrite Hsock4. cbn [negb].
  unfold bind at 1. unfold assign at 1.
  destruct (Client.send_ok net); cbn [negb]; [|cbn; by rewrite Hsent4].
  destruct (Client.response net) as [[[response_data|e]|]|];
    try (cbn; by rewrite Hsent4).
  unfold bind at 1, lift at 1.
  destruct (get1 response_data "type") as [ty|e]; [|cbn; by rewrite Hsent4].
  destruct (eq_str ty "collision_result"); [|cbn; by rewrite Hsent4].
  unfold bind at 1, lift at 1.
  destruct (getitem_str response_data "result") as [result|e];
    [|cbn; by rewrite Hsent4].
  unfold bind at 1.
  match goal with
  | |- context [Client.handle_collision_result K result ?c0] =>
      pose proof (handle_collision_result_sent result c0) as Hs;
      destruct (Client.handle_collision_result K result c0) as [[[]|e] c5]
  end; cbn [snd] in Hs; cbn; rewrite Hs; cbn; by rewrite Hsent4.
Qed.

End Telemetry.

(** C7.  When a read on a connected arm returns code 0 and six items
    that convert to floats, the positions are these floats in radians,
    each multiplied by pi / 180 for the double 0x1.921fb54442d18p+1 of
    pi, with that same double added to the first only, and the
    velocities are these floats as they are, in degrees per second.  The
    document sent carries the four reads unchanged, left arm first. *)
Theorem telemetry_units (K : CPS.Sdk) (c : Client.t K) (sd : Client.side)
    (items : list (CPS.item K)) (x0 x1 x2 x3 x4 x5 : float) (k' : CPS.state K) :
  Arm.connected (Client.arm K sd c) = true ->
  Client.floats K items = Ok [x0; x1; x2; x3; x4; x5] ->
  (CPS.HRIF_ReadActJointPos K (Arm.boxid (Client.arm K sd c))
     (Arm.robot_id (Client.arm K sd c)) (Client.sdk K c)
   = (Returns (0%Z, items), k') ->
   (Client.read_joint_positions K sd c).1
   = Some [ PrimFloat.add
              (PrimFloat.mul x0 (PrimFloat.div 0x1.921fb54442d18p+1 180))
              0x1.921fb54442d18p+1;
            PrimFloat.mul x1 (PrimFloat.div 0x1.921fb54442d18p+1 180);
            PrimFloat.mul x2 (PrimFloat.div 0x1.921fb54442d18p+1 180);
            PrimFloat.mul x3 (PrimFloat.div 0x1.921fb54442d18p+1 180);
            PrimFloat.mul x4 (PrimFloat.div 0x1.921fb54442d18p+1 180);
            PrimFloat.mul x5 (PrimFloat.div 0x1.921fb54442d18p+1 180) ]%float)
  /\ (CPS.HRIF_ReadActJointVel K (Arm.boxid (Client.arm K sd c))
        (Arm.robot_id (Client.arm K sd c)) (Client.sdk K c)
      = (Returns (0%Z, items), k') ->
      (Client.read_joint_velocities K sd c).1 = Some [x0; x1; x2; x3; x4; x5])
  /\ (forall net lp rp lv rv c1 c2 c3 c4,
        Arm.connected (Client.left_arm K c) = true ->
        Arm.connected (Client.right_arm K c) = true ->
        Client.client_socket K c = true ->
        Client.read_joint_positions K Client.Left c = (Some lp, c1) ->
        Client.read_joint_positions K Client.Right c1 = (Some rp, c2) ->
        Client.read_joint_velocities K Client.Left c2 = (Some lv, c3) ->
        Client.read_joint_velocities K Client.Right c3 = (Some rv, c4) ->
        Client.sent K (Client.send_joint_data K net c).2
        = Client.sent K c
          ++ [VDict [ ("type", VStr "joint_data");
                      ("joint_positions", VList (map VFloat (lp ++ rp)));
                      ("joint_velocities", VList (map VFloat (lv ++ rv)));
                      ("units", VDict [ ("positions", VStr "radians");
                                        ("velocities", VStr "degrees_per_second") ]) ]]).
Proof.
  intros Hc Hfl. pose proof (floats_length K _ _ Hfl) as Hlen. cbn in Hlen.
  split; [|split].
  - intros Hread. unfold Client.read_joint_positions. rewrite Hc. cbn [negb].
    unfold Client.try_or, bind, Client.invoke. rewrite Hread. cbn.
    rewrite Hlen, Hfl. reflexivity.
  - intros Hread. unfold Client.read_joint_velocities. rewrite Hc. cbn [negb].
    unfold Client.try_or, bind, Client.invoke. rewrite Hread. cbn.
    rewrite Hlen, Hfl. reflexivity.
  - intros. by eapply send_joint_data_sent.
Qed.

(** The theorem at the left arm of the sample SDK, whose position read
    gives 180, 90, 0, -45, 0, 90 degrees and whose velocity read gives
    0, 90, 0, -45, 0, 0 degrees per second: the positions come out as
    2 pi, pi / 2, 0, - pi / 4, 0, pi / 2, the velocities as they were
    read. *)
Lemma telemetry_units_witness :
  (Client.read_joint_positions (Sample.sdk Sample.left_stop_raises) Client.Left
     (Sample.client (Sample.sdk Sample.left_stop_raises) tt)).1
  = Some [ 0x1.921fb54442d18p+2; 0x1.921fb54442d18p+0; 0;
           -0x1.921fb54442d18p-1; 0; 0x1.921fb54442d18p+0 ]%float
  /\ (Client.read_joint_velocities (Sample.sdk Sample.left_stop_raises) Client.Left
        (Sample.client (Sample.sdk Sample.left_stop_raises) tt)).1
     = Some [ 0; 90; 0; -45; 0; 0 ]%float.
Proof.
  split.
  - apply (proj1 (telemetry_units (Sample.sdk Sample.left_stop_raises)
                    (Sample.client (Sample.sdk Sample.left_stop_raises) tt)
                    Client.Left ["180"; "90"; "0"; "-45"; "0"; "90"]
                    180 90 0 (-45) 0 90 tt eq_refl eq_refl)).
    reflexivity.
  - apply (proj1 (proj2 (telemetry_units (Sample.sdk Sample.left_stop_raises)
                           (Sample.client (Sample.sdk Sample.left_stop_raises) tt)
                           Client.Left ["0"; "90"; "0"; "-45"; "0"; "0"]
                           0 90 0 (-45) 0 0 tt eq_refl eq_refl))).
    reflexivity.
Defined.

(* ===================================================================== *)
(** ** The loader, as a function of the document *)
(* ===================================================================== *)

Section LoaderRefinement.

Lemma is_dict_inv v : Spec.is_dict v = true -> exists d, v = VDict d.
Proof. destruct v; try discriminate. eauto. Qed.

Lemma fill_lozenge_inv v l u l' :
  Reader.fill_lozenge v l = (Ok u, l') ->
  Spec.is_dict v = true /\ l' = Spec.lozenge_of v.
Proof. destruct v; try discriminate. by intros [= _ <-]. Qed.

Lemma fill_capsule_inv v c u c' :
  Reader.fill_capsule v c = (Ok u, c') ->
  Spec.is_dict v = true /\ c' = Spec.capsule_of v.
Proof. destruct v; try discriminate. by intros [= _ <-]. Qed.

Lemma fill_ball_inv v b u b' :
  Reader.fill_ball v b = (Ok u, b') ->
  Spec.is_dict v = true /\ b' = Spec.ball_of v.
Proof. destruct v; try discriminate. by intros [= _ <-]. Qed.

Lemma get_inv doc k dflt v :
  get doc k dflt = Ok v ->
  Spec.is_dict doc = true /\ v = Spec.field doc k dflt.
Proof. destruct doc; try discriminate. by intros [= <-]. Qed.

Lemma get_section doc k v :
  get doc k (VDict []) = Ok v ->
  Spec.is_dict doc = true /\ v = Spec.section doc k.
Proof. destruct doc; try discriminate. by intros [= <-]. Qed.

Ltac peel H :=
  repeat (let a := fresh "a" in
          let s := fresh "s" in
          let Hm := fresh "Hm" in
          apply bind_ok in H as (a & s & Hm & H); cbv beta in H);
  repeat match goal with
    | Hz : zoom _ _ _ _ = (Ok _, _) |- _ =>
        let t := fresh "t" in
        let Hf := fresh "Hf" in
        apply zoom_ok in Hz as (t & Hf & ->)
    | Hl : lift _ _ = (Ok _, _) |- _ => apply lift_ok in Hl as [? ->]
    end.

(** The block guarded by the test on ["RobType"]. *)
Lemma dh_block_inv doc (dual : bool) c u c1 :
  (if dual
   then bind (assign (Config.set_robType RobotType.DualArm))
          (fun _ => bind (lift (get doc "DH" (VDict [])))
             (fun dh_data => bind (lift (get dh_data "d1" (VFloat 0)))
                (fun d1 => bind (lift (get dh_data "d4" (VFloat 0)))
                   (fun d4 => bind (lift (get dh_data "d6" (VFloat 0)))
                      (fun d6 => bind (lift (get dh_data "a2" (VFloat 0)))
                         (fun a2 => assign (Config.set_dh [d1; d4; d6; a2])))))))
   else ret tt) c = (Ok u, c1) ->
  (dual = true -> Spec.is_dict (Spec.section doc "DH") = true)
  /\ dh c1 = dh (Spec.described doc dual c)
  /\ robType c1 = robType (Spec.described doc dual c).
Proof.
  destruct dual.
  - intros H. peel H.
    repeat match goal with
      | Hg : get doc "DH" _ = Ok _ |- _ => apply get_section in Hg as [? ->]
      | Hg : get _ _ _ = Ok _ |- _ => apply get_inv in Hg as [? ->]
      end.
    injection Hm as <- <-. injection H as <- <-. done.
  - intros [= <- <-]. done.
Qed.

Lemma fill_inv doc c c' :
  Reader.fill doc c = (Ok tt, c') ->
  exists dual, Spec.loadable doc dual /\ c' = Spec.described doc dual c.
Proof.
  intros H. unfold Reader.fill in H. peel H.
  repeat match goal with
    | Hf : Reader.fill_lozenge _ _ = (Ok _, _) |- _ =>
        apply fill_lozenge_inv in Hf as [? ->]
    | Hf : Reader.fill_capsule _ _ = (Ok _, _) |- _ =>
        apply fill_capsule_inv in Hf as [? ->]
    | Hf : Reader.fill_ball _ _ = (Ok _, _) |- _ =>
        apply fill_ball_inv in Hf as [? ->]
    end.
  repeat match goal with
    | Hg : get doc "RobType" _ = Ok _ |- _ => apply get_inv in Hg as [Hdoc ->]
    | Hg : get doc _ (VDict []) = Ok _ |- _ => apply get_section in Hg as [_ ->]
    end.
  match goal with
  | Hb : _ = (Ok _, _) |- _ => apply dh_block_inv in Hb as (Hdh & Hd & Hr)
  end.
  match goal with
  | Hc : contains _ _ = Ok ?b |- _ => exists b
  end.
  split.
  - repeat split; try done. repeat (constructor; [done|]). constructor.
  - unfold Spec.described in *. cbn in Hd, Hr |- *.
    rewrite <- Hd, <- Hr. by destruct s1.
Qed.

Lemma fill_complete doc dual c :
  Spec.loadable doc dual ->
  Reader.fill doc c = (Ok tt, Spec.described doc dual c).
Proof.
  intros (Hdoc & Hc & Hdh & Hsec).
  destruct (is_dict_inv _ Hdoc) as [d ->].
  repeat match goal with
    | H : Forall _ (_ :: _) |- _ => apply Forall_cons_1 in H as [? H]
    end.
  clear Hsec.
  unfold Spec.described. cbn [Spec.section Spec.field] in *.
  repeat match goal with
    | H : Spec.is_dict (default _ (dict_lookup _ d)) = true |- _ =>
        apply is_dict_inv in H as [? H]
    end.
  unfold Reader.fill.
  cbv beta iota delta [bind lift get].
  rewrite Hc.
  repeat match goal with
    | H : default (VDict []) (dict_lookup _ d) = VDict _ |- _ => rewrite !H; clear H
    end.
  destruct dual.
  - destruct (is_dict_inv _ (Hdh eq_refl)) as [dd Hdd]. rewrite !Hdd.
    reflexivity.
  - reflexivity.
Qed.

Lemma read_described fs file_path c c' :
  Reader.read_dual_arm_self_collision_model_from_json fs file_path c = (Ok tt, c') <->
  exists doc dual,
    fs file_path = Ok doc /\ Spec.loadable doc dual /\ c' = Spec.described doc dual c.
Proof.
  split.
  - intros H. apply read_ok in H as (doc & Hfs & H).
    apply fill_inv in H as (dual & Hl & ->). eauto.
  - intros (doc & dual & Hfs & Hl & ->).
    unfold Reader.read_dual_arm_self_collision_model_from_json, bind, lift.
    rewrite Hfs. by rewrite (fill_complete doc dual c Hl).
Qed.

Lemma loadable_dual_unique doc dual dual' :
  Spec.loadable doc dual -> Spec.loadable doc dual' -> dual = dual'.
Proof. intros (_ & H & _) (_ & H' & _). congruence. Qed.

End LoaderRefinement.

(** X1.  A load succeeds exactly when the file holds a loadable
    document, and the configuration it leaves is the one the document
    describes: every section taken from the document with the defaults
    for what is missing, [dh] and [robType] taken from the document when
    its type names a dual arm and from the caller's configuration
    otherwise. *)
Theorem load_succeeds_iff_loadable (fs : filesystem) (file_path : string)
    (config config' : DualArmColliderConfiguration) :
  Reader.read_dual_arm_self_collision_model_from_json fs file_path config
  = (Ok tt, config') <->
  exists doc dual,
    fs file_path = Ok doc /\ Spec.loadable doc dual
    /\ config' = Spec.described doc dual config.
Proof.
  split.
  - intros H. apply read_ok in H as (doc & Hfs & H).
    apply fill_inv in H as (dual & Hl & ->). eauto.
  - intros (doc & dual & Hfs & Hl & ->).
    unfold Reader.read_dual_arm_self_collision_model_from_json, bind, lift.
    rewrite Hfs. by rewrite (fill_complete doc dual config Hl).
Qed.

(** X2.  After a successful load, a section whose key the document does
    not have is as a freshly constructed model: empty lists, radius 0.0,
    empty type. *)
Theorem absent_sections_default (fs : filesystem) (file_path : string)
    (config config' : DualArmColliderConfiguration) (d : list (string * value)) :
  Reader.read_dual_arm_self_collision_model_from_json fs file_path config
  = (Ok tt, config') ->
  fs file_path = Ok (VDict d) ->
  (dict_lookup "platform" d = None -> platform config' = LozengeModelCo.new)
  /\ (dict_lookup "truck" d = None -> truck config' = LozengeModelCo.new)
  /\ (dict_lookup "head" d = None -> head config' = LozengeModelCo.new)
  /\ (dict_lookup "base" d = None ->
      L_base config' = CapsuleModel.new /\ R_base config' = CapsuleModel.new)
  /\ (dict_lookup "l_lowerArm" d = None -> L_lowerArm config' = CapsuleModel.new)
  /\ (dict_lookup "l_elbow" d = None -> L_elbow config' = CapsuleModel.new)
  /\ (dict_lookup "l_upperArm" d = None -> L_upperArm config' = CapsuleModel.new)
  /\ (dict_lookup "l_wrist" d = None -> L_wrist config' = BallModel.new)
  /\ (dict_lookup "r_lowerArm" d = None -> R_lowerArm config' = CapsuleModel.new)
  /\ (dict_lookup "r_elbow" d = None -> R_elbow config' = CapsuleModel.new)
  /\ (dict_lookup "r_upperArm" d = None -> R_upperArm config' = CapsuleModel.new)
  /\ (dict_lookup "r_wrist" d = None -> R_wrist config' = BallModel.new).
Proof.
  intros H Hfs. apply read_described in H as (doc & dual & Hfs' & _ & ->).
  assert (doc = VDict d) as -> by congruence.
  unfold Spec.described. cbn [platform truck head L_base L_lowerArm L_elbow
    L_upperArm L_wrist R_base R_lowerArm R_elbow R_upperArm R_wrist Spec.section].
  repeat apply conj; intros ->; try split; reflexivity.
Qed.

Lemma absent_sections_default_witness :
  truck Sample.loaded = LozengeModelCo.new
  /\ R_wrist Sample.loaded = BallModel.new.
Proof.
  destruct (absent_sections_default (Sample.on_disk Sample.document)
              Server.json_config_path Config.new Sample.loaded
              [ ("RobType", VStr "hans_dual_arm");
                ("DH", VDict [("d1", VFloat 0x1p-2); ("a2", VFloat 0x1p-1)]);
                ("platform",
                 VDict [ ("ref2local_frame", Sample.ints [1; 2]%Z);
                         ("geometry", Sample.ints [1; 2; 3; 4; 5]%Z);
                         ("type", VStr "lozenge") ]);
                ("base",
                 VDict [ ("start", Sample.ints [0; 0; 0]%Z);
                         ("end", Sample.ints [0; 0; 1; 9]%Z);
                         ("radius", VFloat 0x1p-3);
                         ("type", VStr "capsule") ]) ])
    as (_ & Ht & _ & _ & _ & _ & _ & _ & _ & _ & _ & Hw).
  - vm_compute. reflexivity.
  - reflexivity.
  - split; [apply Ht | apply Hw]; reflexivity.
Defined.

(** X3.  [DH] is read only for a dual arm.  When the document's type
    contains ["dual_arm"], a successful load sets [robType] to [DualArm]
    and [dh] to the four entries d1, d4, d6, a2 in this order, 0.0 for
    each one missing; otherwise [dh] and [robType] keep the caller's
    values, whatever the document holds under ["DH"]. *)
Theorem dh_read_only_for_dual_arm (fs : filesystem) (file_path : string)
    (config config' : DualArmColliderConfiguration) (doc : value) (dual : bool) :
  Reader.read_dual_arm_self_collision_model_from_json fs file_path config
  = (Ok tt, config') ->
  fs file_path = Ok doc ->
  contains "dual_arm" (Spec.field doc "RobType" (VStr EmptyString)) = Ok dual ->
  if dual
  then robType config' = RobotType.DualArm
       /\ dh config'
          = [ Spec.field (Spec.section doc "DH") "d1" (VFloat 0);
              Spec.field (Spec.section doc "DH") "d4" (VFloat 0);
              Spec.field (Spec.section doc "DH") "d6" (VFloat 0);
              Spec.field (Spec.section doc "DH") "a2" (VFloat 0) ]
  else robType config' = robType config /\ dh config' = dh config.
Proof.
  intros H Hfs Hc. apply read_described in H as (doc' & dual' & Hfs' & Hl & ->).
  assert (doc' = doc) as -> by congruence.
  destruct Hl as (_ & Hc' & _).
  assert (dual' = dual) as -> by congruence.
  by destruct dual.
Qed.

Lemma dh_read_only_for_dual_arm_witness :
  robType Sample.loaded = 2%Z
  /\ dh Sample.loaded = [VFloat 0x1p-2; VFloat 0; VFloat 0; VFloat 0x1p-1].
Proof.
  apply (dh_read_only_for_dual_arm (Sample.on_disk Sample.document)
           Server.json_config_path Config.new Sample.loaded Sample.document true).
  - vm_compute. reflexivity.
  - reflexivity.
  - vm_compute. reflexivity.
Defined.

(** X4.  Loading is idempotent: loading the same file again into the
    configuration a successful load has left succeeds and changes
    nothing. *)
Theorem load_idempotent (fs : filesystem) (file_path : string)
    (config config' : DualArmColliderConfiguration) :
  Reader.read_dual_arm_self_collision_model_from_json fs file_path config
  = (Ok tt, config') ->
  Reader.read_dual_arm_self_collision_model_from_json fs file_path config'
  = (Ok tt, config').
Proof.
  intros H. apply read_described in H as (doc & dual & Hfs & Hl & ->).
  apply read_described. exists doc, dual.
  split; [done|]. split; [done|]. by destruct dual.
Qed.

Lemma load_idempotent_witness :
  Reader.read_dual_arm_self_collision_model_from_json
    (Sample.on_disk Sample.document) Server.json_config_path Sample.loaded
  = (Ok tt, Sample.loaded).
Proof.
  apply (load_idempotent (Sample.on_disk Sample.document)
           Server.json_config_path Config.new Sample.loaded).
  vm_compute. reflexivity.
Defined.

(** X5.  Whether a load succeeds does not depend on the configuration
    passed in, and neither do the thirteen sections it leaves: two
    successful loads of one file agree on all of them. *)
Theorem load_independent_of_start (fs : filesystem) (file_path : string)
    (c1 c1' c2 : DualArmColliderConfiguration) :
  Reader.read_dual_arm_self_collision_model_from_json fs file_path c1 = (Ok tt, c1') ->
  exists c2',
    Reader.read_dual_arm_self_collision_model_from_json fs file_path c2 = (Ok tt, c2')
    /\ Config.set_robType (robType c1') (Config.set_dh (dh c1') c2') = c1'.
Proof.
  intros H. apply read_described in H as (doc & dual & Hfs & Hl & ->).
  exists (Spec.described doc dual c2). split.
  - apply read_described. eauto.
  - reflexivity.
Qed.

Lemma load_independent_of_start_witness :
  exists c2',
    Reader.read_dual_arm_self_collision_model_from_json
      (Sample.on_disk Sample.document) Server.json_config_path
      (Config.set_dh [VInt 7] Config.new)
    = (Ok tt, c2')
    /\ platform c2' = platform Sample.loaded.
Proof.
  destruct (load_independent_of_start (Sample.on_disk Sample.document)
              Server.json_config_path Config.new Sample.loaded
              (Config.set_dh [VInt 7] Config.new))
    as (c2' & Hrun & Heq).
  - vm_compute. reflexivity.
  - exists c2'. split; [exact Hrun|]. by rewrite <- Heq.
Defined.

(* ===================================================================== *)
(** ** Arity of the marshalled parameters *)
(* ===================================================================== *)

Section MarshallingBounds.

Lemma slice_to_length n v r : slice_to n v = Ok r -> length r <= n.
Proof.
  destruct v; try discriminate; intros [= <-]; rewrite length_take; lia.
Qed.

Lemma build_lozenge_params_length l v :
  Server.build_lozenge_params l = Ok v -> length v = 13.
Proof.
  unfold Server.build_lozenge_params.
  destruct (slice_to 6 _) as [r|] eqn:Hr; [|discriminate].
  destruct (slice_to 4 _) as [g|] eqn:Hg; [|discriminate].
  destruct (slice_to 3 _) as [o|] eqn:Ho; [|discriminate].
  apply slice_to_length in Hr, Hg, Ho.
  intros [= <-]. rewrite length_take, !length_app. unfold zeros.
  rewrite !length_replicate. cbn [length]. lia.
Qed.

Lemma build_capsule_params_length c v :
  Server.build_capsule_params c = Ok v -> length v = 7.
Proof.
  unfold Server.build_capsule_params.
  destruct (slice_to 3 (CapsuleModel.start c)) as [a|] eqn:Ha; [|discriminate].
  destruct (slice_to 3 (CapsuleModel.end_ c)) as [b|] eqn:Hb; [|discriminate].
  apply slice_to_length in Ha, Hb.
  intros [= <-]. rewrite length_take, !length_app. unfold zeros.
  rewrite !length_replicate. cbn [length]. lia.
Qed.

Lemma build_wrist_params_length b v :
  Server.build_wrist_params b = Ok v -> length v = 4.
Proof.
  unfold Server.build_wrist_params.
  destruct (slice_to 3 _) as [o|] eqn:Ho; [|discriminate].
  apply slice_to_length in Ho.
  intros [= <-]. rewrite length_take, !length_app. unfold zeros.
  rewrite !length_replicate. cbn [length]. lia.
Qed.

End MarshallingBounds.

(** X6.  Whenever [convert_config] succeeds, whatever the attributes of
    the configuration are bound to (lists of any length, or strings,
    which Python slices as well), every vector it stores has its fixed
    arity: 4 for DH, 13 for the three lozenges, 7 for the four capsules,
    4 for the wrist. *)
Theorem convert_config_arity (E : dac.Engine) (s s' : Server.t E) :
  Server.convert_config E s = (true, s') ->
  exists p,
    Server.init_params E s' = Some p
    /\ length (ip_dh p) = 4
    /\ length (ip_platform p) = 13 /\ length (ip_head p) = 13
    /\ length (ip_truck p) = 13
    /\ length (ip_base p) = 7 /\ length (ip_lowerArm p) = 7
    /\ length (ip_elbow p) = 7 /\ length (ip_upperArm p) = 7
    /\ length (ip_wrist p) = 4.
Proof.
  unfold Server.convert_config, Server.convert.
  destruct (Server.config E s) as [c|]; [|discriminate].
  destruct (Server.build_lozenge_params (platform c)) as [v1|] eqn:H1; [|discriminate].
  destruct (Server.build_lozenge_params (head c)) as [v2|] eqn:H2; [|discriminate].
  destruct (Server.build_lozenge_params (truck c)) as [v3|] eqn:H3; [|discriminate].
  destruct (Server.build_capsule_params (L_base c)) as [v4|] eqn:H4; [|discriminate].
  destruct (Server.build_capsule_params (L_lowerArm c)) as [v5|] eqn:H5; [|discriminate].
  destruct (Server.build_capsule_params (L_elbow c)) as [v6|] eqn:H6; [|discriminate].
  destruct (Server.build_capsule_params (L_upperArm c)) as [v7|] eqn:H7; [|discriminate].
  destruct (Server.build_wrist_params (L_wrist c)) as [v8|] eqn:H8; [|discriminate].
  intros [= <-]. eexists. split; [reflexivity|].
  cbn [ip_dh ip_platform ip_head ip_truck ip_base ip_lowerArm ip_elbow
         ip_upperArm ip_wrist].
  apply build_lozenge_params_length in H1, H2, H3.
  apply build_capsule_params_length in H4, H5, H6, H7.
  apply build_wrist_params_length in H8.
  repeat split; try done.
  rewrite length_app. unfold zeros. rewrite length_replicate, !length_take. lia.
Qed.

Lemma convert_config_arity_witness :
  exists p,
    Server.init_params Sample.quiet
      (Server.convert_config Sample.quiet
         (Server.set_config Sample.quiet
            (Some (Config.set_platform
                     (LozengeModelCo.set_geometry (VStr "wide") LozengeModelCo.new)
                     Config.new))
            (Sample.server Sample.quiet tt))).2
    = Some p
    /\ ip_platform p
       = zeros 6 ++ [VStr "w"; VStr "i"; VStr "d"; VStr "e"] ++ zeros 3
    /\ length (ip_platform p) = 13.
Proof.
  destruct (convert_config_arity Sample.quiet
              (Server.set_config Sample.quiet
                 (Some (Config.set_platform
                          (LozengeModelCo.set_geometry (VStr "wide") LozengeModelCo.new)
                          Config.new))
                 (Sample.server Sample.quiet tt))
              (Server.convert_config Sample.quiet
                 (Server.set_config Sample.quiet
                    (Some (Config.set_platform
                             (LozengeModelCo.set_geometry (VStr "wide") LozengeModelCo.new)
                             Config.new))
                    (Sample.server Sample.quiet tt))).2)
    as (p & Hp & _ & Hlen & _).
  - vm_compute. reflexivity.
  - exists p. split; [exact Hp|]. split; [|exact Hlen].
    vm_compute in Hp. injection Hp as <-. reflexivity.
Defined.

(* ===================================================================== *)
(** ** Start-up failures and tool models *)
(* ===================================================================== *)

Section StartupFailures.
Variable E : dac.Engine.
Implicit Types s : Server.t E.

Lemma load_config_engine fs s :
  Server.engine E (Server.load_config E fs s).2 = Server.engine E s.
Proof.
  unfold Server.load_config.
  by destruct (Reader.read_dual_arm_self_collision_model_from_json _ _ _).
Qed.

Lemma convert_config_engine s :
  Server.engine E (Server.convert_config E s).2 = Server.engine E s.
Proof. unfold Server.convert_config. by destruct (Server.convert _). Qed.

Lemma try_bool_false {A} (body : M (Server.t E) A) s s' :
  Server.try_bool E body s = (false, s') -> exists e, body s = (Raise e, s').
Proof.
  unfold Server.try_bool. destruct (body s) as [[a|e] s1]; intros [= <-]; eauto.
Qed.

(** A tool section that is absent gives the default call. *)
Lemma set_tool_absent key index_key default_index d s :
  Server.tool_config E s = VDict d ->
  dict_lookup key d = None ->
  Server.set_tool E key index_key default_index s
  = Server.invoke E
      (dac.Set_toolcollisionmodel (VInt default_index) (VList (zeros 3))
         (VList (zeros 3)) (VFloat f0_02))
      (dac.set_toolcollisionmodel E (VInt default_index) (VList (zeros 3))
         (VList (zeros 3)) (VFloat f0_02)) s.
Proof.
  intros Hcfg Hk. unfold Server.set_tool, bind, gets, lift, contains.
  rewrite Hcfg, Hk. reflexivity.
Qed.


(** A tool section that is anything else makes no call. *)
Lemma set_tool_malformed key index_key default_index d v s :
  Server.tool_config E s = VDict d ->
  dict_lookup key d = Some v ->
  Spec.is_dict v = false ->
  Server.set_tool E key index_key default_index s = (Raise AttributeError, s).
Proof.
  intros Hcfg Hk Hv.
  unfold Server.set_tool, bind, gets, lift, contains, getitem_str.
  rewrite Hcfg, Hk. by destruct v.
Qed.

Lemma invoke_inv {A} c f s (r : result A) s' :
  Server.invoke E c f s = (r, s') ->
  Server.calls E s' = Server.calls E s ++ [c].
Proof.
  unfold Server.invoke. destruct (f (Server.engine E s)) as [r0 e'].
  by intros [= _ <-].
Qed.

(** The pairs are installed in order up to the first one the engine
    refuses; that call is the last one made. *)
Lemma add_pairs_raise (pairs : list (Z * Z)) : forall s e s',
  for_each pairs (Server.add_pair E) s = (Raise e, s') ->
  exists installed p rest,
    pairs = installed ++ p :: rest
    /\ Server.calls E s'
       = Server.calls E s
         ++ map (fun q => dac.Set_collision_Pair q.1 q.2) (installed ++ [p]).
Proof.
  induction pairs as [|p pairs IH]; intros s e s' H; [discriminate|].
  cbn [for_each] in H. unfold bind in H.
  destruct (Server.add_pair E p s) as [[[]|e1] s1] eqn:Hp.
  - apply invoke_inv in Hp. apply IH in H as (installed & q & rest & -> & Hc).
    exists (p :: installed), q, rest. split; [done|].
    rewrite Hc, Hp, <- app_assoc. done.
  - injection H as <- <-. apply invoke_inv in Hp.
    exists [], p, pairs. done.
Qed.

End StartupFailures.

(** X7.  When the configuration cannot be loaded or cannot be converted,
    start-up fails without a single call into the engine. *)
Theorem config_failure_stops_startup (E : dac.Engine) (fs : filesystem)
    (s : Server.t E) :
  (Server.load_config E fs s).1 = false
  \/ (Server.convert_config E (Server.load_config E fs s).2).1 = false ->
  (Server.initialize E fs s).1 = false
  /\ Server.calls E (Server.initialize E fs s).2 = Server.calls E s
  /\ Server.engine E (Server.initialize E fs s).2 = Server.engine E s.
Proof.
  intros H. unfold Server.initialize.
  pose proof (load_config_calls E fs s) as Hc1.
  pose proof (load_config_engine E fs s) as He1.
  destruct (Server.load_config E fs s) as [ok1 s1]. cbn [fst snd] in *.
  destruct ok1; cbn [negb]; [|done].
  destruct H as [H|H]; [discriminate|].
  pose proof (convert_config_calls E s1) as Hc2.
  pose proof (convert_config_engine E s1) as He2.
  destruct (Server.convert_config E s1) as [ok2 s2]. cbn [fst snd] in *.
  subst ok2. cbn [negb fst snd]. split; [done|]. split; congruence.
Qed.

Lemma config_failure_stops_startup_witness :
  Server.initialize Sample.quiet Sample.no_file (Sample.server Sample.quiet tt)
  = (false,
     Server.set_config Sample.quiet (Some Config.new) (Sample.server Sample.quiet tt))
  /\ Server.calls Sample.quiet
       (Server.initialize Sample.quiet Sample.no_file
          (Sample.server Sample.quiet tt)).2
     = [].
Proof.
  split; [vm_compute; reflexivity|].
  apply (config_failure_stops_startup Sample.quiet Sample.no_file
           (Sample.server Sample.quiet tt)).
  left. reflexivity.
Defined.

(** X8.  Without a tool description (the file is missing or unreadable,
    or it has neither ["L_tool"] nor ["R_tool"]), a successful
    [set_tool_collision_models] gives the engine the default tools: joint
    6 and joint 16, both ends at the origin, radius 0.02. *)
Theorem default_tool_models (E : dac.Engine) (s s' : Server.t E)
    (d : list (string * value)) :
  Server.tool_config E s = VDict d ->
  dict_lookup "L_tool" d = None ->
  dict_lookup "R_tool" d = None ->
  Server.set_tool_collision_models E s = (true, s') ->
  Server.calls E s'
  = Server.calls E s
    ++ [ dac.Set_toolcollisionmodel (VInt 6) (VList (zeros 3)) (VList (zeros 3))
           (VFloat f0_02);
         dac.Set_toolcollisionmodel (VInt 16) (VList (zeros 3)) (VList (zeros 3))
           (VFloat f0_02) ]
  /\ (forall fs e, fs Server.tool_config_path = Raise e ->
        Server.load_tool_config fs = VDict []).
Proof.
  intros Hcfg Hl Hr H. split.
  - apply try_bool_true in H as (a & H).
    apply bind_ok in H as ([] & s1 & H1 & H2).
    rewrite (set_tool_absent E _ _ _ d s Hcfg Hl) in H1.
    assert (Server.tool_config E s1 = VDict d) as Hcfg1.
    { unfold Server.invoke in H1.
      destruct (dac.set_toolcollisionmodel E _ _ _ _ _) as [r e1].
      injection H1 as _ <-. exact Hcfg. }
    rewrite (set_tool_absent E _ _ _ d s1 Hcfg1 Hr) in H2.
    apply invoke_ok in H1, H2. rewrite H2, H1, <- app_assoc. done.
  - intros fs e Hfs. unfold Server.load_tool_config. by rewrite Hfs.
Qed.

Lemma default_tool_models_witness :
  Server.calls Sample.quiet
    (Server.set_tool_collision_models Sample.quiet (Sample.server Sample.quiet tt)).2
  = [ dac.Set_toolcollisionmodel (VInt 6) (VList (zeros 3)) (VList (zeros 3))
        (VFloat 0x1.47ae147ae147bp-6);
      dac.Set_toolcollisionmodel (VInt 16) (VList (zeros 3)) (VList (zeros 3))
        (VFloat 0x1.47ae147ae147bp-6) ].
Proof.
  apply (default_tool_models Sample.quiet (Sample.server Sample.quiet tt)
           (Server.set_tool_collision_models Sample.quiet
              (Sample.server Sample.quiet tt)).2 []).
  - reflexivity.
  - reflexivity.
  - reflexivity.
  - vm_compute. reflexivity.
Defined.



(** X10.  A left tool section that is present but is not an object
    (a number, a list, a string, null) makes [set_tool_collision_models]
    return [False] before any call into the engine, and start-up stops
    there: no pair is installed. *)
Theorem malformed_tool_stops_startup (E : dac.Engine) (s : Server.t E)
    (d : list (string * value)) (v : value) :
  Server.tool_config E s = VDict d ->
  dict_lookup "L_tool" d = Some v ->
  Spec.is_dict v = false ->
  Server.set_tool_collision_models E s = (false, s)
  /\ (forall fs s1 s2,
        Server.load_config E fs s1 = (true, s2) ->
        forall s3, Server.convert_config E s2 = (true, s3) ->
        Server.init_dual_arm E s3 = (true, s) ->
        Server.initialize E fs s1 = (false, s)).
Proof.
  intros Hcfg Hl Hv.
  assert (Server.set_tool_collision_models E s = (false, s)) as Hfail.
  { unfold Server.set_tool_collision_models, Server.try_bool, bind.
    by rewrite (set_tool_malformed E _ _ _ d v s Hcfg Hl Hv). }
  split; [exact Hfail|].
  intros fs s1 s2 H1 s3 H2 H3. unfold Server.initialize.
  rewrite H1. cbn [negb]. rewrite H2. cbn [negb]. rewrite H3. cbn [negb].
  by rewrite Hfail.
Qed.

Lemma malformed_tool_stops_startup_witness :
  Server.set_tool_collision_models Sample.quiet
    (Server.Build Sample.quiet None None (zeros 12) (zeros 12) false [] 0%float
       (VDict [("L_tool", VInt 6)]) true tt [])
  = (false,
     Server.Build Sample.quiet None None (zeros 12) (zeros 12) false [] 0%float
       (VDict [("L_tool", VInt 6)]) true tt []).
Proof.
  apply (malformed_tool_stops_startup Sample.quiet
           (Server.Build Sample.quiet None None (zeros 12) (zeros 12) false [] 0%float
              (VDict [("L_tool", VInt 6)]) true tt [])
           [("L_tool", VInt 6)] (VInt 6)); reflexivity.
Defined.

(** X11.  When the engine refuses a pair, [add_collision_pairs] returns
    [False] and start-up fails: the pairs before the refused one have
    been installed, in order, the ones after it are never tried, and the
    verification call is never made. *)
Theorem refused_pair_stops_startup (E : dac.Engine) (fs : filesystem)
    (s s1 s2 s3 s4 s5 : Server.t E) :
  Server.load_config E fs s = (true, s1) ->
  Server.convert_config E s1 = (true, s2) ->
  Server.init_dual_arm E s2 = (true, s3) ->
  Server.set_tool_collision_models E s3 = (true, s4) ->
  Server.add_collision_pairs E s4 = (false, s5) ->
  Server.initialize E fs s = (false, s5)
  /\ exists installed p rest,
       Server.collision_pairs = installed ++ p :: rest
       /\ Server.calls E s5
          = Server.calls E s4
            ++ map (fun q => dac.Set_collision_Pair q.1 q.2) (installed ++ [p]).
Proof.
  intros H1 H2 H3 H4 H5. split.
  - unfold Server.initialize.
    rewrite H1. cbn [negb]. rewrite H2. cbn [negb]. rewrite H3. cbn [negb].
    rewrite H4. cbn [negb]. by rewrite H5.
  - apply try_bool_false in H5 as (e & H5). by apply add_pairs_raise in H5.
Qed.

Lemma refused_pair_stops_startup_witness :
  Server.initialize Sample.rejecting (Sample.on_disk Sample.document)
    (Sample.server Sample.rejecting tt)
  = (false,
     (Server.add_collision_pairs Sample.rejecting
        (Server.set_tool_collision_models Sample.rejecting
           (Server.init_dual_arm Sample.rejecting
              (Server.convert_config Sample.rejecting
                 (Server.load_config Sample.rejecting (Sample.on_disk Sample.document)
                    (Sample.server Sample.rejecting tt)).2).2).2).2).2)
  /\ dac.pairs_installed
       (Server.calls Sample.rejecting
          (Server.initialize Sample.rejecting (Sample.on_disk Sample.document)
             (Sample.server Sample.rejecting tt)).2)
     = [ (-1, 2); (-1, 3); (-1, 4); (-1, 5); (-1, 6); (-1, 12) ]%Z.
Proof.
  split; [|vm_compute; reflexivity].
  apply (refused_pair_stops_startup Sample.rejecting (Sample.on_disk Sample.document)
           (Sample.server Sample.rejecting tt)
           (Server.load_config Sample.rejecting (Sample.on_disk Sample.document)
              (Sample.server Sample.rejecting tt)).2
           (Server.convert_config Sample.rejecting
              (Server.load_config Sample.rejecting (Sample.on_disk Sample.document)
                 (Sample.server Sample.rejecting tt)).2).2
           (Server.init_dual_arm Sample.rejecting
              (Server.convert_config Sample.rejecting
                 (Server.load_config Sample.rejecting (Sample.on_disk Sample.document)
                    (Sample.server Sample.rejecting tt)).2).2).2
           (Server.set_tool_collision_models Sample.rejecting
              (Server.init_dual_arm Sample.rejecting
                 (Server.convert_config Sample.rejecting
                    (Server.load_config Sample.rejecting (Sample.on_disk Sample.document)
                       (Sample.server Sample.rejecting tt)).2).2).2).2);
    vm_compute; reflexivity.
Defined.

(* ===================================================================== *)
(** ** The pose written at initialisation *)
(* ===================================================================== *)

Section InitialPose.
Variable E : dac.Engine.
Implicit Types s : Server.t E.

Lemma setattr_a_ok i v a u a' :
  Server.setattr_a E i v a = (Ok u, a') -> a' = <[i:=v]> a.
Proof.
  unfold Server.setattr_a. destruct (dac.axis_accepts E v); [|discriminate].
  by intros [= _ <-].
Qed.

(** A completed run of the assignment loop has written every value at
    its index. *)
Lemma setattr_loop_result (vals : list value) : forall k s s1,
  for_each (zip (seq k (length vals)) vals)
    (fun iv => zoom (Server.joint_pos E) (Server.set_joint_pos E)
                 (Server.setattr_a E iv.1 iv.2)) s
  = (Ok tt, s1) ->
  k + length vals <= length (Server.joint_pos E s) ->
  Server.joint_pos E s1
  = take k (Server.joint_pos E s) ++ vals
    ++ drop (k + length vals) (Server.joint_pos E s).
Proof.
  induction vals as [|v vals IH]; intros k s s1 H Hlen.
  - injection H as <-. cbn [length app]. by rewrite Nat.add_0_r, take_drop.
  - cbn [length seq zip zip_with for_each] in H.
    apply bind_ok in H as (u & s0 & Hz & H).
    apply zoom_ok in Hz as (a' & Hset & ->).
    apply setattr_a_ok in Hset as ->. cbn [fst snd] in *.
    apply IH in H.
    + rewrite H. unfold Server.set_joint_pos. cbn [Server.joint_pos length].
      assert (k < length (Server.joint_pos E s)) as Hk by (cbn [length] in Hlen; lia).
      rewrite (take_S_r (<[k:=v]> (Server.joint_pos E s)) k v)
        by (by apply list_lookup_insert_eq).
      rewrite take_insert_ge by lia. rewrite drop_insert_lt by lia.
      replace (k + S (length vals)) with (S k + length vals) by lia.
      by rewrite <- app_assoc.
    + unfold Server.set_joint_pos. cbn [Server.joint_pos length] in *.
      rewrite length_insert. lia.
Qed.

End InitialPose.

(** X12.  A successful [init_dual_arm] has overwritten all twelve
    entries of the joint positions with the start pose in radians (left
    arm at zero; right arm at -90, 50, 140, 0, 0, 0 degrees, that is
    -0x1.921fb54442d18p+0, 0x1.becde5da115a9p-1, 0x1.38c35418a5bf6p+1,
    0, 0, 0), whatever they held before, and has initialised the engine
    with the parameters of [convert_config] and that pose, by a single
    call. *)
Theorem init_dual_arm_pose (E : dac.Engine) (s s' : Server.t E) :
  length (Server.joint_pos E s) = 12 ->
  Server.init_dual_arm E s = (true, s') ->
  exists p,
    Server.init_params E s = Some p
    /\ Server.joint_pos E s'
       = map VFloat
           [ 0; 0; 0; 0; 0; 0;
             -0x1.921fb54442d18p+0; 0x1.becde5da115a9p-1; 0x1.38c35418a5bf6p+1;
             0; 0; 0 ]%float
    /\ Server.calls E s'
       = Server.calls E s ++ [dac.Init_dual_arm p Spec.initial_pose].
Proof.
  intros Hlen H. apply try_bool_true in H as (a & H).
  apply bind_ok in H as ([] & s1 & Hloop & H).
  pose proof (setattr_loop_calls E _ _ _ Hloop) as [Hc Hp].
  apply (setattr_loop_result E Spec.initial_pose 0 s s1) in Hloop;
    [|by rewrite Hlen].
  rewrite take_0, drop_ge, app_nil_r in Hloop by (rewrite Hlen; cbn; lia).
  cbn [app] in Hloop.
  apply bind_ok in H as (params & s2 & Hg & H). injection Hg as <- <-.
  rewrite Hp in H. destruct (Server.init_params E s) as [p|]; [|discriminate].
  apply bind_ok in H as (jp & s3 & Hg & H). injection Hg as <- <-.
  exists p. split; [done|].
  pose proof (invoke_ok E _ _ _ _ _ H) as Hcalls.
  unfold Server.invoke in H.
  destruct (dac.init_dual_arm E p _ _) as [r e']. injection H as _ <-.
  cbn [Server.joint_pos Server.set_engine] in *.
  rewrite Hcalls, Hc, Hloop. done.
Qed.

Lemma init_dual_arm_pose_witness :
  Server.joint_pos Sample.quiet
    (Server.init_dual_arm Sample.quiet
       (Server.convert_config Sample.quiet (Sample.configured Sample.quiet tt)).2).2
  = [ VFloat 0; VFloat 0; VFloat 0; VFloat 0; VFloat 0; VFloat 0;
      VFloat (-0x1.921fb54442d18p+0); VFloat 0x1.becde5da115a9p-1;
      VFloat 0x1.38c35418a5bf6p+1; VFloat 0; VFloat 0; VFloat 0 ].
Proof.
  destruct (init_dual_arm_pose Sample.quiet
              (Server.convert_config Sample.quiet (Sample.configured Sample.quiet tt)).2
              (Server.init_dual_arm Sample.quiet
                 (Server.convert_config Sample.quiet
                    (Sample.configured Sample.quiet tt)).2).2)
    as (p & _ & Hpose & _).
  - reflexivity.
  - vm_compute. reflexivity.
  - exact Hpose.
Defined.

(* ===================================================================== *)
(** ** The connection worker *)
(* ===================================================================== *)

Section Worker.
Variable E : dac.Engine.
Implicit Types s : Server.t E.

(** An iteration hands at most one document to [sendall]. *)
Lemma handle_message_one_reply inp send_ok s :
  length (Server.handle_message E inp send_ok s).1.2 <= 1.
Proof.
  unfold Server.handle_message, Server.sendall.
  destruct inp as [e| |[v|e]].
  - cbn. lia.
  - cbn. lia.
  - destruct (Server.dispatch E v s) as [[[r|]|e] s']; cbn; lia.
  - destruct e; cbn; lia.
Qed.

Lemma handle_client_sent inputs : forall out s,
  exists new,
    Server.sent (Server.handle_client E inputs out s).1 = out ++ new
    /\ length new <= length inputs.
Proof.
  induction inputs as [|[inp send_ok] inputs IH]; intros out s.
  - exists []. cbn. by rewrite app_nil_r.
  - cbn [Server.handle_client]. destruct (Server.running E s).
    + pose proof (handle_message_one_reply inp send_ok s) as Hone.
      destruct (Server.handle_message E inp send_ok s) as [[[] msgs] s'];
        cbn [fst snd] in Hone.
      * destruct (IH (out ++ msgs) s') as (new & -> & Hlen).
        exists (msgs ++ new). rewrite app_assoc, length_app. cbn [length].
        split; [done|lia].
      * exists msgs. cbn [Server.sent fst length]. split; [done|lia].
    + exists []. cbn. rewrite app_nil_r. split; [done|lia].
Qed.

(** The loop body writes only below the length of the positions. *)
Lemma set_joint_frame ps jv i s r s' :
  Server.set_joint E (VList ps) jv i s = (r, s') ->
  Server.calls E s' = Server.calls E s
  /\ Server.engine E s' = Server.engine E s
  /\ (forall j, length ps <= j ->
        Server.joint_pos E s' !! j = Server.joint_pos E s !! j
        /\ Server.joint_vel E s' !! j = Server.joint_vel E s !! j).
Proof.
  unfold Server.set_joint, bind, lift, zoom, Server.setattr_a, getitem_int.
  destruct (ps !! i) as [p|] eqn:Hp; [|by intros [= _ <-]].
  apply lookup_lt_Some in Hp.
  destruct (dac.axis_accepts E p); cbn; [|by intros [= _ <-]].
  destruct (match jv with VList _ | VStr _ | VDict _ | _ => _ end) as [v|e] eqn:Hv.
  - cbn. destruct (dac.axis_accepts E v); cbn; intros [= _ <-]; cbn;
      (split; [done|]; split; [done|]; intros j Hj;
       rewrite ?list_lookup_insert_ne by lia; done).
  - cbn. intros [= _ <-]. cbn. split; [done|]. split; [done|]. intros j Hj.
    rewrite list_lookup_insert_ne by lia. done.
Qed.

Lemma set_joint_loop_frame ps jv (xs : list nat) : forall s r s',
  for_each xs (Server.set_joint E (VList ps) jv) s = (r, s') ->
  Server.calls E s' = Server.calls E s
  /\ Server.engine E s' = Server.engine E s
  /\ (forall j, length ps <= j ->
        Server.joint_pos E s' !! j = Server.joint_pos E s !! j
        /\ Server.joint_vel E s' !! j = Server.joint_vel E s !! j).
Proof.
  induction xs as [|x xs IH]; intros s r s' H.
  - by injection H as _ <-.
  - cbn [for_each] in H. unfold bind in H.
    destruct (Server.set_joint E (VList ps) jv x s) as [[[]|e] s1] eqn:Hx.
    + apply set_joint_frame in Hx as (Hc & He & Hj).
      apply IH in H as (Hc' & He' & Hj').
      split; [congruence|]. split; [congruence|].
      intros j Hlen. destruct (Hj' j Hlen) as [-> ->]. by apply Hj.
    + injection H as _ <-. by apply set_joint_frame in Hx.
Qed.

(** The loop cannot complete when an index it visits is missing from the
    positions. *)
Lemma set_joint_loop_raises ps jv (xs : list nat) i : forall s,
  i ∈ xs -> length ps <= i ->
  exists e s', for_each xs (Server.set_joint E (VList ps) jv) s = (Raise e, s').
Proof.
  induction xs as [|x xs IH]; intros s Hin Hlen.
  - by apply elem_of_nil in Hin.
  - cbn [for_each]. unfold bind.
    destruct (Server.set_joint E (VList ps) jv x s) as [[[]|e] s1] eqn:Hx; [|eauto].
    apply elem_of_cons in Hin as [->|Hin]; [|by apply IH].
    unfold Server.set_joint, bind, lift, getitem_int in Hx.
    rewrite (lookup_ge_None_2 ps x Hlen) in Hx. discriminate.
Qed.

End Worker.

(** X13.  A [ping] is always answered with [pong]: the answer does not
    depend on the engine or on the joints, and nothing in the server
    changes. *)
Theorem ping_gets_pong (E : dac.Engine) (s : Server.t E)
    (d : list (string * value)) (send_ok : bool) :
  dict_lookup "type" d = Some (VStr "ping") ->
  Server.handle_message E (Server.Recv_data (Ok (VDict d))) send_ok s
  = (if send_ok then Server.Next else Server.Leave,
     [VDict [("type", VStr "pong")]], s).
Proof.
  intros Hty.
  unfold Server.handle_message, Server.dispatch, bind, lift, ret, get1, get.
  rewrite Hty. cbn.
  rewrite bool_decide_eq_false_2 by discriminate.
  rewrite bool_decide_eq_true_2 by reflexivity. reflexivity.
Qed.

Lemma ping_gets_pong_witness :
  Server.handle_message Sample.faulty (Server.Recv_data (Ok Sample.ping)) true
    (Sample.server Sample.faulty tt)
  = (Server.Next, [VDict [("type", VStr "pong")]], Sample.server Sample.faulty tt).
Proof.
  apply (ping_gets_pong Sample.faulty (Sample.server Sample.faulty tt)
           [("type", VStr "ping")] true).
  reflexivity.
Defined.

(** X14.  The worker closes the connection, without a reply and without
    looking at what follows, on an empty read, on a failing read, on
    bytes that [decode] or [json.loads] rejects with anything but a
    [JSONDecodeError], and on JSON that is not an object. *)
Theorem worker_closes_connection (E : dac.Engine) (s : Server.t E)
    (inp : Server.incoming) (send_ok : bool)
    (rest : list (Server.incoming * bool)) (out : list value) :
  Server.running E s = true ->
  match inp with
  | Server.Recv_empty | Server.Recv_raises _ => True
  | Server.Recv_data (Raise e) => e <> JSONDecodeError
  | Server.Recv_data (Ok v) => Spec.is_dict v = false
  end ->
  Server.handle_client E ((inp, send_ok) :: rest) out s
  = ({| Server.sent := out; Server.closed := true |}, s).
Proof.
  intros Hrun Hinp. cbn [Server.handle_client]. rewrite Hrun.
  destruct inp as [e| |[v|e]]; cbn.
  - by rewrite app_nil_r.
  - by rewrite app_nil_r.
  - destruct v; try discriminate; cbn; by rewrite app_nil_r.
  - destruct e; try (by rewrite app_nil_r). done.
Qed.

Lemma worker_closes_connection_witness :
  Server.handle_client Sample.quiet
    [ (Server.Recv_data (Raise UnicodeDecodeError), true);
      (Server.Recv_data (Ok Sample.ping), true) ] []
    (Sample.server Sample.quiet tt)
  = ({| Server.sent := []; Server.closed := true |}, Sample.server Sample.quiet tt).
Proof.
  apply (worker_closes_connection Sample.quiet (Sample.server Sample.quiet tt)
           (Server.Recv_data (Raise UnicodeDecodeError)) true
           [(Server.Recv_data (Ok Sample.ping), true)] []).
  - reflexivity.
  - discriminate.
Defined.

(** X15.  A [joint_data] request that lacks one of its two vectors closes
    the connection: nothing is sent, the joints are not touched and the
    engine is not called. *)
Theorem joint_data_without_vector (E : dac.Engine) (s : Server.t E)
    (d : list (string * value)) (send_ok : bool) :
  dict_lookup "type" d = Some (VStr "joint_data") ->
  dict_lookup "joint_positions" d = None
  \/ dict_lookup "joint_velocities" d = None ->
  Server.handle_message E (Server.Recv_data (Ok (VDict d))) send_ok s
  = (Server.Leave, [], s).
Proof.
  intros Hty Hmiss.
  unfold Server.handle_message, Server.dispatch, bind, lift, get1, get, getitem_str.
  rewrite Hty. cbn. rewrite bool_decide_eq_true_2 by reflexivity.
  destruct Hmiss as [-> | ->]; [done|].
  by destruct (dict_lookup "joint_positions" d).
Qed.

Lemma joint_data_without_vector_witness :
  Server.handle_message Sample.quiet
    (Server.Recv_data
       (Ok (VDict [ ("type", VStr "joint_data");
                    ("joint_positions", Sample.ints [1; 2; 3]%Z) ])))
    true (Sample.server Sample.quiet tt)
  = (Server.Leave, [], Sample.server Sample.quiet tt).
Proof.
  apply (joint_data_without_vector Sample.quiet (Sample.server Sample.quiet tt)
           [ ("type", VStr "joint_data");
             ("joint_positions", Sample.ints [1; 2; 3]%Z) ] true).
  - reflexivity.
  - right. reflexivity.
Defined.

(** X16.  The worker only ever appends to what was sent, and it sends at
    most one document for each input it receives. *)
Theorem at_most_one_reply_per_request (E : dac.Engine) (s : Server.t E)
    (inputs : list (Server.incoming * bool)) (out : list value) :
  exists new,
    Server.sent (Server.handle_client E inputs out s).1 = out ++ new
    /\ length new <= length inputs.
Proof. apply handle_client_sent. Qed.

(** X17.  A [joint_data] message with fewer than twelve positions never
    reaches the engine: [update_joints] makes no call, and the entries of
    both structures from the length of the positions on are the old
    ones. *)
Theorem short_positions_not_forwarded (E : dac.Engine) (s : Server.t E)
    (ps : list value) (jv : value) :
  length ps < 12 ->
  Server.calls E (Server.update_joints E (VList ps) jv s) = Server.calls E s
  /\ Server.engine E (Server.update_joints E (VList ps) jv s) = Server.engine E s
  /\ (forall j, length ps <= j ->
        Server.joint_pos E (Server.update_joints E (VList ps) jv s) !! j
        = Server.joint_pos E s !! j
        /\ Server.joint_vel E (Server.update_joints E (VList ps) jv s) !! j
           = Server.joint_vel E s !! j).
Proof.
  intros Hlen.
  destruct (set_joint_loop_raises E ps jv (seq 0 12) (length ps) s)
    as (e & s' & Hloop); [apply elem_of_seq; lia | lia |].
  assert (Server.update_joints E (VList ps) jv s = s') as ->.
  { unfold Server.update_joints, Server.update_joints_body.
    unfold bind at 1. by rewrite Hloop. }
  by apply set_joint_loop_frame in Hloop.
Qed.

Lemma short_positions_not_forwarded_witness :
  Server.calls Sample.quiet
    (Server.update_joints Sample.quiet (Sample.ints [1; 2; 3]%Z)
       (Sample.ints [21; 22; 23]%Z) (Sample.server Sample.quiet tt))
  = [].
Proof.
  apply (short_positions_not_forwarded Sample.quiet (Sample.server Sample.quiet tt)
           (map VInt [1; 2; 3]%Z) (Sample.ints [21; 22; 23]%Z)).
  simpl. lia.
Defined.

(* ===================================================================== *)
(** ** Telemetry reads and frames *)
(* ===================================================================== *)

Section Reads.
Variable K : CPS.Sdk.
Implicit Types c : Client.t K.

Lemma only_sdk_moved_refl c : Spec.only_sdk_moved K c c.
Proof. by repeat split. Qed.

Lemma only_sdk_moved_trans c1 c2 c3 :
  Spec.only_sdk_moved K c1 c2 -> Spec.only_sdk_moved K c2 c3 ->
  Spec.only_sdk_moved K c1 c3.
Proof.
  intros (?&?&?&?&?) (?&?&?&?&?). repeat split; congruence.
Qed.

Lemma set_sdk_moved c k' call : Spec.only_sdk_moved K c (Client.set_sdk K k' call c).
Proof. by repeat split. Qed.

Lemma read_joint_positions_inv sd c ps c' :
  Client.read_joint_positions K sd c = (Some ps, c') ->
  Arm.connected (Client.arm K sd c) = true
  /\ exists items k' xs,
       CPS.HRIF_ReadActJointPos K (Arm.boxid (Client.arm K sd c))
         (Arm.robot_id (Client.arm K sd c)) (Client.sdk K c)
       = (Returns (0%Z, items), k')
       /\ length items = 6
       /\ Client.floats K items = Ok xs
       /\ Client.add_pi_first (map math_radians xs) = Ok ps.
Proof.
  unfold Client.read_joint_positions.
  destruct (Arm.connected (Client.arm K sd c)); cbn [negb]; [|discriminate].
  unfold Client.try_or, bind, Client.invoke.
  destruct (CPS.HRIF_ReadActJointPos K _ _ (Client.sdk K c))
    as [[[n items]|msg] k'] eqn:Hread; cbn; [|discriminate].
  destruct (n =? 0)%Z eqn:Hn; cbn; [|discriminate].
  apply Z.eqb_eq in Hn as ->.
  destruct (length items =? 6) eqn:Hlen; cbn; [|discriminate].
  apply Nat.eqb_eq in Hlen.
  destruct (Client.floats K items) as [xs|e] eqn:Hxs; cbn; [|discriminate].
  destruct (Client.add_pi_first (map math_radians xs)) as [ps'|e] eqn:Hpi; cbn;
    [|discriminate].
  intros [= <- _]. split; [done|]. eauto 10.
Qed.

Lemma read_joint_velocities_inv sd c vs c' :
  Client.read_joint_velocities K sd c = (Some vs, c') ->
  Arm.connected (Client.arm K sd c) = true
  /\ exists items k',
       CPS.HRIF_ReadActJointVel K (Arm.boxid (Client.arm K sd c))
         (Arm.robot_id (Client.arm K sd c)) (Client.sdk K c)
       = (Returns (0%Z, items), k')
       /\ length items = 6
       /\ Client.floats K items = Ok vs.
Proof.
  unfold Client.read_joint_velocities.
  destruct (Arm.connected (Client.arm K sd c)); cbn [negb]; [|discriminate].
  unfold Client.try_or, bind, Client.invoke.
  destruct (CPS.HRIF_ReadActJointVel K _ _ (Client.sdk K c))
    as [[[n items]|msg] k'] eqn:Hread; cbn; [|discriminate].
  destruct (n =? 0)%Z eqn:Hn; cbn; [|discriminate].
  apply Z.eqb_eq in Hn as ->.
  destruct (length items =? 6) eqn:Hlen; cbn; [|discriminate].
  apply Nat.eqb_eq in Hlen.
  destruct (Client.floats K items) as [xs|e] eqn:Hxs; cbn; [|discriminate].
  intros [= <- _]. split; [done|]. eauto 10.
Qed.

Lemma add_pi_first_length xs ps :
  Client.add_pi_first xs = Ok ps -> length ps = length xs.
Proof. destruct xs; [discriminate|]. by intros [= <-]. Qed.

Lemma read_joint_positions_length sd c ps c' :
  Client.read_joint_positions K sd c = (Some ps, c') -> length ps = 6.
Proof.
  intros H. apply read_joint_positions_inv in H
    as (_ & items & k' & xs & _ & Hlen & Hxs & Hpi).
  apply add_pi_first_length in Hpi. apply floats_length in Hxs.
  rewrite Hpi, length_map. congruence.
Qed.

Lemma read_joint_velocities_length sd c vs c' :
  Client.read_joint_velocities K sd c = (Some vs, c') -> length vs = 6.
Proof.
  intros H. apply read_joint_velocities_inv in H
    as (_ & items & k' & _ & Hlen & Hxs).
  apply floats_length in Hxs. congruence.
Qed.

(** A read moves nothing but the SDK. *)
Lemma read_joint_positions_moved sd c :
  Spec.only_sdk_moved K c (Client.read_joint_positions K sd c).2.
Proof.
  destruct (Arm.connected (Client.arm K sd c)) eqn:Hc.
  - destruct (read_joint_positions_effect K sd c Hc) as [k' ->].
    apply set_sdk_moved.
  - unfold Client.read_joint_positions. rewrite Hc. apply only_sdk_moved_refl.
Qed.

Lemma read_joint_velocities_moved sd c :
  Spec.only_sdk_moved K c (Client.read_joint_velocities K sd c).2.
Proof.
  destruct (Arm.connected (Client.arm K sd c)) eqn:Hc.
  - destruct (read_joint_velocities_effect K sd c Hc) as [k' ->].
    apply set_sdk_moved.
  - unfold Client.read_joint_velocities. rewrite Hc. apply only_sdk_moved_refl.
Qed.

Lemma read_if_connected_moved rd sd c r c' :
  (forall sd c, Spec.only_sdk_moved K c (rd sd c).2) ->
  Client.read_if_connected K rd sd c = (r, c') ->
  Spec.only_sdk_moved K c c'
  /\ exists o, r = Ok o
     /\ (Arm.connected (Client.arm K sd c) = false -> o = None)
     /\ (forall x, o = Some x -> rd sd c = (Some x, c')).
Proof.
  intros Hrd. unfold Client.read_if_connected.
  destruct (Arm.connected (Client.arm K sd c)).
  - pose proof (Hrd sd c) as Hm. destruct (rd sd c) as [o c1].
    intros [= <- <-]. split; [done|]. exists o. repeat split; [done|].
    by intros x ->.
  - intros [= <- <-]. split; [apply only_sdk_moved_refl|].
    exists None. by repeat split.
Qed.

(** [send_joint_data] either skips the send, moving nothing but the SDK,
    or hands to the socket one frame made of four complete reads. *)
Lemma send_joint_data_cases net c :
  ((Client.send_joint_data K net c).1 = false
   /\ Spec.only_sdk_moved K c (Client.send_joint_data K net c).2)
  \/ (exists lp rp lv rv,
        length lp = 6 /\ length rp = 6 /\ length lv = 6 /\ length rv = 6
        /\ Arm.connected (Client.left_arm K c) = true
        /\ Arm.connected (Client.right_arm K c) = true
        /\ Client.client_socket K c = true
        /\ Client.sent K (Client.send_joint_data K net c).2
           = Client.sent K c ++ [Client.joint_data (lp ++ rp) (lv ++ rv)]).
Proof.
  destruct (Client.send_joint_data K net c) as [ok cf] eqn:Hrun. cbn [fst snd].
  unfold Client.send_joint_data, Client.try_or in Hrun.
  unfold bind at 1 in Hrun.
  destruct (Client.read_if_connected K (Client.read_joint_positions K) Client.Left c)
    as [r1 c1] eqn:H1.
  apply read_if_connected_moved in H1 as (M1 & o1 & -> & Hd1 & Hs1);
    [|apply read_joint_positions_moved].
  unfold bind at 1 in Hrun.
  destruct (Client.read_if_connected K (Client.read_joint_positions K) Client.Right c1)
    as [r2 c2] eqn:H2.
  apply read_if_connected_moved in H2 as (M2 & o2 & -> & Hd2 & Hs2);
    [|apply read_joint_positions_moved].
  unfold bind at 1 in Hrun.
  destruct (Client.read_if_connected K (Client.read_joint_velocities K) Client.Left c2)
    as [r3 c3] eqn:H3.
  apply read_if_connected_moved in H3 as (M3 & o3 & -> & Hd3 & Hs3);
    [|apply read_joint_velocities_moved].
  unfold bind at 1 in Hrun.
  destruct (Client.read_if_connected K (Client.read_joint_velocities K) Client.Right c3)
    as [r4 c4] eqn:H4.
  apply read_if_connected_moved in H4 as (M4 & o4 & -> & Hd4 & Hs4);
    [|apply read_joint_velocities_moved].
  assert (Spec.only_sdk_moved K c c4) as M
    by eauto using only_sdk_moved_trans.
  destruct o1 as [lp|]; [|left; by injection Hrun as <- <-].
  destruct o2 as [rp|]; [|left; by injection Hrun as <- <-].
  destruct o3 as [lv|]; [|left; by injection Hrun as <- <-].
  destruct o4 as [rv|]; [|left; by injection Hrun as <- <-].
  pose proof (Hs1 lp eq_refl) as R1. pose proof (Hs2 rp eq_refl) as R2.
  pose proof (Hs3 lv eq_refl) as R3. pose proof (Hs4 rv eq_refl) as R4.
  unfold bind at 1 in Hrun. unfold gets at 1 in Hrun.
  destruct (Client.client_socket K c4) eqn:Hsock; cbn [negb] in Hrun;
    [|left; by injection Hrun as <- <-].
  destruct M as (Ml & Mr & Mf & Msock & Msent).
  right. exists lp, rp, lv, rv.
  split; [by eapply read_joint_positions_length|].
  split; [by eapply read_joint_positions_length|].
  split; [by eapply read_joint_velocities_length|].
  split; [by eapply read_joint_velocities_length|].
  apply read_joint_positions_inv in R1 as [C1 _].
  apply read_joint_positions_inv in R2 as [C2 _].
  destruct M1 as (M1l & M1r & _).
  cbn [Client.arm] in C1, C2. rewrite M1r in C2.
  split; [done|]. split; [done|]. split; [congruence|].
  rewrite <- Msent.
  unfold bind at 1 in Hrun. unfold assign at 1 in Hrun.
  destruct (Client.send_ok net); cbn [negb] in Hrun;
    [|by injection Hrun as _ <-].
  destruct (Client.response net) as [[[response_data|e]|]|];
    try (by injection Hrun as _ <-).
  unfold bind at 1, lift at 1 in Hrun.
  destruct (get1 response_data "type") as [ty|e]; [|by injection Hrun as _ <-].
  destruct (eq_str ty "collision_result"); [|by injection Hrun as _ <-].
  unfold bind at 1, lift at 1 in Hrun.
  destruct (getitem_str response_data "result") as [result|e];
    [|by injection Hrun as _ <-].
  unfold bind at 1 in Hrun.
  match type of Hrun with
  | context [Client.handle_collision_result K result ?c0] =>
      pose proof (handle_collision_result_sent K result c0) as Hs;
      destruct (Client.handle_collision_result K result c0) as [[[]|e] c5]
  end; cbn [snd] in Hs; injection Hrun as _ <-; by rewrite Hs.
Qed.

End Reads.

(** X18.  A read gives a list only when the arm is connected and the SDK
    returned code 0 with exactly six items that all convert to floats;
    the list then has six entries.  In every other case (arm not
    connected, SDK exception, non-zero code, another count, an item that
    does not convert) the read gives [None]. *)
Theorem telemetry_read_complete_or_none (K : CPS.Sdk) (c : Client.t K)
    (sd : Client.side) :
  (forall ps c', Client.read_joint_positions K sd c = (Some ps, c') ->
     length ps = 6
     /\ Arm.connected (Client.arm K sd c) = true
     /\ exists items k' xs,
          CPS.HRIF_ReadActJointPos K (Arm.boxid (Client.arm K sd c))
            (Arm.robot_id (Client.arm K sd c)) (Client.sdk K c)
          = (Returns (0%Z, items), k')
          /\ length items = 6 /\ Client.floats K items = Ok xs)
  /\ (forall vs c', Client.read_joint_velocities K sd c = (Some vs, c') ->
        length vs = 6
        /\ Arm.connected (Client.arm K sd c) = true
        /\ exists items k',
             CPS.HRIF_ReadActJointVel K (Arm.boxid (Client.arm K sd c))
               (Arm.robot_id (Client.arm K sd c)) (Client.sdk K c)
             = (Returns (0%Z, items), k')
             /\ length items = 6 /\ Client.floats K items = Ok vs).
Proof.
  split.
  - intros ps c' H. split; [by eapply read_joint_positions_length|].
    apply read_joint_positions_inv in H as (Hc & items & k' & xs & ? & ? & ? & _).
    split; [done|]. eauto 10.
  - intros vs c' H. split; [by eapply read_joint_velocities_length|].
    apply read_joint_velocities_inv in H as (Hc & items & k' & ? & ? & ?).
    split; [done|]. eauto 10.
Qed.

Lemma telemetry_read_complete_or_none_witness :
  length [ PrimFloat.add (math_radians 180) math_pi; math_radians 90; math_radians 0;
           math_radians (-45); math_radians 0; math_radians 90 ] = 6.
Proof.
  destruct (proj1 (telemetry_read_complete_or_none
                     (Sample.sdk Sample.left_stop_raises)
                     (Sample.client (Sample.sdk Sample.left_stop_raises) tt)
                     Client.Left)
              [ PrimFloat.add (math_radians 180) math_pi; math_radians 90;
                math_radians 0; math_radians (-45); math_radians 0; math_radians 90 ]
              (Client.read_joint_positions (Sample.sdk Sample.left_stop_raises)
                 Client.Left
                 (Sample.client (Sample.sdk Sample.left_stop_raises) tt)).2)
    as [Hlen _].
  - vm_compute. reflexivity.
  - exact Hlen.
Defined.

(** X19.  With an arm that is not connected, [send_joint_data] sends
    nothing and returns [False]; the arms, the collision flag and the
    socket are as before. *)
Theorem one_arm_sends_nothing (K : CPS.Sdk) (net : Client.Net) (c : Client.t K) :
  Arm.connected (Client.left_arm K c) = false
  \/ Arm.connected (Client.right_arm K c) = false ->
  (Client.send_joint_data K net c).1 = false
  /\ Spec.only_sdk_moved K c (Client.send_joint_data K net c).2.
Proof.
  intros Hoff.
  destruct (send_joint_data_cases K net c)
    as [Hskip | (lp & rp & lv & rv & _ & _ & _ & _ & Hl & Hr & _)]; [done|].
  destruct Hoff; congruence.
Qed.

Lemma one_arm_sends_nothing_witness :
  Client.sent (Sample.sdk Sample.left_stop_raises)
    (Client.send_joint_data (Sample.sdk Sample.left_stop_raises)
       {| Client.send_ok := true; Client.response := Some None |}
       (Client.set_right_arm (Sample.sdk Sample.left_stop_raises) Client.right_arm0
          (Sample.client (Sample.sdk Sample.left_stop_raises) tt))).2
  = [].
Proof.
  apply (one_arm_sends_nothing (Sample.sdk Sample.left_stop_raises)
           {| Client.send_ok := true; Client.response := Some None |}
           (Client.set_right_arm (Sample.sdk Sample.left_stop_raises) Client.right_arm0
              (Sample.client (Sample.sdk Sample.left_stop_raises) tt))).
  right. reflexivity.
Defined.

(** X20.  No partial frame is ever sent: a call of [send_joint_data]
    either sends nothing or sends one [joint_data] document with exactly
    twelve positions and twelve velocities. *)
Theorem frames_are_complete (K : CPS.Sdk) (net : Client.Net) (c : Client.t K) :
  Client.sent K (Client.send_joint_data K net c).2 = Client.sent K c
  \/ exists all_pos all_vel,
       length all_pos = 12 /\ length all_vel = 12
       /\ Client.sent K (Client.send_joint_data K net c).2
          = Client.sent K c
            ++ [VDict [ ("type", VStr "joint_data");
                        ("joint_positions", VList (map VFloat all_pos));
                        ("joint_velocities", VList (map VFloat all_vel));
                        ("units", VDict [ ("positions", VStr "radians");
                                          ("velocities", VStr "degrees_per_second") ]) ]].
Proof.
  destruct (send_joint_data_cases K net c)
    as [[_ (_ & _ & _ & _ & Hsent)]
       | (lp & rp & lv & rv & H1 & H2 & H3 & H4 & _ & _ & _ & Hsent)].
  - by left.
  - right. exists (lp ++ rp), (lv ++ rv).
    rewrite !length_app, H1, H2, H3, H4. done.
Qed.

(* ===================================================================== *)
(** ** Arm connections, heartbeat and the client loop *)
(* ===================================================================== *)

Section Connecting.
Variable K : CPS.Sdk.
Implicit Types c : Client.t K.

(** [connect] leaves the arm as it was but for its flag, which is the
    value returned, and moves nothing else but the SDK. *)
Lemma connect_effect sd c :
  exists k' calls',
    (Client.connect K sd c).2
    = Client.set_arm K sd
        (Arm.set_connected (Client.connect K sd c).1 (Client.arm K sd c))
        (Client.Build K (Client.left_arm K c) (Client.right_arm K c)
           (Client.collision_detected K c) (Client.client_socket K c)
           (Client.sent K c) k' calls').
Proof.
  unfold Client.connect, bind, Client.invoke, assign, ret.
  destruct (CPS.HRIF_IsConnected K _ (Client.sdk K c)) as [[[]|msg] k1];
    cbn; [destruct sd; cbn; eauto | | destruct sd; cbn; eauto].
  destruct (CPS.HRIF_Connect K _ _ _ k1) as [[n|msg] k2];
    cbn; [|destruct sd; cbn; eauto].
  destruct (n =? 0)%Z; cbn; [|destruct sd; cbn; eauto].
  destruct (CPS.HRIF_IsConnected K _ k2) as [[[]|msg] k3];
    cbn; destruct sd; cbn; eauto.
Qed.

End Connecting.

(** X21.  [connect] returns the value it stores in the arm's [connected]
    flag, changes nothing else of that arm, and leaves the other arm, the
    collision flag, the socket and what was sent untouched. *)
Theorem connect_sets_flag_to_result (K : CPS.Sdk) (c : Client.t K) (sd : Client.side) :
  Arm.connected (Client.arm K sd (Client.connect K sd c).2) = (Client.connect K sd c).1
  /\ Client.arm K sd (Client.connect K sd c).2
     = Arm.set_connected (Client.connect K sd c).1 (Client.arm K sd c)
  /\ Client.left_arm K (Client.connect K Client.Right c).2 = Client.left_arm K c
  /\ Client.right_arm K (Client.connect K Client.Left c).2 = Client.right_arm K c
  /\ Client.collision_detected K (Client.connect K sd c).2 = Client.collision_detected K c
  /\ Client.client_socket K (Client.connect K sd c).2 = Client.client_socket K c
  /\ Client.sent K (Client.connect K sd c).2 = Client.sent K c.
Proof.
  destruct (connect_effect K sd c) as (k & l & ->).
  destruct (connect_effect K Client.Right c) as (k1 & l1 & ->).
  destruct (connect_effect K Client.Left c) as (k2 & l2 & ->).
  destruct sd; cbn; done.
Qed.

(** X22.  [connect_arms] returns [True] exactly when at least one arm is
    connected afterwards: one reachable arm is enough. *)
Theorem connect_arms_needs_one_arm (K : CPS.Sdk) (c : Client.t K) :
  (Client.connect_arms K c).1
  = Arm.connected (Client.left_arm K (Client.connect_arms K c).2)
    || Arm.connected (Client.right_arm K (Client.connect_arms K c).2).
Proof.
  unfold Client.connect_arms.
  destruct (connect_effect K Client.Left c) as (k1 & l1 & H1).
  destruct (Client.connect K Client.Left c) as [lc c1]. cbn [fst snd] in H1.
  destruct (connect_effect K Client.Right c1) as (k2 & l2 & H2).
  destruct (Client.connect K Client.Right c1) as [rc c2]. cbn [fst snd] in H2.
  subst c2 c1. by destruct lc, rc.
Qed.

(** X23.  [connect] never reports success on the return code of
    [HRIF_Connect] alone: when it returns [True], the last call it made
    is an [HRIF_IsConnected] on the arm's box that returned true. *)
Theorem connect_success_is_verified (K : CPS.Sdk) (c : Client.t K) (sd : Client.side) :
  (Client.connect K sd c).1 = true ->
  exists pre k k',
    Client.calls K (Client.connect K sd c).2
    = pre ++ [CPS.IsConnected (Arm.boxid (Client.arm K sd c))]
    /\ CPS.HRIF_IsConnected K (Arm.boxid (Client.arm K sd c)) k = (Returns true, k')
    /\ Client.sdk K (Client.connect K sd c).2 = k'.
Proof.
  unfold Client.connect, bind, Client.invoke, assign, ret.
  destruct (CPS.HRIF_IsConnected K _ (Client.sdk K c)) as [[[]|msg] k1] eqn:H1;
    cbn; [| |discriminate].
  { intros _. exists (Client.calls K c), (Client.sdk K c), k1.
    split; [by destruct sd|]. split; [exact H1|by destruct sd]. }
  destruct (CPS.HRIF_Connect K _ _ _ k1) as [[n|msg] k2];
    cbn; [|discriminate].
  destruct (n =? 0)%Z; cbn; [|discriminate].
  destruct (CPS.HRIF_IsConnected K _ k2) as [[[]|msg] k3] eqn:H3;
    cbn; [|discriminate..].
  intros _. eexists _, k2, k3.
  split; [by destruct sd|]. split; [exact H3|by destruct sd].
Qed.

Lemma connect_success_is_verified_witness :
  exists pre k k',
    Client.calls (Sample.sdk Sample.left_stop_raises)
      (Client.connect (Sample.sdk Sample.left_stop_raises) Client.Right
         (Client.fresh (Sample.sdk Sample.left_stop_raises) tt)).2
    = pre ++ [CPS.IsConnected 1]
    /\ CPS.HRIF_IsConnected (Sample.sdk Sample.left_stop_raises) 1 k = (Returns true, k')
    /\ Client.sdk (Sample.sdk Sample.left_stop_raises)
         (Client.connect (Sample.sdk Sample.left_stop_raises) Client.Right
            (Client.fresh (Sample.sdk Sample.left_stop_raises) tt)).2 = k'.
Proof.
  apply (connect_success_is_verified (Sample.sdk Sample.left_stop_raises)
           (Client.fresh (Sample.sdk Sample.left_stop_raises) tt) Client.Right).
  reflexivity.
Defined.

(** X24.  The verdict as the server builds it, handed to the client's
    [handle_collision_result]: the client's flag becomes the boolean the
    engine returned, or [False] when the engine call raised, and the arms
    are stopped exactly when that boolean is true. *)
Theorem verdict_reaches_client (E : dac.Engine) (K : CPS.Sdk) (s : Server.t E)
    (c : Client.t K) :
  exists c',
    Client.handle_collision_result K (Server.check_collision E s).1 c = (Ok tt, c')
    /\ Client.collision_detected K c'
       = match (dac.check_collision E (Server.engine E s)).1 with
         | Returns (b, _, _) => b
         | Raises _ => false
         end
    /\ Client.calls K c'
       = Client.calls K c
         ++ match (dac.check_collision E (Server.engine E s)).1 with
            | Returns (true, _, _) =>
                (if Arm.connected (Client.left_arm K c)
                 then [CPS.GrpStop (Arm.boxid (Client.left_arm K c))
                         (Arm.robot_id (Client.left_arm K c))]
                 else [])
                ++ (if Arm.connected (Client.right_arm K c)
                    then [CPS.GrpStop (Arm.boxid (Client.right_arm K c))
                            (Arm.robot_id (Client.right_arm K c))]
                    else [])
            | _ => []
            end.
Proof.
  rewrite check_collision_result.
  destruct (dac.check_collision E (Server.engine E s)).1 as [[[b pairs] dist]|msg].
  - unfold Client.handle_collision_result, bind, lift, assign. cbn.
    destruct b; cbn.
    + eexists. split; [reflexivity|]. split.
      * by rewrite (proj2 (proj2 (emergency_stop_arms K _))).
      * by rewrite emergency_stop_calls.
    + eexists. split; [reflexivity|]. split; [done|]. cbn. by rewrite app_nil_r.
  - unfold Client.handle_collision_result, bind, lift, assign. cbn.
    eexists. split; [reflexivity|]. split; [done|]. cbn. by rewrite app_nil_r.
Qed.

(** X25.  [group_stop] returns [True] exactly when [HRIF_GrpStop]
    returned 0; a non-zero code and an exception both give [False]. *)
Theorem group_stop_true_iff_zero (K : CPS.Sdk) (c : Client.t K) (sd : Client.side) :
  (Client.group_stop K sd c).1 = true
  <-> (CPS.HRIF_GrpStop K (Arm.boxid (Client.arm K sd c))
         (Arm.robot_id (Client.arm K sd c)) (Client.sdk K c)).1 = Returns 0%Z.
Proof.
  unfold Client.group_stop, Client.try_or, bind, Client.invoke.
  destruct (CPS.HRIF_GrpStop K _ _ (Client.sdk K c)) as [[n|msg] k']; cbn.
  - destruct (n =? 0)%Z eqn:Hn; cbn.
    + apply Z.eqb_eq in Hn as ->. done.
    + apply Z.eqb_neq in Hn. split; [discriminate|]. intros [= ->]. done.
  - split; discriminate.
Qed.

Section Heartbeat.
Variable K : CPS.Sdk.
Implicit Types c : Client.t K.

Lemma send_heartbeat_cases net o c :
  Client.send_heartbeat K net o c
  = if Client.client_socket K c then
      if Spec.accepted net then Client.push_sent K Client.ping_request c
      else Client.reconnect K o (Client.push_sent K Client.ping_request c)
    else Client.reconnect K o c.
Proof.
  unfold Client.send_heartbeat, Spec.accepted, bind, gets, assign, raise, ret, lift.
  destruct (Client.client_socket K c); cbn [negb]; [|done].
  destruct (Client.send_ok net); cbn [negb andb]; [|done].
  destruct (Client.response net) as [[[v|e]|]|]; try done.
  by destruct v.
Qed.

Lemma reconnect_sent o c :
  Client.sent K (Client.reconnect K o c) = Client.sent K c.
Proof.
  unfold Client.reconnect, Client.disconnect, Client.connect_to_server.
  by destruct o, (Client.client_socket K c).
Qed.

Lemma reconnect_socket o c :
  Client.client_socket K (Client.reconnect K o c)
  = match o with Client.Socket_raises => false | _ => true end.
Proof.
  unfold Client.reconnect, Client.disconnect, Client.connect_to_server.
  by destruct o, (Client.client_socket K c) eqn:H; cbn.
Qed.

(** What a heartbeat and a telemetry call add to what was sent. *)
Lemma send_heartbeat_sent net o c :
  exists new, Client.sent K (Client.send_heartbeat K net o c) = Client.sent K c ++ new
              /\ length new <= 1.
Proof.
  rewrite send_heartbeat_cases.
  destruct (Client.client_socket K c).
  - exists [Client.ping_request]. split; [|done].
    destruct (Spec.accepted net); [done|]. by rewrite reconnect_sent.
  - exists []. rewrite reconnect_sent, app_nil_r. split; [done|cbn; lia].
Qed.

Lemma send_joint_data_added net c :
  exists new, Client.sent K (Client.send_joint_data K net c).2 = Client.sent K c ++ new
              /\ length new <= 1.
Proof.
  destruct (send_joint_data_cases K net c)
    as [[_ (_ & _ & _ & _ & Hsent)]
       | (lp & rp & lv & rv & _ & _ & _ & _ & _ & _ & _ & Hsent)].
  - exists []. rewrite app_nil_r. split; [done|cbn; lia].
  - eexists. split; [exact Hsent|done].
Qed.

Lemma run_cycles_sent cycles last_heartbeat c :
  exists new,
    Client.sent K (Client.run_cycles K cycles last_heartbeat c) = Client.sent K c ++ new
    /\ length new <= 2 * length cycles.
Proof.
  revert last_heartbeat c.
  induction cycles as [|cy cycles IH]; intros last_heartbeat c.
  - exists []. rewrite app_nil_r. split; [done|cbn; lia].
  - cbn [Client.run_cycles]. unfold Client.iteration.
    destruct (send_joint_data_added (Client.data_net cy) c) as (n1 & E1 & L1).
    destruct (PrimFloat.ltb 5 (PrimFloat.sub (Client.now cy) last_heartbeat)).
    + destruct (send_heartbeat_sent (Client.beat_net cy) (Client.beat_connect cy)
                  (Client.send_joint_data K (Client.data_net cy) c).2)
        as (n2 & E2 & L2).
      destruct (IH (Client.now_after cy)
                  (Client.send_heartbeat K (Client.beat_net cy) (Client.beat_connect cy)
                     (Client.send_joint_data K (Client.data_net cy) c).2))
        as (n3 & E3 & L3).
      exists (n1 ++ n2 ++ n3). rewrite E3, E2, E1, <- !app_assoc.
      split; [done|]. rewrite !length_app. cbn [length]. lia.
    + destruct (IH last_heartbeat (Client.send_joint_data K (Client.data_net cy) c).2)
        as (n3 & E3 & L3).
      exists (n1 ++ n3). rewrite E3, E1, <- !app_assoc.
      split; [done|]. rewrite !length_app. cbn [length]. lia.
Qed.

End Heartbeat.

(** X26.  A heartbeat is satisfied by any reply: empty bytes, or any
    JSON object, whether or not its type is ['pong'].  The ping is the
    only thing sent and nothing else of the client changes. *)
Theorem heartbeat_accepts_any_object (K : CPS.Sdk) (net : Client.Net)
    (o : Client.connecting) (c : Client.t K) :
  Client.client_socket K c = true ->
  Client.send_ok net = true ->
  (Client.response net = Some None
   \/ exists d, Client.response net = Some (Some (Ok (VDict d)))) ->
  Client.send_heartbeat K net o c
  = Client.push_sent K (VDict [("type", VStr "ping")]) c.
Proof.
  intros Hsock Hsend Hresp. rewrite send_heartbeat_cases, Hsock.
  unfold Spec.accepted. rewrite Hsend.
  by destruct Hresp as [-> | [d ->]].
Qed.

Lemma heartbeat_accepts_any_object_witness :
  Client.send_heartbeat (Sample.sdk Sample.left_stop_raises)
    {| Client.send_ok := true;
       Client.response := Some (Some (Ok (VDict [("type", VStr "error")]))) |}
    Client.Socket_raises
    (Sample.client (Sample.sdk Sample.left_stop_raises) tt)
  = Client.push_sent (Sample.sdk Sample.left_stop_raises)
      (VDict [("type", VStr "ping")])
      (Sample.client (Sample.sdk Sample.left_stop_raises) tt).
Proof.
  apply (heartbeat_accepts_any_object (Sample.sdk Sample.left_stop_raises)).
  - reflexivity.
  - reflexivity.
  - right. eexists. reflexivity.
Defined.

(** X27.  A heartbeat that fails after the ping was handed to the socket
    (the send raises, the receive raises, the reply is not JSON or is
    not an object) reconnects once.  Afterwards [client_socket] is
    unset only when [socket.socket] itself raised: when the new socket's
    [connect] raises, the client keeps that unconnected socket. *)
Theorem heartbeat_failure_reconnects (K : CPS.Sdk) (net : Client.Net)
    (o : Client.connecting) (c : Client.t K) :
  Client.client_socket K c = true ->
  (Client.send_ok net = false
   \/ Client.response net = None
   \/ (exists e, Client.response net = Some (Some (Raise e)))
   \/ (exists v, Client.response net = Some (Some (Ok v)) /\ Spec.is_dict v = false)) ->
  Client.send_heartbeat K net o c
  = Client.reconnect K o (Client.push_sent K Client.ping_request c)
  /\ Client.sent K (Client.send_heartbeat K net o c)
     = Client.sent K c ++ [Client.ping_request]
  /\ Client.client_socket K (Client.send_heartbeat K net o c)
     = match o with Client.Socket_raises => false | _ => true end.
Proof.
  intros Hsock Hfail.
  assert (Spec.accepted net = false) as Hacc.
  { unfold Spec.accepted.
    destruct Hfail as [-> | [-> | [[e ->] | (v & -> & ->)]]];
      by rewrite ?andb_false_r. }
  rewrite send_heartbeat_cases, Hsock, Hacc.
  split; [done|]. split; [by rewrite reconnect_sent|apply reconnect_socket].
Qed.

Lemma heartbeat_failure_reconnects_witness :
  Client.client_socket (Sample.sdk Sample.left_stop_raises)
    (Client.send_heartbeat (Sample.sdk Sample.left_stop_raises)
       {| Client.send_ok := true; Client.response := Some (Some (Ok (VList []))) |}
       Client.Connect_raises
       (Sample.client (Sample.sdk Sample.left_stop_raises) tt))
  = true.
Proof.
  apply (heartbeat_failure_reconnects (Sample.sdk Sample.left_stop_raises)
           {| Client.send_ok := true; Client.response := Some (Some (Ok (VList []))) |}
           Client.Connect_raises
           (Sample.client (Sample.sdk Sample.left_stop_raises) tt)).
  - reflexivity.
  - right. right. right. eexists. split; reflexivity.
Defined.

(** X28.  Without a server socket, [send_joint_data] returns [False]
    and hands nothing to [sendall]: the missing socket is met only after
    the reads, and the exception is swallowed.  In particular nothing is
    sent after [disconnect]. *)
Theorem no_socket_sends_nothing (K : CPS.Sdk) (net : Client.Net) (c : Client.t K) :
  Client.client_socket K c = false ->
  (Client.send_joint_data K net c).1 = false
  /\ Spec.only_sdk_moved K c (Client.send_joint_data K net c).2
  /\ Client.sent K (Client.send_joint_data K net (Client.disconnect K c)).2
     = Client.sent K c.
Proof.
  intros Hsock.
  destruct (send_joint_data_cases K net c)
    as [[Hf Hm] | (lp & rp & lv & rv & _ & _ & _ & _ & _ & _ & Hs & _)];
    [|congruence].
  split; [done|]. split; [done|].
  unfold Client.disconnect. rewrite Hsock. by destruct Hm as (_ & _ & _ & _ & ->).
Qed.

Lemma no_socket_sends_nothing_witness :
  (Client.send_joint_data (Sample.sdk Sample.left_stop_raises)
     {| Client.send_ok := true; Client.response := Some None |}
     (Client.disconnect (Sample.sdk Sample.left_stop_raises)
        (Sample.client (Sample.sdk Sample.left_stop_raises) tt))).1
  = false.
Proof.
  apply (no_socket_sends_nothing (Sample.sdk Sample.left_stop_raises)
           {| Client.send_ok := true; Client.response := Some None |}
           (Client.disconnect (Sample.sdk Sample.left_stop_raises)
              (Sample.client (Sample.sdk Sample.left_stop_raises) tt))).
  reflexivity.
Defined.

(** X29.  [start] only appends to what was sent, at most two documents
    per pass of its loop (one telemetry frame, one ping), and nothing
    when the server cannot be reached.  It returns with the socket closed
    when the connection was made; when [connect] raised it returns with
    the unconnected socket still bound. *)
Theorem start_sends_at_most_two_per_pass (K : CPS.Sdk) (o : Client.connecting)
    (t0 : float) (cycles : list Client.Cycle) (c : Client.t K) :
  (exists new,
     Client.sent K (Client.start K o t0 cycles c) = Client.sent K c ++ new
     /\ length new <= 2 * length cycles
     /\ (o <> Client.Connects -> new = []))
  /\ Client.client_socket K (Client.start K o t0 cycles c)
     = match o with
       | Client.Socket_raises => Client.client_socket K c
       | Client.Connect_raises => true
       | Client.Connects => false
       end.
Proof.
  unfold Client.start, Client.connect_to_server.
  destruct o; cbn [negb].
  - split; [|done]. exists []. rewrite app_nil_r. split; [done|]. split; [cbn; lia|done].
  - split; [|done]. exists []. rewrite app_nil_r. split; [done|]. split; [cbn; lia|done].
  - destruct (run_cycles_sent K cycles t0 (Client.set_client_socket K true c))
      as (new & E & L).
    unfold Client.disconnect.
    destruct (Client.client_socket K (Client.run_cycles K cycles t0 _)) eqn:Hs.
    + split; [|done]. exists new. cbn [Client.sent Client.set_client_socket].
      rewrite E. by repeat split.
    + split; [|done]. exists new. rewrite E. by repeat split.
Qed.
